(** * Portfolio-Backend: the retrieval-and-answer pipeline

    A shallow embedding of the RAG core of the repository
    ([ai_services/embedding_service.py], [optimized_rag_service.py],
    [rag_service.py], [cache_service.py], [content_processor.py] and
    [models.py]) together with the properties of its specification.

    Conventions of the embedding:
    - a Python [str] is a Rocq [string]; its characters are read as the code
      points 0..255;
    - a Python [float] is an exact rational ([Q]); [nan] and the infinities
      are not represented;
    - a Python [int] is a [Z];
    - code that may raise returns a [result]; [try]/[except] is [try_except];
    - the collaborators that live outside the repository (the tiktoken
      encoding, [hashlib.md5], the built-in [hash], [numpy]'s square root,
      the OpenAI endpoints, the database and the Django cache back end) are
      parameters, grouped in records. *)

From Stdlib Require Import ZArith QArith Qround String Ascii List Bool Lia.
From Stdlib Require Import Permutation Sorted Lqa.
From stdpp Require Import gmap strings pretty.
Import ListNotations.

Open Scope string_scope.
Open Scope Z_scope.

(* ================================================================== *)
(** * Part I: definitions                                               *)
(* ================================================================== *)

(** ** Python values and control *)

Module Py.

(** The exception classes the modelled code meets. *)
Inductive exn : Type :=
| TypeError (msg : string)
| ValueError (msg : string)
| ZeroDivisionError
| JSONDecodeError
| KeyError (key : string)
| UpstreamError (msg : string).

Inductive result (A : Type) : Type :=
| Returned (a : A)
| Raised (e : exn).
Arguments Returned {A} a.
Arguments Raised {A} e.

Definition bind {A B : Type} (c : result A) (k : A -> result B) : result B :=
  match c with
  | Returned a => k a
  | Raised e => Raised e
  end.

(** [try: c except Exception as e: h e] *)
Definition try_except {A : Type} (c : result A) (h : exn -> result A) : result A :=
  match c with
  | Returned a => Returned a
  | Raised e => h e
  end.

Definition is_returned {A : Type} (c : result A) : bool :=
  match c with Returned _ => true | Raised _ => false end.

(** [str(e)] *)
Definition exn_str (e : exn) : string :=
  match e with
  | TypeError m => m
  | ValueError m => m
  | ZeroDivisionError => "division by zero"
  | JSONDecodeError => "Expecting value"
  | KeyError k => k
  | UpstreamError m => m
  end.

(** [l[start:stop]] for arbitrary integers: a negative index counts from
    the end, and both ends are clamped to the list. *)
Definition slice_index (len i : Z) : Z :=
  if i <? 0 then Z.max 0 (i + len) else Z.min i len.

Definition slice {A : Type} (l : list A) (start stop : Z) : list A :=
  let len := Z.of_nat (length l) in
  let a := slice_index len start in
  let b := slice_index len stop in
  firstn (Z.to_nat (b - a)) (skipn (Z.to_nat a) l).

(** [str.isspace] on one character: the ASCII white space, the four
    separators 0x1c..0x1f, NEL and the no-break space. *)
Definition is_space (c : ascii) : bool :=
  let n := nat_of_ascii c in
  ((9 <=? n) && (n <=? 13) || (28 <=? n) && (n <=? 32)
   || (n =? 133) || (n =? 160))%nat.

(** [str.lower] on one character: the ASCII capitals. *)
Definition lower_char (c : ascii) : ascii :=
  let n := nat_of_ascii c in
  if ((65 <=? n) && (n <=? 90))%nat then ascii_of_nat (n + 32) else c.

Fixpoint lower (s : string) : string :=
  match s with
  | EmptyString => EmptyString
  | String c s' => String (lower_char c) (lower s')
  end.

Fixpoint lstrip (s : string) : string :=
  match s with
  | EmptyString => EmptyString
  | String c s' => if is_space c then lstrip s' else s
  end.

(** [rstrip] keeps a character when it is not white space or when something
    that is kept follows it. *)
Fixpoint rstrip (s : string) : string :=
  match s with
  | EmptyString => EmptyString
  | String c s' =>
      match rstrip s' with
      | EmptyString => if is_space c then EmptyString else String c EmptyString
      | r => String c r
      end
  end.

Definition strip (s : string) : string := rstrip (lstrip s).

(** [re.sub(r'\s+', ' ', s)]: every maximal run of white space becomes one
    space. *)
Fixpoint collapse_run (in_run : bool) (s : string) : string :=
  match s with
  | EmptyString => EmptyString
  | String c s' =>
      if is_space c then
        if in_run then collapse_run true s'
        else String " "%char (collapse_run true s')
      else String c (collapse_run false s')
  end.

Definition collapse_spaces (s : string) : string := collapse_run false s.

(** [needle in haystack] *)
Fixpoint startswith (p s : string) : bool :=
  match p, s with
  | EmptyString, _ => true
  | String a p', String b s' => Ascii.eqb a b && startswith p' s'
  | String _ _, EmptyString => false
  end.

Fixpoint contains (needle haystack : string) : bool :=
  startswith needle haystack ||
  match haystack with
  | EmptyString => false
  | String _ h' => contains needle h'
  end.

(** A string is falsy exactly when it is empty. *)
Definition truthy (s : string) : bool :=
  match s with EmptyString => false | _ => true end.

(** [x or default] on an [Optional[str]]. *)
Definition or_default (x : option string) (d : string) : string :=
  match x with
  | Some s => if truthy s then s else d
  | None => d
  end.

End Py.

Notation "'do' x <- c ; k" := (Py.bind c (fun x => k))
  (at level 10, x name, c at level 100, k at level 200).

(** ** The tokenizer (tiktoken's [cl100k_base], an external collaborator) *)

Definition token : Type := N.

Record Tokenizer : Type := {
  encode : string -> list token;
  decode : list token -> string
}.

(** ** [embedding_service.py] *)

Module EmbeddingService.

Record t : Type := {
  encoding : Tokenizer;
  max_tokens : Z;
  chunk_size : Z;
  chunk_overlap : Z
}.

(** [EmbeddingService.__init__]: the sizes the constructor fixes. *)
Definition init (enc : Tokenizer) : t :=
  {| encoding := enc; max_tokens := 8192; chunk_size := 500;
     chunk_overlap := 50 |}.

Definition len {A : Type} (l : list A) : Z := Z.of_nat (length l).

(** [_clean_text] *)
Definition _clean_text (self : t) (text : string) : string :=
  if negb (Py.truthy text) then ""
  else
    let text := Py.collapse_spaces (Py.strip text) in
    let tokens := encode (encoding self) text in
    if max_tokens self <? len tokens
    then decode (encoding self) (Py.slice tokens 0 (max_tokens self))
    else text.

(** The [while] loop of [chunk_text], on token windows.  One unit of fuel
    is one iteration; [None] means the fuel ran out. *)
Fixpoint chunk_windows (fuel : nat) (size overlap : Z) (tokens : list token)
    (start : Z) : option (list (list token)) :=
  match fuel with
  | O => None
  | S fuel' =>
      if start <? len tokens then
        let end_ := start + size in
        let chunk_tokens := Py.slice tokens start end_ in
        let start' := end_ - overlap in
        if len tokens <=? start' then Some [chunk_tokens]
        else
          match chunk_windows fuel' size overlap tokens start' with
          | Some rest => Some (chunk_tokens :: rest)
          | None => None
          end
      else Some []
  end.

(** The positions the loop visits: [(start, end)] of every iteration. *)
Fixpoint chunk_spans (fuel : nat) (size overlap n : Z) (start : Z)
    : option (list (Z * Z)) :=
  match fuel with
  | O => None
  | S fuel' =>
      if start <? n then
        let end_ := start + size in
        let start' := end_ - overlap in
        if n <=? start' then Some [(start, end_)]
        else
          match chunk_spans fuel' size overlap n start' with
          | Some rest => Some ((start, end_) :: rest)
          | None => None
          end
      else Some []
  end.

(** [chunk_text].  The loop is run with one unit of fuel per token plus
    one, which is enough whenever the window advances. *)
Definition chunk_text (self : t) (text : string) : option (list string) :=
  if negb (Py.truthy text) then Some []
  else
    let text := _clean_text self text in
    let tokens := encode (encoding self) text in
    if len tokens <=? chunk_size self then Some [text]
    else
      match chunk_windows (S (length tokens)) (chunk_size self)
              (chunk_overlap self) tokens 0 with
      | Some ws => Some (List.map (decode (encoding self)) ws)
      | None => None
      end.

End EmbeddingService.

(** A tokenizer to run the definitions on: one token per character. *)
Definition char_tokenizer : Tokenizer :=
  {| encode := fun s => List.map N_of_ascii (list_ascii_of_string s);
     decode := fun ts => string_of_list_ascii (List.map ascii_of_N ts) |}.

(** ** [models.py] *)

Module Models.

(** A [TextField] that holds a JSON-encoded vector, read through what
    [json.loads] makes of it: the blank string, a text that does not parse
    (or is not a list), or the list [set_embedding_vector] wrote. *)
Inductive JsonText : Type :=
| Blank
| Garbled (raw : string)
| JsonVector (v : list Q).

Definition json_truthy (j : JsonText) : bool :=
  match j with Blank => false | _ => true end.

Definition json_loads (j : JsonText) : Py.result (list Q) :=
  match j with
  | JsonVector v => Py.Returned v
  | _ => Py.Raised Py.JSONDecodeError
  end.

Record DocumentChunk : Type := {
  chunk_id : N;
  content : string;
  embedding : JsonText;
  source_type : string;
  source_id : string;
  source_title : string;
  chunk_index : Z;
  token_count : option Z;
  is_active : bool;
  created_at : Z
}.

(** [DocumentChunk.get_embedding_vector] *)
Definition get_embedding_vector (self : DocumentChunk) : list Q :=
  if json_truthy (embedding self) then
    match json_loads (embedding self) with
    | Py.Returned v => v
    | Py.Raised _ => []
    end
  else [].

(** [SOURCE_TYPES] and [get_source_type_display]. *)
Definition SOURCE_TYPES : list (string * string) :=
  [("profile", "Profile Information"); ("project", "Project Description");
   ("experience", "Work Experience"); ("skills", "Skills Information");
   ("education", "Education Background"); ("resume", "Resume Content");
   ("blog", "Blog Post"); ("code", "Code Documentation")].

Fixpoint assoc_default (k : string) (l : list (string * string)) : string :=
  match l with
  | [] => k
  | (k', v) :: l' => if String.eqb k k' then v else assoc_default k l'
  end.

Definition get_source_type_display (self : DocumentChunk) : string :=
  assoc_default (source_type self) SOURCE_TYPES.

Record EmbeddingCache : Type := {
  text_hash : string;
  text_content : string;
  cache_embedding_json : JsonText;
  model_name : string;
  cache_token_count : Z;
  cache_created_at : Z;
  expires_at : option Z
}.

(** [EmbeddingCache.is_expired], at the time [now] that [timezone.now()]
    returns. *)
Definition is_expired (self : EmbeddingCache) (now : Z) : bool :=
  match expires_at self with
  | Some e => e <? now
  | None => false
  end.

End Models.

(** ** Vector arithmetic ([numpy]) *)

Record Numpy : Type := {
  sqrt : Q -> Q
}.

Module Vec.

Local Open Scope Q_scope.

Definition qle (a b : Q) : bool := Qle_bool a b.
Definition qlt (a b : Q) : bool := negb (Qle_bool b a).

(** [min(a, b)] and [max(a, b)]: the first argument wins a tie. *)
Definition qmin (a b : Q) : Q := if qlt b a then b else a.
Definition qmax (a b : Q) : Q := if qlt a b then b else a.

Fixpoint dot (a b : list Q) : Q :=
  match a, b with
  | x :: a', y :: b' => x * y + dot a' b'
  | _, _ => 0
  end.

(** [np.linalg.norm] *)
Definition norm (np : Numpy) (a : list Q) : Q := sqrt np (dot a a).

(** [np.dot] on two one-dimensional arrays raises when the shapes differ. *)
Definition np_dot (a b : list Q) : Py.result Q :=
  if Nat.eqb (length a) (length b) then Py.Returned (dot a b)
  else Py.Raised (Py.ValueError "shapes not aligned").

(** [_cosine_similarity], the same in both services: the body of the [try]
    and the function with its catch-all handler. *)
Definition _cosine_similarity_body (np : Numpy) (vec1 vec2 : list Q) : Py.result Q :=
  do dot_product <- np_dot vec1 vec2;
  let norm_a := norm np vec1 in
  let norm_b := norm np vec2 in
  if Qeq_bool norm_a 0 || Qeq_bool norm_b 0 then Py.Returned 0
  else Py.Returned (dot_product / (norm_a * norm_b)).

Definition _cosine_similarity (np : Numpy) (vec1 vec2 : list Q) : Py.result Q :=
  Py.try_except (_cosine_similarity_body np vec1 vec2)
    (fun _ => Py.Returned 0).

(** Stable sort, largest first, as [list.sort(key=..., reverse=True)] and
    [order_by('-field')] give it: [leb a b] reads "the key of [a] is at most
    the key of [b]". *)
Fixpoint insert_desc {A : Type} (leb : A -> A -> bool) (x : A) (l : list A) : list A :=
  match l with
  | [] => [x]
  | y :: l' => if leb y x then x :: y :: l' else y :: insert_desc leb x l'
  end.

Definition sort_desc {A : Type} (leb : A -> A -> bool) (l : list A) : list A :=
  fold_right (insert_desc leb) [] l.

(** "[a] comes no later than [b]" in a list sorted largest first. *)
Definition geb_rel {A : Type} (leb : A -> A -> bool) (a b : A) : Prop := leb b a = true.

(** A square root to run the definitions on: exact on the squares of
    rationals with a denominator dividing 1000, and rounded down to three
    decimals elsewhere. *)
Definition sqrt3 (x : Q) : Q :=
  Z.sqrt (Qfloor (x * 1000000)) # 1000.

Definition numpy3 : Numpy := {| sqrt := sqrt3 |}.

End Vec.

(** ** The collaborators of the query pipeline *)

Module Api.

(** What the chat-completion endpoint answers: [choices[0].message.content]
    (which may be [None]) and [usage.total_tokens] (absent when [usage] is). *)
Record Completion : Type := {
  message_content : option string;
  usage_total_tokens : option Z
}.

(** The response dictionary of [OptimizedRAGService.query]. *)
Record Response : Type := {
  answer : option string;
  confidence : Q;
  response_time : Q;
  chunks_used : list N;
  chunks_retrieved : Z;
  context_type : option string;
  source_id : option string;
  tokens_used : Z;
  model_used : string
}.

(** One run of a query sees the outside world through these answers.
    [document_chunks] lists the chunk table in the model's default
    ordering; [py_hash] is the built-in [hash] of the running interpreter,
    salted per process. *)
Record World : Type := {
  np : Numpy;
  md5 : string -> string;
  py_hash : string -> Z;
  create_embedding : string -> Py.result (list Q);
  document_chunks : Py.result (list Models.DocumentChunk);
  cache_get : string -> Py.result (option Response);
  cache_set : string -> Py.result unit;
  chat_completion : string -> string -> Py.result Completion;
  ragquery_create : Py.result unit;
  elapsed : Q
}.

End Api.

(** ** [optimized_rag_service.py] *)

Module OptimizedRAGService.

Import Models Api Vec.

Record t : Type := {
  client : bool;
  model : string;
  max_context_tokens : Q;
  max_chunks : Z;
  similarity_threshold : Q;
  batch_size : Z
}.

(** [__init__]; the argument tells whether [OPENAI_API_KEY] is set. *)
Definition init (api_key : bool) : t :=
  {| client := api_key; model := "gpt-3.5-turbo";
     max_context_tokens := 4000 # 1; max_chunks := 5;
     similarity_threshold := 7 # 10; batch_size := 100 |}.

Definition len {A : Type} (l : list A) : Z := Z.of_nat (length l).

Definition is_nil {A : Type} (l : list A) : bool :=
  match l with [] => true | _ => false end.

(** The guard of the inner loop of [_batch_calculate_similarities]. *)
Definition valid_chunk (query_embedding : list Q) (chunk : DocumentChunk) : bool :=
  let chunk_embedding := get_embedding_vector chunk in
  negb (is_nil chunk_embedding)
  && Nat.eqb (length chunk_embedding) (length query_embedding).

(** One row of the vectorized computation: the dot product over the
    product of the norms where that product is positive, [0] elsewhere. *)
Definition batch_similarity (np : Numpy) (query_embedding chunk_embedding : list Q) : Q :=
  let dot_product := dot chunk_embedding query_embedding in
  let norms := (norm np chunk_embedding * norm np query_embedding)%Q in
  if qlt 0 norms then (dot_product / norms)%Q else 0%Q.

Definition process_batch (np : Numpy) (query_embedding : list Q)
    (batch : list DocumentChunk) : list (DocumentChunk * Q) :=
  List.map
    (fun chunk => (chunk, batch_similarity np query_embedding (get_embedding_vector chunk)))
    (List.filter (valid_chunk query_embedding) batch).

(** [for i in range(0, len(chunks), batch_size)], on what is left of the
    list; the fuel is the number of chunks. *)
Fixpoint batch_loop (fuel : nat) (np : Numpy) (size : nat)
    (query_embedding : list Q) (chunks : list DocumentChunk)
    : list (DocumentChunk * Q) :=
  match fuel with
  | O => []
  | S fuel' =>
      match chunks with
      | [] => []
      | _ =>
          process_batch np query_embedding (firstn size chunks)
          ++ batch_loop fuel' np size query_embedding (skipn size chunks)
      end
  end.

(** [_batch_calculate_similarities]; a zero step makes [range] raise and a
    negative one makes it empty. *)
Definition _batch_calculate_similarities (self : t) (np : Numpy)
    (query_embedding : list Q) (chunks : list DocumentChunk)
    : Py.result (list (DocumentChunk * Q)) :=
  if batch_size self =? 0 then
    Py.Raised (Py.ValueError "range() arg 3 must not be zero")
  else if batch_size self <? 0 then Py.Returned []
  else Py.Returned (batch_loop (length chunks) np (Z.to_nat (batch_size self))
                      query_embedding chunks).

(** [queryset[:k]]: Django refuses a negative bound. *)
Definition queryset_limit {A : Type} (queryset : list A) (k : Z) : Py.result (list A) :=
  if k <? 0 then Py.Raised (Py.ValueError "Negative indexing is not supported.")
  else Py.Returned (firstn (Z.to_nat k) queryset).

Definition str_filter (field : DocumentChunk -> string) (value : option string)
    (queryset : list DocumentChunk) : list DocumentChunk :=
  match value with
  | Some v => if Py.truthy v then List.filter (fun c => String.eqb (field c) v) queryset
              else queryset
  | None => queryset
  end.

Definition by_created_at (a b : DocumentChunk) : bool := created_at a <=? created_at b.
Definition by_score (a b : DocumentChunk * Q) : bool := qle (snd a) (snd b).

(** The chunks the search scores: active rows with an embedding, narrowed
    by the filters, newest first, three times the limit of them. *)
Definition candidates (w : World) (context_type source_id : option string) (limit : Z)
    : Py.result (list DocumentChunk) :=
  do rows <- document_chunks w;
  let queryset := List.filter (fun c => is_active c && json_truthy (embedding c)) rows in
  let queryset := str_filter source_type context_type queryset in
  let queryset := str_filter Models.source_id source_id queryset in
  queryset_limit (sort_desc by_created_at queryset) (limit * 3).

(** The body of the [try] of [optimized_similarity_search], up to
    [filtered_similarities[:limit]]: the chunks with their scores. *)
Definition ranked_body (self : t) (w : World) (query : string)
    (context_type source_id : option string) (limit : Z)
    : Py.result (list (DocumentChunk * Q)) :=
  do query_embedding <- create_embedding w query;
  if is_nil query_embedding then Py.Returned []
  else
    do chunks <- candidates w context_type source_id limit;
    if is_nil chunks then Py.Returned []
    else
      do chunk_similarities <-
        _batch_calculate_similarities self (np w) query_embedding chunks;
      let filtered_similarities :=
        List.filter (fun p => qle (similarity_threshold self) (snd p)) chunk_similarities in
      let filtered_similarities := sort_desc by_score filtered_similarities in
      Py.Returned (Py.slice filtered_similarities 0 limit).

Definition ranked (self : t) (w : World) (query : string)
    (context_type source_id : option string) (limit : Z)
    : list (DocumentChunk * Q) :=
  match ranked_body self w query context_type source_id limit with
  | Py.Returned r => r
  | Py.Raised _ => []
  end.

(** [optimized_similarity_search]: [top_chunks], or [[]] from the handler. *)
Definition optimized_similarity_search (self : t) (w : World) (query : string)
    (context_type source_id : option string) (limit : Z) : list DocumentChunk :=
  match ranked_body self w query context_type source_id limit with
  | Py.Returned r => List.map fst r
  | Py.Raised _ => []
  end.

(** [len(s.split())] *)
Fixpoint word_count (in_word : bool) (s : string) : Z :=
  match s with
  | EmptyString => 0
  | String c s' =>
      if Py.is_space c then word_count false s'
      else (if in_word then 0 else 1) + word_count true s'
  end.

Definition nl : string := String "010"%char EmptyString.

Fixpoint join (sep : string) (parts : list string) : string :=
  match parts with
  | [] => ""
  | [p] => p
  | p :: rest => p ++ sep ++ join sep rest
  end.

(** The loop of [_prepare_context]: chunks are taken in order until the
    estimated token count would pass the budget. *)
Fixpoint context_parts (self : t) (chunks : list DocumentChunk) (total_tokens : Q)
    : list string :=
  match chunks with
  | [] => []
  | chunk :: rest =>
      let chunk_context :=
        "[Source: " ++ get_source_type_display chunk
        ++ (if Py.truthy (source_title chunk) then " - " ++ source_title chunk else "")
        ++ "]" ++ nl ++ content chunk ++ nl in
      let chunk_tokens := (inject_Z (word_count false (content chunk)) * (13 # 10))%Q in
      if qlt (max_context_tokens self) (total_tokens + chunk_tokens)%Q then []
      else chunk_context :: context_parts self rest (total_tokens + chunk_tokens)%Q
  end.

Definition _prepare_context (self : t) (chunks : list DocumentChunk) (question : string)
    : string :=
  let context := join nl (context_parts self chunks 0%Q) in
  "Based on the following information about the developer's portfolio:"
  ++ nl ++ nl ++ context ++ nl ++ nl
  ++ "Please answer the following question using only the information provided above. If the information doesn't contain enough detail to answer the question, please say so.".

Record AnswerResult : Type := {
  ar_answer : option string;
  ar_tokens_used : Z;
  ar_model_used : string
}.

Definition system_message : string :=
  join nl
    ["You are an AI assistant representing a developer's portfolio. Your role is to answer questions about the developer's skills, experience, and projects based on the provided context.";
     "";
     "Guidelines:";
     "- Answer based only on the information provided in the context";
     "- Be helpful, professional, and accurate";
     "- If you don't have enough information, say so clearly";
     "- Highlight relevant skills, experience, and achievements";
     "- Keep responses concise but informative";
     "- Use a friendly, professional tone"].

(** [_generate_answer]: the endpoint's answer, or the apology of the
    handler with no tokens used. *)
Definition _generate_answer (self : t) (w : World) (question context : string)
    : AnswerResult :=
  match chat_completion w system_message (context ++ nl ++ nl ++ "Question: " ++ question) with
  | Py.Returned response =>
      {| ar_answer := message_content response;
         ar_tokens_used := match usage_total_tokens response with
                           | Some n => n
                           | None => 0
                           end;
         ar_model_used := model self |}
  | Py.Raised _ =>
      {| ar_answer := Some "I'm sorry, I encountered an error while generating a response. Please try again.";
         ar_tokens_used := 0;
         ar_model_used := model self |}
  end.

(** [a / b] on integers. *)
Definition true_div (a b : Z) : Py.result Q :=
  if b =? 0 then Py.Raised Py.ZeroDivisionError
  else Py.Returned (inject_Z a / inject_Z b)%Q.

(** [len(x)] and [x.lower()] where [x] may be [None]. *)
Definition len_str (x : option string) : Py.result Z :=
  match x with
  | Some s => Py.Returned (Z.of_nat (String.length s))
  | None => Py.Raised (Py.TypeError "object of type 'NoneType' has no len()")
  end.

Definition lower_str (x : option string) : Py.result string :=
  match x with
  | Some s => Py.Returned (Py.lower s)
  | None => Py.Raised (Py.TypeError "'NoneType' object has no attribute 'lower'")
  end.

(** [round(x)] to the nearest integer, ties to the even one, and
    [round(x, 2)]. *)
Definition round_half_even (x : Q) : Z :=
  let f := Qfloor x in
  let r := (x - inject_Z f)%Q in
  if qlt r (1 # 2) then f
  else if qlt (1 # 2) r then f + 1
  else if Z.even f then f else f + 1.

Definition round2 (x : Q) : Q := (inject_Z (round_half_even (x * 100)) / 100)%Q.

Definition uncertainty_indicators : list string :=
  ["not sure"; "unclear"; "don't know"; "insufficient"; "limited information"].

Definition _calculate_confidence_body (self : t) (answer_result : AnswerResult)
    (chunks : list DocumentChunk) : Py.result Q :=
  let base_confidence := (1 # 2)%Q in
  do ratio <- true_div (len chunks) (max_chunks self);
  let chunk_factor := (qmin ratio 1 * (3 # 10))%Q in
  do answer_length <- len_str (ar_answer answer_result);
  let length_factor := (qmin (inject_Z answer_length / 200) 1 * (2 # 10))%Q in
  let tokens_used := ar_tokens_used answer_result in
  let token_factor := (qmin (inject_Z tokens_used / 300) 1 * (2 # 10))%Q in
  do answer_text <- lower_str (ar_answer answer_result);
  let uncertainty_factor :=
    if existsb (fun indicator => Py.contains indicator answer_text) uncertainty_indicators
    then (1 # 10)%Q else 0%Q in
  let confidence :=
    (base_confidence + chunk_factor + length_factor + token_factor - uncertainty_factor)%Q in
  let confidence := qmax 0 (qmin 1 confidence) in
  Py.Returned (round2 confidence).

(** [_calculate_confidence]: the handler answers [0.5]. *)
Definition _calculate_confidence (self : t) (answer_result : AnswerResult)
    (chunks : list DocumentChunk) : Q :=
  match _calculate_confidence_body self answer_result chunks with
  | Py.Returned c => c
  | Py.Raised _ => (1 # 2)%Q
  end.

(** [_get_query_cache_key] *)
Definition cache_string (question : string) (context_type source_id : option string)
    : string :=
  let normalized_question := Py.strip (Py.lower question) in
  normalized_question ++ ":" ++ Py.or_default context_type "all"
  ++ ":" ++ Py.or_default source_id "all".

Definition _get_query_cache_key (w : World) (question : string)
    (context_type source_id : option string) : string :=
  "rag_query_optimized:" ++ md5 w (cache_string question context_type source_id).

Definition _fallback_response (message : string) : Response :=
  {| answer := Some message; confidence := 0; response_time := 0;
     chunks_used := []; chunks_retrieved := 0; context_type := None;
     source_id := None; tokens_used := 0; model_used := "fallback" |}.

(** [CacheService.get_rag_query_cache]: a failing read is a miss. *)
Definition get_rag_query_cache (w : World) (cache_key : string) : option Response :=
  match cache_get w cache_key with
  | Py.Returned r => r
  | Py.Raised _ => None
  end.

(** [CacheService.set_rag_query_cache]: a failing write is raised again. *)
Definition set_rag_query_cache (w : World) (cache_key : string) (response : Response)
    : Py.result string :=
  do _ <- cache_set w cache_key;
  Py.Returned cache_key.

(** [max_chunks or self.max_chunks] *)
Definition or_max_chunks (self : t) (max_chunks_arg : option Z) : Z :=
  match max_chunks_arg with
  | Some n => if n =? 0 then max_chunks self else n
  | None => max_chunks self
  end.

(** The body of the [try] of [query].  [_log_rag_query] swallows its own
    failures and returns nothing, so it leaves no mark on the result. *)
Definition query_body (self : t) (w : World) (question : string)
    (context_type source_id : option string) (max_chunks_arg : option Z)
    : Py.result Response :=
  if negb (client self) then
    Py.Returned (_fallback_response "AI service is not configured. Please try again later.")
  else
    let cache_key := _get_query_cache_key w question context_type source_id in
    match get_rag_query_cache w cache_key with
    | Some cached_result => Py.Returned cached_result
    | None =>
        let relevant_chunks :=
          optimized_similarity_search self w question context_type source_id
            (or_max_chunks self max_chunks_arg) in
        if is_nil relevant_chunks then
          Py.Returned (_fallback_response "I couldn't find relevant information to answer your question.")
        else
          let context := _prepare_context self relevant_chunks question in
          let answer_result := _generate_answer self w question context in
          let confidence := _calculate_confidence self answer_result relevant_chunks in
          let processing_time := elapsed w in
          let response :=
            {| answer := ar_answer answer_result;
               confidence := confidence;
               response_time := processing_time;
               chunks_used := List.map chunk_id relevant_chunks;
               chunks_retrieved := len relevant_chunks;
               context_type := context_type;
               source_id := source_id;
               tokens_used := ar_tokens_used answer_result;
               model_used := model self |} in
          do _ <- set_rag_query_cache w cache_key response;
          Py.Returned response
    end.

(** [query] *)
Definition query (self : t) (w : World) (question : string)
    (context_type source_id : option string) (max_chunks_arg : option Z)
    : Py.result Response :=
  Py.try_except
    (query_body self w question context_type source_id max_chunks_arg)
    (fun _ => Py.Returned (_fallback_response "I encountered an error while processing your question. Please try again.")).

End OptimizedRAGService.

(** ** [rag_service.py] *)

Module RAGService.

Import Models Api Vec.

Record t : Type := {
  api_key : bool;
  model : string;
  max_context_tokens : Z;
  max_chunks : Z;
  similarity_threshold : Q
}.

Definition init (key : bool) : t :=
  {| api_key := key; model := "gpt-3.5-turbo"; max_context_tokens := 4000;
     max_chunks := 5; similarity_threshold := 7 # 10 |}.

Definition by_score (a b : DocumentChunk * Q) : bool := qle (snd a) (snd b).

(** One turn of the scoring loop of [_get_relevant_chunks]: a chunk with a
    blank embedding is skipped, and so is one whose embedding does not
    parse (the bare [except: continue]). *)
Definition score_chunk (np : Numpy) (question_embedding : list Q) (chunk : DocumentChunk)
    : list (DocumentChunk * Q) :=
  if json_truthy (embedding chunk) then
    match (do chunk_embedding <- json_loads (embedding chunk);
           do similarity <- _cosine_similarity np question_embedding chunk_embedding;
           Py.Returned (chunk, similarity)) with
    | Py.Returned p => [p]
    | Py.Raised _ => []
    end
  else [].

Definition scored (w : World) (question : string) (context_type source_id : option string)
    : Py.result (list (DocumentChunk * Q)) :=
  do question_embedding <- create_embedding w question;
  do rows <- document_chunks w;
  let query := OptimizedRAGService.str_filter source_type context_type rows in
  let query := OptimizedRAGService.str_filter Models.source_id source_id query in
  let chunks := firstn 100 query in
  Py.Returned (flat_map (score_chunk (np w) question_embedding) chunks).

(** The chunks [_get_relevant_chunks] keeps, with their scores: the first
    [max_chunks] of the sorted list, those of them at the threshold. *)
Definition ranked_body (self : t) (w : World) (question : string)
    (context_type source_id : option string) (limit : Z)
    : Py.result (list (DocumentChunk * Q)) :=
  do similarities <- scored w question context_type source_id;
  let similarities := sort_desc by_score similarities in
  Py.Returned (List.filter (fun p => qle (similarity_threshold self) (snd p))
                 (Py.slice similarities 0 limit)).

Definition ranked (self : t) (w : World) (question : string)
    (context_type source_id : option string) (limit : Z)
    : list (DocumentChunk * Q) :=
  match ranked_body self w question context_type source_id limit with
  | Py.Returned r => r
  | Py.Raised _ => []
  end.

(** [_get_relevant_chunks] *)
Definition _get_relevant_chunks (self : t) (w : World) (question : string)
    (context_type source_id : option string) (limit : Z) : list DocumentChunk :=
  match ranked_body self w question context_type source_id limit with
  | Py.Returned r => List.map fst r
  | Py.Raised _ => []
  end.

(** [_get_query_cache_key]: the raw question and the filters, joined and
    hashed with the built-in [hash]. *)
Definition key_string (question : string) (context_type source_id : option string)
    : string :=
  OptimizedRAGService.join "_"
    [question; Py.or_default context_type ""; Py.or_default source_id ""].

Definition _get_query_cache_key (w : World) (question : string)
    (context_type source_id : option string) : string :=
  "rag_query_" ++ pretty (py_hash w (key_string question context_type source_id)).

Record Source : Type := {
  src_id : N;
  src_title : string;
  src_content : string;
  src_context_type : string;
  src_source_id : string;
  relevance_score : Q
}.

(** The [metadata] dictionary; a key that is not set is [None]. *)
Record Metadata : Type := {
  md_error : option string;
  md_chunks_found : option Z;
  md_context_length : option Z;
  md_processing_time : option Q;
  md_model_used : option string
}.

(** The dictionary [RAGService.query] returns: it has no confidence. *)
Record Result : Type := {
  answer : string;
  sources : list Source;
  metadata : Metadata
}.

Definition no_metadata : Metadata :=
  {| md_error := None; md_chunks_found := None; md_context_length := None;
     md_processing_time := None; md_model_used := None |}.

(** [_prepare_context] *)
Fixpoint numbered_parts (i : Z) (chunks : list DocumentChunk) : list string :=
  match chunks with
  | [] => []
  | chunk :: rest =>
      ("[Source " ++ pretty i ++ "] " ++ content chunk) :: numbered_parts (i + 1) rest
  end.

Definition _prepare_context (chunks : list DocumentChunk) : string :=
  OptimizedRAGService.join (OptimizedRAGService.nl ++ OptimizedRAGService.nl)
    (numbered_parts 1 chunks).

(** [_generate_answer]: [complete] is the HTTP call with its status check
    and the extraction of the answer. *)
Definition _generate_answer (complete : string -> string -> Py.result string)
    (question context : string) : string :=
  match complete question context with
  | Py.Returned answer => Py.strip answer
  | Py.Raised _ => "I'm sorry, I couldn't generate an answer at the moment. Please try again."
  end.

(** [_prepare_sources] *)
Fixpoint _prepare_sources_from (i : Z) (chunks : list DocumentChunk) : list Source :=
  match chunks with
  | [] => []
  | chunk :: rest =>
      {| src_id := chunk_id chunk;
         src_title := if Py.truthy (source_title chunk) then source_title chunk
                      else "Source " ++ pretty i;
         src_content := if (200 <? Z.of_nat (String.length (content chunk)))
                        then String.substring 0 200 (content chunk) ++ "..."
                        else content chunk;
         src_context_type := source_type chunk;
         src_source_id := Models.source_id chunk;
         relevance_score := 0 |} :: _prepare_sources_from (i + 1) rest
  end.

Definition _prepare_sources (chunks : list DocumentChunk) : list Source :=
  _prepare_sources_from 1 chunks.

(** What one run of [RAGService.query] sees beyond [World]: the Django
    cache read through [_get_cached_query] and the completion call. *)
Record Calls : Type := {
  cached_query : string -> Py.result (option Result);
  complete : string -> string -> Py.result string
}.

(** [_get_cached_query] *)
Definition _get_cached_query (k : Calls) (cache_key : string) : option Result :=
  match cached_query k cache_key with
  | Py.Returned r => r
  | Py.Raised _ => None
  end.

(** The body of the [try] of [query].  [_cache_query] and [_log_query]
    swallow their failures and return nothing. *)
Definition query_body (self : t) (w : World) (k : Calls) (question : string)
    (context_type source_id : option string) (max_chunks_arg : option Z)
    : Py.result Result :=
  if negb (api_key self) then
    Py.Returned
      {| answer := "I'm sorry, but the AI service is not available at the moment. Please try again later.";
         sources := [];
         metadata := {| md_error := Some "OpenAI API not configured";
                        md_chunks_found := None; md_context_length := None;
                        md_processing_time := None; md_model_used := None |} |}
  else
    let cache_key := _get_query_cache_key w question context_type source_id in
    match _get_cached_query k cache_key with
    | Some cached_result => Py.Returned cached_result
    | None =>
        let limit := match max_chunks_arg with
                     | Some n => if n =? 0 then max_chunks self else n
                     | None => max_chunks self
                     end in
        let relevant_chunks :=
          _get_relevant_chunks self w question context_type source_id limit in
        if OptimizedRAGService.is_nil relevant_chunks then
          Py.Returned
            {| answer := "I don't have enough information to answer that question. Please try asking about my skills, projects, or experience.";
               sources := [];
               metadata := {| md_error := None; md_chunks_found := Some 0;
                              md_context_length := None;
                              md_processing_time := Some (elapsed w);
                              md_model_used := None |} |}
        else
          let context := _prepare_context relevant_chunks in
          let answer := _generate_answer (complete k) question context in
          let sources := _prepare_sources relevant_chunks in
          Py.Returned
            {| answer := answer;
               sources := sources;
               metadata := {| md_error := None;
                              md_chunks_found := Some (Z.of_nat (length relevant_chunks));
                              md_context_length := Some (Z.of_nat (String.length context));
                              md_processing_time := Some (elapsed w);
                              md_model_used := Some (model self) |} |}
    end.

(** [query] *)
Definition query (self : t) (w : World) (k : Calls) (question : string)
    (context_type source_id : option string) (max_chunks_arg : option Z)
    : Py.result Result :=
  Py.try_except
    (query_body self w k question context_type source_id max_chunks_arg)
    (fun e =>
       Py.Returned
         {| answer := "I'm sorry, I encountered an error while processing your question. Please try again.";
            sources := [];
            metadata := {| md_error := Some (Py.exn_str e);
                           md_chunks_found := None; md_context_length := None;
                           md_processing_time := Some (elapsed w);
                           md_model_used := None |} |}).

End RAGService.

(** ** [cache_service.py] *)

Module CacheService.

Import Models.

Record t : Type := {
  default_timeout : Z;
  embedding_timeout : Z;
  rag_timeout : Z
}.

Definition init : t :=
  {| default_timeout := 86400; embedding_timeout := 86400 * 7; rag_timeout := 3600 |}.

(** The dictionary kept in the fast tier for one embedding. *)
Record CacheData : Type := {
  cd_embedding : list Q;
  cd_text : string;
  cd_model : string;
  cd_cached_at : Z
}.

(** The two tiers: the Django cache (Redis), each entry with the time it
    lapses, and the rows of the [EmbeddingCache] table ([text_hash] is a
    unique column). *)
Record State : Type := {
  redis : gmap string (CacheData * Z);
  embedding_cache : list EmbeddingCache
}.

(** [cache.get(key)] at time [now] *)
Definition cache_get (st : State) (now : Z) (key : string) : option CacheData :=
  match redis st !! key with
  | Some (data, lapses) => if now <? lapses then Some data else None
  | None => None
  end.

(** [cache.set(key, data, timeout=timeout)] at time [now] *)
Definition cache_set (st : State) (now : Z) (key : string) (data : CacheData)
    (timeout : Z) : State :=
  {| redis := <[key := (data, now + timeout)]> (redis st);
     embedding_cache := embedding_cache st |}.

Definition _hash_text (md5 : string -> string) (text : string) : string := md5 text.

Definition _get_embedding_cache_key (md5 : string -> string) (text : string) : string :=
  "embedding:" ++ _hash_text md5 text.

(** The line [get_cached_embedding] writes to the log on its way out. *)
Inductive LogLine : Type :=
| RetrievedFromRedis
| RetrievedFromDatabase
| NothingLogged
| ErrorLogged.

(** [EmbeddingCache.objects.filter(text_hash=h).first()] *)
Definition first_with_hash (h : string) (rows : list EmbeddingCache)
    : option EmbeddingCache :=
  List.find (fun row => String.eqb (text_hash row) h) rows.

(** [get_cached_embedding]: the value returned, the state left behind and
    the line logged. *)
Definition get_cached_embedding (self : t) (md5 : string -> string) (st : State)
    (now : Z) (text : string) : option (list Q) * State * LogLine :=
  let cache_key := _get_embedding_cache_key md5 text in
  match cache_get st now cache_key with
  | Some cached_data => (Some (cd_embedding cached_data), st, RetrievedFromRedis)
  | None =>
      let h := _hash_text md5 text in
      match first_with_hash h (embedding_cache st) with
      | Some row =>
          match json_loads (cache_embedding_json row) with
          | Py.Returned embedding_vector =>
              let cache_data :=
                {| cd_embedding := embedding_vector;
                   cd_text := text_content row;
                   cd_model := model_name row;
                   cd_cached_at := cache_created_at row |} in
              (Some embedding_vector,
               cache_set st now cache_key cache_data (embedding_timeout self),
               RetrievedFromDatabase)
          | Py.Raised _ => (None, st, ErrorLogged)
          end
      | None => (None, st, NothingLogged)
      end
  end.

(** [update_or_create(text_hash=h, defaults=...)]: the row with that hash
    is rewritten in place, or a new row is added. *)
Fixpoint update_or_create (h : string) (fresh : EmbeddingCache)
    (rows : list EmbeddingCache) : list EmbeddingCache :=
  match rows with
  | [] => [fresh]
  | row :: rest =>
      if String.eqb (text_hash row) h then
        {| text_hash := h;
           text_content := text_content fresh;
           cache_embedding_json := cache_embedding_json fresh;
           model_name := model_name fresh;
           cache_token_count := cache_token_count fresh;
           cache_created_at := cache_created_at fresh;
           expires_at := expires_at row |} :: rest
      else row :: update_or_create h fresh rest
  end.

(** [cache_embedding]: both tiers are written; no expiry is set on the
    row. *)
Definition cache_embedding (self : t) (md5 : string -> string) (st : State)
    (now : Z) (text : string) (embedding : list Q) (model : string) : string * State :=
  let cache_key := _get_embedding_cache_key md5 text in
  let cache_data :=
    {| cd_embedding := embedding; cd_text := String.substring 0 1000 text;
       cd_model := model; cd_cached_at := now |} in
  let st := cache_set st now cache_key cache_data (embedding_timeout self) in
  let h := _hash_text md5 text in
  let fresh :=
    {| text_hash := h;
       text_content := String.substring 0 1000 text;
       cache_embedding_json := JsonVector embedding;
       model_name := model;
       cache_token_count := OptimizedRAGService.word_count false text;
       cache_created_at := now;
       expires_at := None |} in
  (cache_key, {| redis := redis st;
                 embedding_cache := update_or_create h fresh (embedding_cache st) |}).

End CacheService.

(** ** [content_processor.py] *)

Module ContentProcessor.

Import Models.

(** The Python values that travel between the chunker and the ingestion
    loop. *)
#[warnings="-register-all"]
Inductive pyvalue : Type :=
| PyStr (s : string)
| PyInt (n : Z)
| PyDict (items : list (string * pyvalue)).

Fixpoint dict_get (key : string) (items : list (string * pyvalue)) : option pyvalue :=
  match items with
  | [] => None
  | (k, v) :: rest => if String.eqb k key then Some v else dict_get key rest
  end.

(** [v[key]] with a string key. *)
Definition getitem (v : pyvalue) (key : string) : Py.result pyvalue :=
  match v with
  | PyStr _ => Py.Raised (Py.TypeError "string indices must be integers")
  | PyInt _ => Py.Raised (Py.TypeError "'int' object is not subscriptable")
  | PyDict items =>
      match dict_get key items with
      | Some x => Py.Returned x
      | None => Py.Raised (Py.KeyError key)
      end
  end.

(** What the processor asks of [self.embedding_service]. *)
Record Embedder : Type := {
  chunk_text : string -> Py.result (list pyvalue);
  create_embedding : pyvalue -> Py.result (list Q)
}.

(** [EmbeddingService.chunk_text] with the sizes of the constructor; the
    loop always ends with them, so running out of fuel does not occur. *)
Definition chunk_text_strings (enc : Tokenizer) (text : string) : list string :=
  match EmbeddingService.chunk_text (EmbeddingService.init enc) text with
  | Some chunks => chunks
  | None => []
  end.

(** The service [ContentProcessor.__init__] builds: [chunk_text] returns
    strings.  [embed] stands for [create_embedding] on a string. *)
Definition embedding_service (enc : Tokenizer) (embed : string -> Py.result (list Q))
    : Embedder :=
  {| chunk_text := fun text => Py.Returned (List.map PyStr (chunk_text_strings enc text));
     create_embedding := fun v =>
       match v with
       | PyStr s => embed s
       | _ => Py.Raised (Py.TypeError "expected a string")
       end |}.

Inductive Status : Type := pending | processing | completed | failed.

Record ContentProcessingJob : Type := {
  job_id : N;
  job_source_type : string;
  job_source_id : string;
  job_source_title : string;
  job_content : string;
  status : Status;
  chunks_created : Z;
  error_message : string
}.

(** The database as ingestion sees it, with the counter new row ids are
    drawn from and the clock. *)
Record Store : Type := {
  chunks : list DocumentChunk;
  jobs : list ContentProcessingJob;
  next_id : N;
  now : Z
}.

(** [DocumentChunk.objects.create(...)] *)
Definition create_chunk (st : Store) (content : string) (embedding : list Q)
    (source_type source_id source_title : string) (token_count chunk_index : Z)
    : DocumentChunk * Store :=
  let chunk :=
    {| chunk_id := next_id st; Models.content := content;
       embedding := JsonVector embedding;
       Models.source_type := source_type; Models.source_id := source_id;
       Models.source_title := source_title; Models.chunk_index := chunk_index;
       Models.token_count := Some token_count; is_active := true;
       created_at := now st |} in
  (chunk, {| chunks := chunks st ++ [chunk]; jobs := jobs st;
             next_id := N.succ (next_id st); now := now st |}).

Definition as_str (v : pyvalue) : Py.result string :=
  match v with
  | PyStr s => Py.Returned s
  | _ => Py.Raised (Py.TypeError "expected a string")
  end.

Definition as_int (v : pyvalue) : Py.result Z :=
  match v with
  | PyInt n => Py.Returned n
  | _ => Py.Raised (Py.TypeError "expected an integer")
  end.

(** One turn of the loop of [_process_text_content]. *)
Definition process_chunk (svc : Embedder) (st : Store) (chunk_data : pyvalue)
    (source_type source_id source_title : string)
    : Py.result (DocumentChunk * Store) :=
  do content_v <- getitem chunk_data "content";
  do embedding <- create_embedding svc content_v;
  do content <- as_str content_v;
  do token_count_v <- getitem chunk_data "token_count";
  do chunk_index_v <- getitem chunk_data "chunk_index";
  do token_count <- as_int token_count_v;
  do chunk_index <- as_int chunk_index_v;
  Py.Returned (create_chunk st content embedding source_type source_id source_title
                 token_count chunk_index).

Fixpoint process_chunks (svc : Embedder) (st : Store) (chunks_data : list pyvalue)
    (source_type source_id source_title : string)
    : Py.result (list DocumentChunk * Store) :=
  match chunks_data with
  | [] => Py.Returned ([], st)
  | chunk_data :: rest =>
      do r <- process_chunk svc st chunk_data source_type source_id source_title;
      do rs <- process_chunks svc (snd r) rest source_type source_id source_title;
      Py.Returned (fst r :: fst rs, snd rs)
  end.

(** [_process_text_content]: the loop runs inside [transaction.atomic()],
    so a failure leaves the store as it was on entry, and is raised
    again. *)
Definition _process_text_content (svc : Embedder) (st : Store) (content : string)
    (source_type source_id source_title : string)
    : Py.result (list DocumentChunk) * Store :=
  match chunk_text svc content with
  | Py.Raised e => (Py.Raised e, st)
  | Py.Returned chunks_data =>
      match process_chunks svc st chunks_data source_type source_id source_title with
      | Py.Returned (created_chunks, st') => (Py.Returned created_chunks, st')
      | Py.Raised e => (Py.Raised e, st)
      end
  end.

(** A section of a source: its text and the title its chunks carry. *)
Record Section_ : Type := {
  sec_content : string;
  sec_title : string
}.

(** The run of [if text: chunks = self._process_text_content(...);
    chunks_created += len(chunks)] statements of the two entry points;
    the first failure ends the run. *)
Fixpoint process_sections (svc : Embedder) (st : Store) (sections : list Section_)
    (source_type source_id : string) (chunks_created : Z) : Py.result Z * Store :=
  match sections with
  | [] => (Py.Returned chunks_created, st)
  | sec :: rest =>
      if Py.truthy (sec_content sec) then
        match _process_text_content svc st (sec_content sec) source_type source_id
                (sec_title sec) with
        | (Py.Returned created, st') =>
            process_sections svc st' rest source_type source_id
              (chunks_created + Z.of_nat (length created))
        | (Py.Raised e, st') => (Py.Raised e, st')
        end
      else process_sections svc st rest source_type source_id chunks_created
  end.

(** The dictionary an entry point returns. *)
Inductive Outcome : Type :=
| Success (chunks_created : Z) (job : N)
| Failure (error : string).

Definition set_job (st : Store) (id : N) (s : Status) (n : Z) (err : string) : Store :=
  {| chunks := chunks st;
     jobs := List.map (fun j =>
               if N.eqb (job_id j) id then
                 {| job_id := job_id j; job_source_type := job_source_type j;
                    job_source_id := job_source_id j;
                    job_source_title := job_source_title j;
                    job_content := job_content j; status := s;
                    chunks_created := n; error_message := err |}
               else j) (jobs st);
     next_id := next_id st; now := now st |}.

(** The common shape of [process_profile_content] and
    [process_project_content]: a job is opened, the sections are processed
    in order, and the job is closed as completed or as failed. *)
Definition process_source (svc : Embedder) (st : Store)
    (source_type source_id source_title job_text : string) (sections : list Section_)
    : Outcome * Store :=
  let id := next_id st in
  let job :=
    {| job_id := id; job_source_type := source_type; job_source_id := source_id;
       job_source_title := source_title; job_content := job_text;
       status := processing; chunks_created := 0; error_message := "" |} in
  let st := {| chunks := chunks st; jobs := jobs st ++ [job];
               next_id := N.succ id; now := now st |} in
  match process_sections svc st sections source_type source_id 0 with
  | (Py.Returned n, st') => (Success n id, set_job st' id completed n "")
  | (Py.Raised e, st') => (Failure (Py.exn_str e), set_job st' id failed 0 (Py.exn_str e))
  end.

(** A profile, its list-valued fields already put into text by the
    [_format_..._for_processing] helpers (an empty list gives no text). *)
Record Profile : Type := {
  profile_id : string;
  name : string;
  bio : string;
  skills_text : string;
  experience_text : string;
  education_text : string
}.

(** [process_profile_content] *)
Definition process_profile_content (svc : Embedder) (st : Store) (profile : Profile)
    : Outcome * Store :=
  process_source svc st "profile" (profile_id profile) "Profile Content" (bio profile)
    [ {| sec_content := bio profile; sec_title := "Bio" |};
      {| sec_content := skills_text profile; sec_title := "Skills" |};
      {| sec_content := experience_text profile; sec_title := "Experience" |};
      {| sec_content := education_text profile; sec_title := "Education" |} ].

Record Project : Type := {
  project_id : string;
  title : string;
  description : string;
  detailed_description : string;
  tech_stack_text : string;
  achievements_text : string;
  challenges_text : string;
  learnings : string
}.

(** [process_project_content] *)
Definition process_project_content (svc : Embedder) (st : Store) (project : Project)
    : Outcome * Store :=
  process_source svc st "project" (project_id project) (title project)
    (description project)
    [ {| sec_content := description project;
         sec_title := title project ++ " - Description" |};
      {| sec_content := detailed_description project;
         sec_title := title project ++ " - Detailed Description" |};
      {| sec_content := tech_stack_text project;
         sec_title := title project ++ " - Tech Stack" |};
      {| sec_content := achievements_text project;
         sec_title := title project ++ " - Achievements" |};
      {| sec_content := challenges_text project;
         sec_title := title project ++ " - Challenges" |};
      {| sec_content := learnings project;
         sec_title := title project ++ " - Learnings" |} ].

(** The chunks of one source in the store. *)
Definition chunks_of (st : Store) (source_type source_id : string) : list DocumentChunk :=
  List.filter (fun c => String.eqb (Models.source_type c) source_type
                        && String.eqb (Models.source_id c) source_id) (chunks st).

End ContentProcessor.

(** ** The statements of the specification, in the terms of the code *)

Module Spec.

(** How many token positions two chunks share, each chunk given by the
    [(start, end)] of its window over [n] tokens. *)
Definition span_tokens (n : Z) (sp : Z * Z) : Z := Z.min (snd sp) n - fst sp.

Definition span_overlap (n : Z) (a b : Z * Z) : Z :=
  Z.max 0 (Z.min (Z.min (snd a) n) (Z.min (snd b) n) - Z.max (fst a) (fst b)).



(** A text of 920 characters, hence of 920 tokens for [char_tokenizer]. *)
Definition text920 : string := string_of_list_ascii (repeat "a"%char 920).

(** The scores of a ranked list are at the threshold, and run from the
    largest to the smallest. *)
Definition meets_threshold (threshold : Q) (l : list (Models.DocumentChunk * Q)) : Prop :=
  Forall (fun p => (threshold <= snd p)%Q) l.

Definition descending (l : list (Models.DocumentChunk * Q)) : Prop :=
  StronglySorted (fun a b => (snd b <= snd a)%Q) l.

(** A small world to run the pipeline in: six chunks around the query
    vector [(1, 0)]. *)
Definition mk_chunk (id : N) (e : Models.JsonText) (created : Z) : Models.DocumentChunk :=
  {| Models.chunk_id := id; Models.content := "Python and Django";
     Models.embedding := e; Models.source_type := "skills";
     Models.source_id := "p1"; Models.source_title := "Skills";
     Models.chunk_index := 0; Models.token_count := None;
     Models.is_active := true; Models.created_at := created |}.

Definition example_rows : list Models.DocumentChunk :=
  [ mk_chunk 1 (Models.JsonVector [1; 0]%Q) 10;
    mk_chunk 2 (Models.JsonVector [3; 4]%Q) 20;
    mk_chunk 3 (Models.JsonVector [4; 3]%Q) 30;
    mk_chunk 4 (Models.JsonVector [1; 0; 0]%Q) 40;
    mk_chunk 5 (Models.Garbled "not json") 50;
    mk_chunk 6 (Models.JsonVector [0; 0]%Q) 60 ].

(** Stand-ins for the two hash functions: the text itself, and the text
    read as a number in base 256. *)
Definition toy_md5 (s : string) : string := s.

Fixpoint toy_hash_from (acc : Z) (s : string) : Z :=
  match s with
  | EmptyString => acc
  | String c s' => toy_hash_from (acc * 256 + Z.of_nat (nat_of_ascii c)) s'
  end.

Definition toy_hash (s : string) : Z := toy_hash_from 0 s.

Definition example_world : Api.World :=
  {| Api.np := Vec.numpy3;
     Api.md5 := toy_md5;
     Api.py_hash := toy_hash;
     Api.create_embedding := fun _ => Py.Returned [1; 0]%Q;
     Api.document_chunks := Py.Returned example_rows;
     Api.cache_get := fun _ => Py.Returned None;
     Api.cache_set := fun _ => Py.Returned tt;
     Api.chat_completion := fun _ _ =>
       Py.Returned {| Api.message_content := Some "Python and Django.";
                      Api.usage_total_tokens := Some 120 |};
     Api.ragquery_create := Py.Returned tt;
     Api.elapsed := 1 # 4 |}.

(** The confidence score in the words of the specification: a phrase is
    looked for without regard to case, position by position. *)
Fixpoint ci_startswith (phrase s : string) : bool :=
  match phrase, s with
  | EmptyString, _ => true
  | String a phrase', String b s' =>
      Ascii.eqb (Py.lower_char a) (Py.lower_char b) && ci_startswith phrase' s'
  | String _ _, EmptyString => false
  end.

Fixpoint ci_contains (phrase s : string) : bool :=
  ci_startswith phrase s ||
  match s with
  | EmptyString => false
  | String _ s' => ci_contains phrase s'
  end.

Definition uncertainty_phrases : list string :=
  ["not sure"; "unclear"; "don't know"; "insufficient"; "limited information"].

Definition mentions_uncertainty (answer : string) : bool :=
  existsb (fun phrase => ci_contains phrase answer) uncertainty_phrases.

Definition clamp01 (x : Q) : Q := Vec.qmax 0 (Vec.qmin 1 x).

Definition confidence_formula (answer : string) (tokensUsed chunkCount maxChunks : Z) : Q :=
  OptimizedRAGService.round2
    (clamp01
       ((1 # 2)
        + Vec.qmin (inject_Z chunkCount / inject_Z maxChunks) 1 * (3 # 10)
        + Vec.qmin (inject_Z (Z.of_nat (String.length answer)) / 200) 1 * (2 # 10)
        + Vec.qmin (inject_Z tokensUsed / 300) 1 * (2 # 10)
        - (if mentions_uncertainty answer then 1 # 10 else 0)))%Q.

(** The example world with the completion endpoint down, and with an
    endpoint that answers without content. *)
Definition world_synthesis_down : Api.World :=
  {| Api.np := Api.np example_world;
     Api.md5 := Api.md5 example_world;
     Api.py_hash := Api.py_hash example_world;
     Api.create_embedding := Api.create_embedding example_world;
     Api.document_chunks := Api.document_chunks example_world;
     Api.cache_get := Api.cache_get example_world;
     Api.cache_set := Api.cache_set example_world;
     Api.chat_completion := fun _ _ => Py.Raised (Py.UpstreamError "Request timed out.");
     Api.ragquery_create := Api.ragquery_create example_world;
     Api.elapsed := Api.elapsed example_world |}.

Definition world_empty_completion : Api.World :=
  {| Api.np := Api.np example_world;
     Api.md5 := Api.md5 example_world;
     Api.py_hash := Api.py_hash example_world;
     Api.create_embedding := Api.create_embedding example_world;
     Api.document_chunks := Api.document_chunks example_world;
     Api.cache_get := Api.cache_get example_world;
     Api.cache_set := Api.cache_set example_world;
     Api.chat_completion := fun _ _ =>
       Py.Returned {| Api.message_content := None; Api.usage_total_tokens := Some 40 |};
     Api.ragquery_create := Api.ragquery_create example_world;
     Api.elapsed := Api.elapsed example_world |}.

Definition example_calls : RAGService.Calls :=
  {| RAGService.cached_query := fun _ => Py.Returned None;
     RAGService.complete := fun _ _ => Py.Raised (Py.UpstreamError "OpenAI API error: 500") |}.

(** The apology [_generate_answer] returns when the endpoint fails. *)
Definition apology : string :=
  "I'm sorry, I encountered an error while generating a response. Please try again.".

(** Two questions differ only in letter case or in leading and trailing
    white space: each is a core wrapped in white space, and the cores are
    the same once lowered. *)
Fixpoint all_space (s : string) : bool :=
  match s with
  | EmptyString => true
  | String c s' => Py.is_space c && all_space s'
  end.

Definition differ_only_in_case_or_padding (q1 q2 : string) : Prop :=
  exists pre1 core1 post1 pre2 core2 post2,
    q1 = pre1 ++ core1 ++ post1 /\ q2 = pre2 ++ core2 ++ post2
    /\ all_space pre1 = true /\ all_space post1 = true
    /\ all_space pre2 = true /\ all_space post2 = true
    /\ Py.lower core1 = Py.lower core2.

(** An embedding-cache row for the text "hello" that lapsed at time 10,
    with nothing in the fast tier. *)
Definition expired_row : Models.EmbeddingCache :=
  {| Models.text_hash := toy_md5 "hello";
     Models.text_content := "hello";
     Models.cache_embedding_json := Models.JsonVector [1; 2]%Q;
     Models.model_name := "text-embedding-ada-002";
     Models.cache_token_count := 1;
     Models.cache_created_at := 0;
     Models.expires_at := Some 10 |}.

Definition expired_state : CacheService.State :=
  {| CacheService.redis := ∅; CacheService.embedding_cache := [expired_row] |}.

(** The table with every expiry erased. *)
Definition forget_expiry (row : Models.EmbeddingCache) : Models.EmbeddingCache :=
  {| Models.text_hash := Models.text_hash row;
     Models.text_content := Models.text_content row;
     Models.cache_embedding_json := Models.cache_embedding_json row;
     Models.model_name := Models.model_name row;
     Models.cache_token_count := Models.cache_token_count row;
     Models.cache_created_at := Models.cache_created_at row;
     Models.expires_at := None |}.

Definition forget_expiries (st : CacheService.State) : CacheService.State :=
  {| CacheService.redis := CacheService.redis st;
     CacheService.embedding_cache := List.map forget_expiry (CacheService.embedding_cache st) |}.

(** Ingestion examples: a store that already holds one chunk of the
    profile "p1", and that profile with a new bio. *)
Definition stale_chunk : Models.DocumentChunk :=
  {| Models.chunk_id := 7; Models.content := "old bio";
     Models.embedding := Models.JsonVector [1; 0]%Q; Models.source_type := "profile";
     Models.source_id := "p1"; Models.source_title := "Bio";
     Models.chunk_index := 0; Models.token_count := Some 2;
     Models.is_active := true; Models.created_at := 5 |}.

Definition stale_store : ContentProcessor.Store :=
  {| ContentProcessor.chunks := [stale_chunk]; ContentProcessor.jobs := [];
     ContentProcessor.next_id := 8; ContentProcessor.now := 50 |}.

Definition empty_store : ContentProcessor.Store :=
  {| ContentProcessor.chunks := []; ContentProcessor.jobs := [];
     ContentProcessor.next_id := 1; ContentProcessor.now := 50 |}.

Definition profile_p1 : ContentProcessor.Profile :=
  {| ContentProcessor.profile_id := "p1"; ContentProcessor.name := "Ada";
     ContentProcessor.bio := "new bio"; ContentProcessor.skills_text := "";
     ContentProcessor.experience_text := ""; ContentProcessor.education_text := "" |}.


(** A chunker of the kind the ingestion loop is written for: it yields one
    dictionary per chunk. *)
Definition dict_embedder : ContentProcessor.Embedder :=
  {| ContentProcessor.chunk_text := fun text =>
       Py.Returned
         [ContentProcessor.PyDict
            [("content", ContentProcessor.PyStr text);
             ("token_count", ContentProcessor.PyInt 2);
             ("chunk_index", ContentProcessor.PyInt 0)]];
     ContentProcessor.create_embedding := fun _ => Py.Returned [1; 0]%Q |}.


End Spec.

(** ** Further statements about the code *)

Module Shape.

(** A text in the form [_clean_text] leaves it in: no white space at either
    end, and no white space inside but single spaces.  [prev_space] tells
    whether the character before was a space (or the text starts here). *)
Fixpoint single_spaced (prev_space : bool) (s : string) : bool :=
  match s with
  | EmptyString => negb prev_space
  | String c s' =>
      if Py.is_space c then
        Ascii.eqb c " "%char && negb prev_space && single_spaced true s'
      else single_spaced false s'
  end.

Definition normal (s : string) : bool :=
  match s with
  | EmptyString => true
  | _ => single_spaced true s
  end.

End Shape.

(** ** [embedding_service.py]: the calls to the embeddings endpoint *)

Module EmbeddingCalls.

Import Models.

(** The Django cache (each entry with the time it lapses) and the texts
    sent to the endpoint so far, oldest first. *)
Record State : Type := {
  cache : gmap string (JsonText * Z);
  requests : list string
}.

Definition cache_get (st : State) (now : Z) (key : string) : option JsonText :=
  match cache st !! key with
  | Some (value, lapses) => if now <? lapses then Some value else None
  | None => None
  end.

(** [_get_cache_key] *)
Definition _get_cache_key (md5 : string -> string) (text : string) : string := md5 text.

(** [_get_cached_embedding]: a value that does not parse is logged and
    read as no value. *)
Definition _get_cached_embedding (st : State) (now : Z) (cache_key : string)
    : option (list Q) :=
  match cache_get st now ("embedding_" ++ cache_key) with
  | Some cached =>
      if json_truthy cached then
        match json_loads cached with
        | Py.Returned v => Some v
        | Py.Raised _ => None
        end
      else None
  | None => None
  end.

(** [_cache_embedding]: [json.dumps(embedding)], kept for seven days. *)
Definition _cache_embedding (st : State) (now : Z) (cache_key : string)
    (embedding : list Q) : State :=
  {| cache := <["embedding_" ++ cache_key := (JsonVector embedding, now + 3600 * 24 * 7)]>
                (cache st);
     requests := requests st |}.

(** [create_embedding].  [api_key] tells whether the key is configured;
    [post] is the request to the endpoint with its status check and the
    extraction of the vector.  Every exception is logged and raised
    again. *)
Definition create_embedding (self : EmbeddingService.t) (api_key : bool)
    (md5 : string -> string) (post : string -> Py.result (list Q))
    (st : State) (now : Z) (text : string) : Py.result (list Q) * State :=
  if negb api_key then
    (Py.Raised (Py.ValueError "OpenAI API key not initialized. Please configure OPENAI_API_KEY."),
     st)
  else
    let cache_key := _get_cache_key md5 text in
    match _get_cached_embedding st now cache_key with
    | Some (x :: v) => (Py.Returned (x :: v), st)
    | _ =>
        let text := EmbeddingService._clean_text self text in
        if negb (Py.truthy (Py.strip text)) then
          (Py.Raised (Py.ValueError "Empty text provided for embedding"), st)
        else
          let st := {| cache := cache st; requests := requests st ++ [text] |} in
          match post text with
          | Py.Returned embedding =>
              (Py.Returned embedding, _cache_embedding st now cache_key embedding)
          | Py.Raised e => (Py.Raised e, st)
          end
    end.


End EmbeddingCalls.

(** ** [cache_service.py]: clearing *)

Module CacheClearing.

Import Models CacheService.

(** [created_at__lt=cutoff_date] *)
Definition older_than (cutoff_date : Z) (row : EmbeddingCache) : bool :=
  cache_created_at row <? cutoff_date.

(** [cleanup_old_cache]: times are in seconds, a day is 86400 of them.  The
    rows older than the cutoff are counted and deleted. *)
Definition cleanup_old_cache (st : State) (now : Z) (days_old : Z) : Z * State :=
  let cutoff_date := now - days_old * 86400 in
  let old_embeddings := List.filter (older_than cutoff_date) (embedding_cache st) in
  (Z.of_nat (List.length old_embeddings),
   {| redis := redis st;
      embedding_cache :=
        List.filter (fun row => negb (older_than cutoff_date row)) (embedding_cache st) |}).

(** [clear_cache].  For ['all'] the fast tier is cleared and the filter on
    [is_active], a field [EmbeddingCache] does not have, then raises; the
    handler returns 0. *)
Definition clear_cache (st : State) (now : Z) (cache_type : option string) : Z * State :=
  let cleared := {| redis := ∅; embedding_cache := embedding_cache st |} in
  match cache_type with
  | Some scope =>
      if String.eqb scope "embeddings" then cleanup_old_cache st now 30
      else if String.eqb scope "rag" then (0, st)
      else if String.eqb scope "all" then (0, cleared)
      else (0, cleared)
  | None => (0, cleared)
  end.

End CacheClearing.

(** ** The context window and the ranking, in the terms of the code *)

Module Ranking.

Import Models.

(** What [_prepare_context] writes for one chunk, and its estimate of the
    chunk's tokens. *)
Definition chunk_context (chunk : DocumentChunk) : string :=
  "[Source: " ++ get_source_type_display chunk
  ++ (if Py.truthy (source_title chunk) then " - " ++ source_title chunk else "")
  ++ "]" ++ OptimizedRAGService.nl ++ content chunk ++ OptimizedRAGService.nl.

Definition chunk_tokens (chunk : DocumentChunk) : Q :=
  (inject_Z (OptimizedRAGService.word_count false (content chunk)) * (13 # 10))%Q.

(** [total_tokens] after the chunks of a list have been added to it. *)
Fixpoint running_total (total_tokens : Q) (chunks : list DocumentChunk) : Q :=
  match chunks with
  | [] => total_tokens
  | chunk :: rest => running_total (total_tokens + chunk_tokens chunk)%Q rest
  end.

(** The order of a ranked list: no score is below a later one, and of two
    equal scores the chunk created later comes first. *)
Definition by_score_then_recency (a b : DocumentChunk * Q) : Prop :=
  (snd b <= snd a)%Q /\ ((snd a <= snd b)%Q -> created_at (fst b) <= created_at (fst a)).

(** [a] may stand before [b] after a stable sort: its key is not smaller,
    and when the keys are equal [a] was before [b] in the list sorted. *)
Definition stable_rel {A : Type} (leb : A -> A -> bool) (before : A -> A -> Prop)
    (a b : A) : Prop :=
  leb b a = true /\ (leb a b = true -> before a b).

Definition newer_first (a b : DocumentChunk) : Prop := created_at b <= created_at a.

(** A filter value that is set and not empty. *)
Definition filter_matches (value : option string) (field : string) : Prop :=
  forall v, value = Some v -> v <> "" -> field = v.

End Ranking.

(** ** The query cache across queries *)

Module QueryCache.

Import Api.

(** [cache.get(key)] at time [now] on the entries of the query cache. *)
Definition get (entries : gmap string (Response * Z)) (now : Z) (key : string)
    : option Response :=
  match entries !! key with
  | Some (response, lapses) => if now <? lapses then Some response else None
  | None => None
  end.

Definition hit (cached : option Response) : bool :=
  match cached with Some _ => true | None => false end.

(** The world a query sees when the Django cache holds [entries] at time
    [now] and answers every read and write. *)
Definition with_entries (w : World) (entries : gmap string (Response * Z)) (now : Z)
    : World :=
  {| np := np w; md5 := md5 w; py_hash := py_hash w;
     create_embedding := create_embedding w;
     document_chunks := document_chunks w;
     cache_get := fun key => Py.Returned (get entries now key);
     cache_set := fun _ => Py.Returned tt;
     chat_completion := chat_completion w;
     ragquery_create := ragquery_create w;
     elapsed := elapsed w |}.

(** [OptimizedRAGService.query] with the cache it reads and the cache it
    leaves: [set_rag_query_cache] is reached, and stores the response for
    [rag_timeout] seconds, exactly when the client is configured, the read
    missed and chunks were retrieved. *)
Definition query (self : OptimizedRAGService.t) (w : World)
    (entries : gmap string (Response * Z)) (now : Z) (question : string)
    (context_type source_id : option string) (max_chunks_arg : option Z)
    : Py.result Response * gmap string (Response * Z) :=
  let w' := with_entries w entries now in
  let key := OptimizedRAGService._get_query_cache_key w' question context_type source_id in
  let run := OptimizedRAGService.query self w' question context_type source_id max_chunks_arg in
  let relevant_chunks :=
    OptimizedRAGService.optimized_similarity_search self w' question context_type source_id
      (OptimizedRAGService.or_max_chunks self max_chunks_arg) in
  let written :=
    OptimizedRAGService.client self
    && negb (hit (get entries now key))
    && negb (OptimizedRAGService.is_nil relevant_chunks) in
  (run,
   match run with
   | Py.Returned response =>
       if written
       then <[key := (response, now + CacheService.rag_timeout CacheService.init)]> entries
       else entries
   | Py.Raised _ => entries
   end).

End QueryCache.

(** ** [content_processor.py]: reprocessing everything *)

Module Reprocess.

Import ContentProcessor.

(** The counters of [reprocess_all_content]. *)
Record Totals : Type := {
  total_chunks : Z;
  processed_profiles : Z;
  processed_projects : Z
}.

(** [for profile in profiles: ...]: a source counts when its run
    succeeded. *)
Fixpoint process_profiles (svc : Embedder) (st : Store) (profiles : list Profile)
    (totals : Totals) : Totals * Store :=
  match profiles with
  | [] => (totals, st)
  | profile :: rest =>
      let r := process_profile_content svc st profile in
      let totals :=
        match fst r with
        | Success n _ =>
            {| total_chunks := total_chunks totals + n;
               processed_profiles := processed_profiles totals + 1;
               processed_projects := processed_projects totals |}
        | Failure _ => totals
        end in
      process_profiles svc (snd r) rest totals
  end.

Fixpoint process_projects (svc : Embedder) (st : Store) (projects : list Project)
    (totals : Totals) : Totals * Store :=
  match projects with
  | [] => (totals, st)
  | project :: rest =>
      let r := process_project_content svc st project in
      let totals :=
        match fst r with
        | Success n _ =>
            {| total_chunks := total_chunks totals + n;
               processed_profiles := processed_profiles totals;
               processed_projects := processed_projects totals + 1 |}
        | Failure _ => totals
        end in
      process_projects svc (snd r) rest totals
  end.

(** [reprocess_all_content]: every chunk is deleted, then the active
    profiles ([profiles]) and all the projects are processed. *)
Definition reprocess_all_content (svc : Embedder) (st : Store) (profiles : list Profile)
    (projects : list Project) : Totals * Store :=
  let st := {| chunks := []; jobs := jobs st; next_id := next_id st; now := now st |} in
  let r := process_profiles svc st profiles
             {| total_chunks := 0; processed_profiles := 0; processed_projects := 0 |} in
  process_projects svc (snd r) projects (fst r).

(** What a loop over [sources] sources adds to the counters, between the
    state [before] it and the state [after] it: the chunks counted are
    among the chunks stored, no more successes than sources, and with
    every source a success the chunks counted are the chunks stored. *)
Definition counted (before after : Totals * Store) (sources : nat)
    (successes successes' : Z) : Prop :=
  let grown := Z.of_nat (List.length (chunks (snd after)))
               - Z.of_nat (List.length (chunks (snd before))) in
  let counted := total_chunks (fst after) - total_chunks (fst before) in
  0 <= counted <= grown
  /\ successes <= successes' <= successes + Z.of_nat sources
  /\ (successes' = successes + Z.of_nat sources -> counted = grown).

End Reprocess.

(* ================================================================== *)
(** * Part II: properties                                               *)
(* ================================================================== *)

(** ** Slices *)

Section SliceFacts.

Context {A : Type}.
Implicit Types l : list A.

Lemma slice_index_nonneg (n i : Z) : 0 <= i -> Py.slice_index n i = Z.min i n.
Proof.
  intros Hi. unfold Py.slice_index.
  destruct (Z.ltb_spec i 0); [lia | reflexivity].
Qed.

Lemma slice_nat l (a b : nat) :
  Py.slice l (Z.of_nat a) (Z.of_nat b) = firstn (b - a) (skipn a l).
Proof.
  unfold Py.slice. rewrite !slice_index_nonneg by lia.
  destruct (Nat.le_gt_cases (List.length l) a) as [Hge | Hlt].
  - rewrite (skipn_all2 l) by lia.
    rewrite (skipn_all2 l) by lia. now rewrite !firstn_nil.
  - replace (Z.to_nat (Z.min (Z.of_nat a) (Z.of_nat (List.length l)))) with a by lia.
    destruct (Nat.le_gt_cases (List.length l) b) as [Hb | Hb].
    + rewrite !firstn_all2; try reflexivity; rewrite length_skipn; lia.
    + f_equal. lia.
Qed.


Lemma slice_length_le l (a b : Z) : 0 <= b -> (List.length (Py.slice l a b) <= Z.to_nat b)%nat.
Proof.
  intros Hb. unfold Py.slice. rewrite length_firstn.
  rewrite (slice_index_nonneg _ b) by lia.
  unfold Py.slice_index. destruct (Z.ltb_spec a 0); lia.
Qed.

Lemma firstn_In (k : nat) (l : list A) (x : A) : In x (firstn k l) -> In x l.
Proof.
  revert k. induction l as [| y l IH]; intros [| k]; simpl; try tauto.
  intros [-> | H]; [now left | right; now apply (IH k)].
Qed.

Lemma skipn_In (k : nat) (l : list A) (x : A) : In x (skipn k l) -> In x l.
Proof.
  revert k. induction l as [| y l IH]; intros [| k]; simpl; try tauto.
  intros H. right. now apply (IH k).
Qed.

Lemma slice_nil (a b : Z) : Py.slice (@nil A) a b = [].
Proof. unfold Py.slice. now rewrite skipn_nil, firstn_nil. Qed.

Lemma slice_In (a b : Z) l (x : A) : In x (Py.slice l a b) -> In x l.
Proof.
  unfold Py.slice. intros H. apply firstn_In in H.
  eapply skipn_In. exact H.
Qed.

End SliceFacts.

(** ** The chunker *)

Section Chunker.

Import EmbeddingService Spec.

Variables size overlap : Z.
Hypothesis overlap_ok : 0 <= overlap < size.

Lemma slice_Z {A : Type} (l : list A) (a b : Z) :
  0 <= a -> 0 <= b ->
  Py.slice l a b = firstn (Z.to_nat b - Z.to_nat a) (skipn (Z.to_nat a) l).
Proof.
  intros Ha Hb.
  rewrite <- (Z2Nat.id a) at 1 by lia. rewrite <- (Z2Nat.id b) at 1 by lia.
  apply slice_nat.
Qed.

(** The windows are the slices at the positions the loop visits. *)
Lemma chunk_windows_spans (fuel : nat) (tokens : list token) (start : Z) :
  chunk_windows fuel size overlap tokens start =
  option_map (List.map (fun sp => Py.slice tokens (fst sp) (snd sp)))
    (chunk_spans fuel size overlap (len tokens) start).
Proof.
  revert start. induction fuel as [| fuel IH]; intros start; simpl; [reflexivity |].
  destruct (start <? len tokens); [| reflexivity].
  destruct (len tokens <=? start + size - overlap); [reflexivity |].
  rewrite IH. now destruct (chunk_spans fuel size overlap (len tokens) _).
Qed.

(** The loop ends: one unit of fuel per remaining token, plus one, is
    enough. *)
Lemma chunk_spans_terminates (fuel : nat) (n start : Z) :
  0 <= start -> (Z.to_nat (n - start) < fuel)%nat ->
  exists spans, chunk_spans fuel size overlap n start = Some spans.
Proof.
  revert start. induction fuel as [| fuel IH]; intros start Hs Hf; [lia |].
  simpl. destruct (Z.ltb_spec start n) as [Hlt | Hge]; [| eauto].
  destruct (Z.leb_spec n (start + size - overlap)) as [Hdone | Hmore]; [eauto |].
  destruct (IH (start + size - overlap)) as [spans Hspans]; [lia | lia |].
  rewrite Hspans. eauto.
Qed.

(** Every window starts inside the text and is [size] wide; a window
    starts [size - overlap] after the one before it, so that the two share
    [overlap] positions, or all of the later one when it is shorter. *)
Lemma chunk_spans_shape (fuel : nat) (n start : Z) (spans : list (Z * Z)) :
  0 <= start ->
  chunk_spans fuel size overlap n start = Some spans ->
  LocallySorted
    (fun a b => span_overlap n a b = Z.min overlap (span_tokens n b)) spans
  /\ Forall (fun sp => snd sp = fst sp + size /\ 0 <= fst sp < n) spans
  /\ match spans with
     | [] => n <= start
     | sp :: _ => fst sp = start
     end.
Proof.
  revert start spans. induction fuel as [| fuel IH]; intros start spans Hs; simpl;
    [discriminate |].
  destruct (Z.ltb_spec start n) as [Hlt | Hge].
  2:{ intros [= <-]. split; [apply LSorted_nil | split; [constructor | assumption]]. }
  destruct (Z.leb_spec n (start + size - overlap)) as [Hdone | Hmore].
  { intros [= <-]. split; [apply LSorted_cons1 | split; [| reflexivity]].
    constructor; [simpl; lia | constructor]. }
  destruct (chunk_spans fuel size overlap n (start + size - overlap)) as [rest |] eqn:Hrest;
    [| discriminate].
  intros [= <-].
  destruct (IH (start + size - overlap) rest ltac:(lia) Hrest) as (Hsorted & Hall & Hhead).
  split; [| split].
  - destruct rest as [| [s e] rest]; [apply LSorted_cons1 |].
    apply LSorted_consn; [assumption |].
    simpl in Hhead. subst s.
    apply Forall_inv in Hall. simpl in Hall. destruct Hall as [-> _].
    unfold span_overlap, span_tokens; simpl. lia.
  - constructor; [simpl; lia | assumption].
  - reflexivity.
Qed.



End Chunker.

Section ChunkText.

Import EmbeddingService Spec.

Lemma char_tokenizer_decode_nonempty (ts : list token) :
  ts <> [] -> decode char_tokenizer ts <> "".
Proof. destruct ts; [congruence | discriminate]. Qed.

Lemma clean_text_empty (self : t) : _clean_text self "" = "".
Proof. reflexivity. Qed.

(** With an overlap below the chunk size the loop of [chunk_text] ends
    within its fuel, and the chunks are the decoded windows. *)
Lemma chunk_text_windows (self : t) (text : string) :
  0 <= chunk_overlap self < chunk_size self ->
  text <> "" ->
  let tokens := encode (encoding self) (_clean_text self text) in
  chunk_size self < len tokens ->
  exists spans,
    chunk_spans (S (List.length tokens)) (chunk_size self) (chunk_overlap self)
      (len tokens) 0 = Some spans
    /\ chunk_text self text
       = Some (List.map (decode (encoding self))
                 (List.map (fun sp => Py.slice tokens (fst sp) (snd sp)) spans)).
Proof.
  intros Hov Htext tokens Hlong.
  destruct (chunk_spans_terminates (chunk_size self) (chunk_overlap self) Hov
              (S (List.length tokens)) (len tokens) 0) as [spans Hspans];
    [lia | unfold len; lia |].
  exists spans. split; [assumption |].
  unfold chunk_text. destruct text as [| c text]; [congruence |].
  cbn [Py.truthy negb]. fold tokens.
  destruct (Z.leb_spec (len tokens) (chunk_size self)); [lia |].
  rewrite chunk_windows_spans, Hspans. reflexivity.
Qed.

End ChunkText.




Section ChunksNonEmpty.

Import EmbeddingService Spec.

Lemma slice_nonempty {A : Type} (l : list A) (s e : Z) :
  0 <= s < Z.of_nat (List.length l) -> s < e -> Py.slice l s e <> [].
Proof.
  intros Hs He Hnil. apply (f_equal (@List.length A)) in Hnil.
  rewrite slice_Z in Hnil by lia.
  rewrite length_firstn, length_skipn in Hnil. simpl in Hnil. lia.
Qed.

Lemma chunk_text_total_nonempty (self : t) (text : string) :
  (forall ts, ts <> [] -> decode (encoding self) ts <> "") ->
  0 <= chunk_overlap self < chunk_size self ->
  _clean_text self text <> "" ->
  exists chunks,
    chunk_text self text = Some chunks /\ Forall (fun c => c <> "") chunks.
Proof.
  intros Hdec Hov Hclean.
  assert (Htext : text <> "") by (intros ->; now apply Hclean).
  destruct (Z.leb_spec (len (encode (encoding self) (_clean_text self text)))
              (chunk_size self)) as [Hshort | Hlong].
  - exists [_clean_text self text]. split; [| now constructor].
    unfold chunk_text. destruct text; [congruence |]. cbn [Py.truthy negb].
    destruct (Z.leb_spec (len (encode (encoding self) (_clean_text self (String a text))))
                (chunk_size self)); [reflexivity | lia].
  - destruct (chunk_text_windows self text Hov Htext Hlong) as (spans & Hspans & Hchunks).
    eexists. split; [exact Hchunks |].
    destruct (chunk_spans_shape _ _ Hov _ _ 0 spans ltac:(lia) Hspans) as (_ & Hall & _).
    rewrite !List.Forall_map. eapply List.Forall_impl; [| exact Hall].
    intros [s e] [He Hs]. simpl in *. apply Hdec, slice_nonempty; [exact Hs | lia].
Qed.

End ChunksNonEmpty.

(** C6 (as amended).  For a text whose normalized form is not empty (and a
    decoder that gives no empty text for a non-empty token list, with an
    overlap below the chunk size): when the normalized token count is at
    most the chunk size, [chunk_text] returns exactly the one-element
    sequence holding the normalized text; in every case it returns, and no
    chunk it returns is the empty string.  For the empty text it returns
    the empty sequence. *)
Theorem chunk_text_single_and_nonempty (self : EmbeddingService.t) (text : string) :
  (forall ts, ts <> [] -> decode (EmbeddingService.encoding self) ts <> "") ->
  0 <= EmbeddingService.chunk_overlap self < EmbeddingService.chunk_size self ->
  EmbeddingService._clean_text self text <> "" ->
  (EmbeddingService.len
     (encode (EmbeddingService.encoding self) (EmbeddingService._clean_text self text))
   <= EmbeddingService.chunk_size self ->
   EmbeddingService.chunk_text self text = Some [EmbeddingService._clean_text self text])
  /\ (exists chunks,
        EmbeddingService.chunk_text self text = Some chunks
        /\ Forall (fun c => c <> "") chunks)
  /\ EmbeddingService.chunk_text self "" = Some [].
Proof.
  intros Hdec Hov Hclean. split; [| split].
  - intros Hshort. unfold EmbeddingService.chunk_text.
    destruct text as [| c text]; [now elim Hclean |]. cbn [Py.truthy negb].
    destruct (Z.leb_spec
                (EmbeddingService.len
                   (encode (EmbeddingService.encoding self)
                      (EmbeddingService._clean_text self (String c text))))
                (EmbeddingService.chunk_size self)); [reflexivity | lia].
  - now apply chunk_text_total_nonempty.
  - reflexivity.
Qed.

Lemma chunk_text_single_and_nonempty_witness :
  let self := EmbeddingService.init char_tokenizer in
  (EmbeddingService.len (encode char_tokenizer (EmbeddingService._clean_text self "  built  with
 Django "))
   <= 500 ->
   EmbeddingService.chunk_text self "  built  with
 Django " = Some ["built with Django"])
  /\ (exists chunks,
        EmbeddingService.chunk_text self "  built  with
 Django " = Some chunks
        /\ Forall (fun c => c <> "") chunks)
  /\ EmbeddingService.chunk_text self "" = Some [].
Proof.
  apply (chunk_text_single_and_nonempty (EmbeddingService.init char_tokenizer)
           "  built  with
 Django ").
  - exact char_tokenizer_decode_nonempty.
  - simpl. lia.
  - vm_compute. discriminate.
Defined.

(** C6, as stated, fails twice.  The empty text has no token, yet the
    chunker returns no chunk for it rather than the one-element sequence;
    and a text made of white space only is returned as one chunk that is
    the empty string. *)
Lemma chunk_text_counterexample :
  let self := EmbeddingService.init char_tokenizer in
  (EmbeddingService.len (encode char_tokenizer (EmbeddingService._clean_text self ""))
   <= EmbeddingService.chunk_size self
   /\ EmbeddingService.chunk_text self "" = Some []
   /\ EmbeddingService.chunk_text self "" <> Some [EmbeddingService._clean_text self ""])
  /\ EmbeddingService.chunk_text self "   " = Some [""].
Proof.
  cbv zeta. split; [split; [| split] |].
  - vm_compute. discriminate.
  - reflexivity.
  - vm_compute. discriminate.
  - vm_compute. reflexivity.
Qed.

(** ** Stable sorting, largest first *)

Section SortDesc.

Context {A : Type} (leb : A -> A -> bool).
Hypothesis leb_total : forall a b, leb a b = true \/ leb b a = true.
Hypothesis leb_trans : forall a b c, leb a b = true -> leb b c = true -> leb a c = true.

Lemma insert_desc_perm (x : A) (l : list A) :
  Permutation (x :: l) (Vec.insert_desc leb x l).
Proof.
  induction l as [| y l IH]; simpl; [reflexivity |].
  destruct (leb y x); [reflexivity |].
  rewrite perm_swap. now constructor.
Qed.

Lemma sort_desc_perm (l : list A) : Permutation l (Vec.sort_desc leb l).
Proof.
  induction l as [| x l IH]; simpl; [constructor |].
  rewrite <- insert_desc_perm. now constructor.
Qed.

Lemma sort_desc_In (x : A) (l : list A) : In x (Vec.sort_desc leb l) <-> In x l.
Proof.
  split; apply Permutation_in; [symmetry |]; apply sort_desc_perm.
Qed.

Lemma insert_desc_sorted (x : A) (l : list A) :
  StronglySorted (Vec.geb_rel leb) l -> StronglySorted (Vec.geb_rel leb) (Vec.insert_desc leb x l).
Proof.
  induction l as [| y l IH]; intros Hs; simpl.
  - constructor; constructor.
  - inversion Hs as [| ? ? Hl Hy]; subst.
    destruct (leb y x) eqn:Hyx.
    + constructor; [assumption |]. constructor; [exact Hyx |].
      eapply List.Forall_impl; [| exact Hy].
      intros z Hz. unfold Vec.geb_rel in *. eauto.
    + constructor; [now apply IH |].
      assert (Hxy : leb x y = true) by (destruct (leb_total x y); congruence).
      rewrite List.Forall_forall. intros z Hz.
      apply (Permutation_in _ (Permutation_sym (insert_desc_perm x l))) in Hz.
      destruct Hz as [<- | Hz]; [exact Hxy |].
      rewrite List.Forall_forall in Hy. now apply Hy.
Qed.

Lemma sort_desc_sorted (l : list A) : StronglySorted (Vec.geb_rel leb) (Vec.sort_desc leb l).
Proof.
  induction l as [| x l IH]; simpl; [constructor |]. now apply insert_desc_sorted.
Qed.

End SortDesc.

Section SortedSublists.

Context {A : Type} (R : A -> A -> Prop).

Lemma StronglySorted_filter (f : A -> bool) (l : list A) :
  StronglySorted R l -> StronglySorted R (List.filter f l).
Proof.
  induction 1 as [| x l Hl IH Hx]; simpl; [constructor |].
  destruct (f x); [| assumption].
  constructor; [assumption |].
  rewrite List.Forall_forall in *. intros y Hy. apply Hx.
  now apply List.filter_In in Hy.
Qed.

Lemma StronglySorted_firstn (k : nat) (l : list A) :
  StronglySorted R l -> StronglySorted R (firstn k l).
Proof.
  intros Hs. revert k. induction Hs as [| x l Hl IH Hx]; intros [| k]; simpl;
    try constructor; [apply IH |].
  rewrite List.Forall_forall in *. intros y Hy. apply Hx.
  eapply firstn_In. exact Hy.
Qed.

Lemma StronglySorted_skipn (k : nat) (l : list A) :
  StronglySorted R l -> StronglySorted R (skipn k l).
Proof.
  intros Hs. revert k. induction Hs as [| x l Hl IH Hx]; intros [| k]; simpl;
    try constructor; try assumption. apply IH.
Qed.

Lemma StronglySorted_slice (a b : Z) (l : list A) :
  StronglySorted R l -> StronglySorted R (Py.slice l a b).
Proof.
  intros Hs. unfold Py.slice. now apply StronglySorted_firstn, StronglySorted_skipn.
Qed.

End SortedSublists.

Section ScoreOrder.

Import Vec.

Lemma qle_total (a b : Q) : qle a b = true \/ qle b a = true.
Proof.
  unfold qle. rewrite !Qle_bool_iff.
  destruct (Qlt_le_dec a b) as [H | H]; [left; now apply Qlt_le_weak | now right].
Qed.

Lemma qle_trans (a b c : Q) : qle a b = true -> qle b c = true -> qle a c = true.
Proof. unfold qle. rewrite !Qle_bool_iff. apply Qle_trans. Qed.

Lemma qlt_spec (a b : Q) : qlt a b = true <-> (a < b)%Q.
Proof.
  unfold qlt. rewrite negb_true_iff. split.
  - intros H. apply Qnot_le_lt. intros Hle. apply Qle_bool_iff in Hle. congruence.
  - intros H. destruct (Qle_bool b a) eqn:E; [| reflexivity].
    apply Qle_bool_iff in E. exfalso. now apply (Qlt_not_le a b).
Qed.

End ScoreOrder.

(** ** Similarity *)

Section Similarity.

Import Models Api Vec.

Lemma StronglySorted_weaken {A : Type} (R S : A -> A -> Prop) (l : list A) :
  (forall a b, R a b -> S a b) -> StronglySorted R l -> StronglySorted S l.
Proof.
  intros HRS. induction 1 as [| x l Hl IH Hx]; constructor; [assumption |].
  eapply List.Forall_impl; [| exact Hx]. intros; now apply HRS.
Qed.



Lemma cosine_similarity_mismatch (np : Numpy) (vec1 vec2 : list Q) :
  List.length vec1 <> List.length vec2 ->
  _cosine_similarity np vec1 vec2 = Py.Returned 0%Q.
Proof.
  intros Hne. unfold _cosine_similarity, _cosine_similarity_body, np_dot.
  destruct (Nat.eqb_spec (List.length vec1) (List.length vec2)); [contradiction | reflexivity].
Qed.


Lemma process_batch_app (np : Numpy) (q : list Q) (l1 l2 : list DocumentChunk) :
  OptimizedRAGService.process_batch np q (l1 ++ l2)
  = (OptimizedRAGService.process_batch np q l1
     ++ OptimizedRAGService.process_batch np q l2)%list.
Proof.
  unfold OptimizedRAGService.process_batch. now rewrite List.filter_app, List.map_app.
Qed.

(** Batching does not show in the result: the loop scores the valid
    chunks, in order. *)
Lemma batch_loop_flat (np : Numpy) (q : list Q) (size fuel : nat)
    (chunks : list DocumentChunk) :
  (1 <= size)%nat -> (List.length chunks <= fuel)%nat ->
  OptimizedRAGService.batch_loop fuel np size q chunks
  = OptimizedRAGService.process_batch np q chunks.
Proof.
  intros Hsize. revert chunks. induction fuel as [| fuel IH]; intros chunks Hfuel.
  - destruct chunks; [reflexivity | simpl in Hfuel; lia].
  - destruct chunks as [| c chunks]; [reflexivity |].
    cbn [OptimizedRAGService.batch_loop].
    rewrite IH.
    + rewrite <- process_batch_app. now rewrite firstn_skipn.
    + rewrite length_skipn. simpl in *. lia.
Qed.


Lemma process_batch_In (np : Numpy) (q : list Q) (chunks : list DocumentChunk)
    (p : DocumentChunk * Q) :
  In p (OptimizedRAGService.process_batch np q chunks) ->
  In (fst p) chunks
  /\ OptimizedRAGService.valid_chunk q (fst p) = true
  /\ snd p = OptimizedRAGService.batch_similarity np q (get_embedding_vector (fst p)).
Proof.
  unfold OptimizedRAGService.process_batch. rewrite List.in_map_iff.
  intros (c & <- & Hc). apply List.filter_In in Hc. simpl. tauto.
Qed.

Lemma batch_loop_In (np : Numpy) (q : list Q) (size fuel : nat)
    (chunks : list DocumentChunk) (p : DocumentChunk * Q) :
  In p (OptimizedRAGService.batch_loop fuel np size q chunks) ->
  In (fst p) chunks
  /\ OptimizedRAGService.valid_chunk q (fst p) = true
  /\ snd p = OptimizedRAGService.batch_similarity np q (get_embedding_vector (fst p)).
Proof.
  revert chunks. induction fuel as [| fuel IH]; intros chunks; simpl; [tauto |].
  destruct chunks as [| c chunks]; [simpl; tauto |].
  rewrite List.in_app_iff. intros [H | H].
  - apply process_batch_In in H. destruct H as (Hin & Hrest).
    split; [eapply firstn_In; exact Hin | exact Hrest].
  - apply IH in H. destruct H as (Hin & Hrest).
    split; [eapply skipn_In; exact Hin | exact Hrest].
Qed.

Lemma batch_calculate_similarities_In (self : OptimizedRAGService.t) (np : Numpy)
    (q : list Q) (chunks : list DocumentChunk) (sims : list (DocumentChunk * Q))
    (p : DocumentChunk * Q) :
  OptimizedRAGService._batch_calculate_similarities self np q chunks = Py.Returned sims ->
  In p sims ->
  In (fst p) chunks
  /\ OptimizedRAGService.valid_chunk q (fst p) = true
  /\ snd p = OptimizedRAGService.batch_similarity np q (get_embedding_vector (fst p)).
Proof.
  unfold OptimizedRAGService._batch_calculate_similarities.
  destruct (OptimizedRAGService.batch_size self =? 0); [discriminate |].
  destruct (OptimizedRAGService.batch_size self <? 0).
  - intros [= <-] [].
  - intros [= <-]. apply batch_loop_In.
Qed.

Lemma valid_chunk_length (q : list Q) (c : DocumentChunk) :
  OptimizedRAGService.valid_chunk q c = true ->
  List.length (get_embedding_vector c) = List.length q.
Proof.
  unfold OptimizedRAGService.valid_chunk. rewrite andb_true_iff.
  intros [_ H]. now apply Nat.eqb_eq.
Qed.

End Similarity.

Section Search.

Import Models Api Vec Spec.

Lemma by_score_desc (l : list (DocumentChunk * Q)) :
  descending (sort_desc OptimizedRAGService.by_score l).
Proof.
  unfold descending.
  apply (StronglySorted_weaken (Vec.geb_rel OptimizedRAGService.by_score)).
  - intros a b H. unfold Vec.geb_rel, OptimizedRAGService.by_score, qle in H.
    now apply Qle_bool_iff.
  - apply sort_desc_sorted.
    + intros a b. apply qle_total.
    + intros a b c. apply qle_trans.
Qed.

Lemma filter_threshold (thr : Q) (l : list (DocumentChunk * Q)) :
  meets_threshold thr (List.filter (fun p => qle thr (snd p)) l).
Proof.
  unfold meets_threshold. rewrite List.Forall_forall. intros p Hp.
  apply List.filter_In in Hp. destruct Hp as [_ Hp]. now apply Qle_bool_iff.
Qed.

Lemma filter_below (thr : Q) (l : list (DocumentChunk * Q)) :
  Forall (fun p => (snd p < thr)%Q) l ->
  List.filter (fun p => qle thr (snd p)) l = [].
Proof.
  induction 1 as [| p l Hp Hl IH]; simpl; [reflexivity |].
  destruct (qle thr (snd p)) eqn:E; [| exact IH].
  apply Qle_bool_iff in E. exfalso. now apply (Qlt_not_le _ _ Hp).
Qed.

(** What [optimized_similarity_search] computes when nothing raises and
    neither early return is taken. *)
Lemma optimized_ranked_cases (self : OptimizedRAGService.t) (w : World) (query : string)
    (context_type source_id : option string) (limit : Z) :
  (OptimizedRAGService.ranked self w query context_type source_id limit = []
   /\ OptimizedRAGService.optimized_similarity_search self w query context_type source_id limit = [])
  \/ exists qe chunks sims,
       create_embedding w query = Py.Returned qe
       /\ OptimizedRAGService.candidates w context_type source_id limit = Py.Returned chunks
       /\ OptimizedRAGService._batch_calculate_similarities self (np w) qe chunks
          = Py.Returned sims
       /\ OptimizedRAGService.ranked self w query context_type source_id limit
          = Py.slice (sort_desc OptimizedRAGService.by_score
                        (List.filter (fun p => qle (OptimizedRAGService.similarity_threshold self) (snd p)) sims))
              0 limit.
Proof.
  unfold OptimizedRAGService.ranked, OptimizedRAGService.optimized_similarity_search,
    OptimizedRAGService.ranked_body.
  destruct (create_embedding w query) as [qe | e] eqn:Hqe; simpl; [| now left].
  destruct (OptimizedRAGService.is_nil qe); [now left |].
  destruct (OptimizedRAGService.candidates w context_type source_id limit)
    as [chunks | e] eqn:Hc; simpl; [| now left].
  destruct (OptimizedRAGService.is_nil chunks); [now left |].
  destruct (OptimizedRAGService._batch_calculate_similarities self (np w) qe chunks)
    as [sims | e] eqn:Hb; simpl; [| now left].
  right. exists qe, chunks, sims. auto.
Qed.

Lemma optimized_search_is_ranked (self : OptimizedRAGService.t) (w : World) (query : string)
    (context_type source_id : option string) (limit : Z) :
  OptimizedRAGService.optimized_similarity_search self w query context_type source_id limit
  = List.map fst (OptimizedRAGService.ranked self w query context_type source_id limit).
Proof.
  unfold OptimizedRAGService.ranked, OptimizedRAGService.optimized_similarity_search.
  now destruct (OptimizedRAGService.ranked_body self w query context_type source_id limit).
Qed.

Lemma rag_ranked_cases (self : RAGService.t) (w : World) (question : string)
    (context_type source_id : option string) (limit : Z) :
  (RAGService.ranked self w question context_type source_id limit = []
   /\ Py.is_returned (RAGService.scored w question context_type source_id) = false)
  \/ exists sims,
       RAGService.scored w question context_type source_id = Py.Returned sims
       /\ RAGService.ranked self w question context_type source_id limit
          = List.filter (fun p => qle (RAGService.similarity_threshold self) (snd p))
              (Py.slice (sort_desc RAGService.by_score sims) 0 limit).
Proof.
  unfold RAGService.ranked, RAGService.ranked_body.
  destruct (RAGService.scored w question context_type source_id) as [sims | e];
    simpl; [right; eauto | now left].
Qed.

Lemma rag_search_is_ranked (self : RAGService.t) (w : World) (question : string)
    (context_type source_id : option string) (limit : Z) :
  RAGService._get_relevant_chunks self w question context_type source_id limit
  = List.map fst (RAGService.ranked self w question context_type source_id limit).
Proof.
  unfold RAGService.ranked, RAGService._get_relevant_chunks.
  now destruct (RAGService.ranked_body self w question context_type source_id limit).
Qed.

Lemma score_chunk_In (np : Numpy) (qe : list Q) (c : DocumentChunk) (p : DocumentChunk * Q) :
  In p (RAGService.score_chunk np qe c) ->
  fst p = c
  /\ exists v, json_loads (embedding c) = Py.Returned v
               /\ _cosine_similarity np qe v = Py.Returned (snd p).
Proof.
  unfold RAGService.score_chunk.
  destruct (json_truthy (embedding c)); [| intros []].
  destruct (json_loads (embedding c)) as [v | e]; simpl; [| intros []].
  destruct (_cosine_similarity np qe v) as [s | e] eqn:Hs; simpl; [| intros []].
  intros [<- | []]. split; [reflexivity |]. exists v. auto.
Qed.

End Search.

(** C1.  For every query, filter and limit (not negative), in both
    services: the search returns the chunks of a ranked list whose scores
    are all at or above the similarity threshold, run from the largest to
    the smallest, and are the cosine similarities of the chunks to the
    query vector; the list has at most [limit] entries; and when every
    scored chunk is below the threshold the search returns the empty list
    (the search has no way to raise: its handler returns the empty list
    too). *)
Theorem similarity_search_threshold_sorted_limit
    (o : OptimizedRAGService.t) (r : RAGService.t) (w : Api.World) (query : string)
    (context_type source_id : option string) (limit : Z) :
  0 <= limit ->
  let ranked_o := OptimizedRAGService.ranked o w query context_type source_id limit in
  let ranked_r := RAGService.ranked r w query context_type source_id limit in
  (OptimizedRAGService.optimized_similarity_search o w query context_type source_id limit
   = List.map fst ranked_o
   /\ Spec.meets_threshold (OptimizedRAGService.similarity_threshold o) ranked_o
   /\ Spec.descending ranked_o
   /\ Z.of_nat (List.length ranked_o) <= limit
   /\ (forall p, In p ranked_o ->
       exists qe, Api.create_embedding w query = Py.Returned qe
         /\ List.length (Models.get_embedding_vector (fst p)) = List.length qe
         /\ snd p = OptimizedRAGService.batch_similarity (Api.np w) qe
                      (Models.get_embedding_vector (fst p)))
   /\ ((forall qe chunks sims,
          Api.create_embedding w query = Py.Returned qe ->
          OptimizedRAGService.candidates w context_type source_id limit = Py.Returned chunks ->
          OptimizedRAGService._batch_calculate_similarities o (Api.np w) qe chunks
          = Py.Returned sims ->
          Forall (fun p => (snd p < OptimizedRAGService.similarity_threshold o)%Q) sims) ->
       OptimizedRAGService.optimized_similarity_search o w query context_type source_id limit
       = []))
  /\ (RAGService._get_relevant_chunks r w query context_type source_id limit
      = List.map fst ranked_r
      /\ Spec.meets_threshold (RAGService.similarity_threshold r) ranked_r
      /\ Spec.descending ranked_r
      /\ Z.of_nat (List.length ranked_r) <= limit
      /\ (forall p, In p ranked_r ->
          exists qe v, Api.create_embedding w query = Py.Returned qe
            /\ Models.json_loads (Models.embedding (fst p)) = Py.Returned v
            /\ Vec._cosine_similarity (Api.np w) qe v = Py.Returned (snd p))
      /\ ((forall sims,
             RAGService.scored w query context_type source_id = Py.Returned sims ->
             Forall (fun p => (snd p < RAGService.similarity_threshold r)%Q) sims) ->
          RAGService._get_relevant_chunks r w query context_type source_id limit = [])).
Proof.
  intros Hlimit ranked_o ranked_r. split.
  - split; [apply optimized_search_is_ranked |].
    subst ranked_o.
    destruct (optimized_ranked_cases o w query context_type source_id limit)
      as [[Hnil Hsearch] | (qe & chunks & sims & Hqe & Hc & Hb & Hranked)].
    + rewrite Hnil.
      split; [constructor | split; [constructor | split; [simpl; lia | split]]].
      * intros p [].
      * intros _. exact Hsearch.
    + rewrite Hranked. split; [| split; [| split; [| split]]].
      * unfold Spec.meets_threshold. rewrite List.Forall_forall. intros p Hp.
        apply slice_In in Hp. apply sort_desc_In in Hp.
        pose proof (filter_threshold (OptimizedRAGService.similarity_threshold o) sims) as Hf.
        unfold Spec.meets_threshold in Hf. rewrite List.Forall_forall in Hf. now apply Hf.
      * apply StronglySorted_slice, by_score_desc.
      * pose proof (slice_length_le
                      (Vec.sort_desc OptimizedRAGService.by_score
                         (List.filter (fun p => Vec.qle (OptimizedRAGService.similarity_threshold o) (snd p)) sims))
                      0 limit Hlimit). lia.
      * intros p Hp. apply slice_In in Hp. apply sort_desc_In in Hp.
        apply List.filter_In in Hp. destruct Hp as [Hp _].
        destruct (batch_calculate_similarities_In o (Api.np w) qe chunks sims p Hb Hp)
          as (_ & Hvalid & Hscore).
        exists qe. split; [exact Hqe |]. split; [now apply valid_chunk_length | exact Hscore].
      * intros Hbelow. rewrite optimized_search_is_ranked, Hranked.
        rewrite (filter_below _ _ (Hbelow qe chunks sims Hqe Hc Hb)). simpl.
        now rewrite slice_nil.
  - split; [apply rag_search_is_ranked |].
    subst ranked_r.
    destruct (rag_ranked_cases r w query context_type source_id limit)
      as [[Hnil Hraised] | (sims & Hsims & Hranked)].
    + rewrite Hnil.
      split; [constructor | split; [constructor | split; [simpl; lia | split]]].
      * intros p [].
      * intros _. rewrite rag_search_is_ranked, Hnil. reflexivity.
    + rewrite Hranked. split; [| split; [| split; [| split]]].
      * apply filter_threshold.
      * apply StronglySorted_filter, StronglySorted_slice, by_score_desc.
      * pose proof (slice_length_le (Vec.sort_desc RAGService.by_score sims) 0 limit Hlimit).
        pose proof (List.filter_length_le
                      (fun p => Vec.qle (RAGService.similarity_threshold r) (snd p))
                      (Py.slice (Vec.sort_desc RAGService.by_score sims) 0 limit)).
        lia.
      * intros p Hp. apply List.filter_In in Hp. destruct Hp as [Hp _].
        apply slice_In in Hp. apply sort_desc_In in Hp.
        revert Hsims. unfold RAGService.scored.
        destruct (Api.create_embedding w query) as [qe | e]; simpl; [| discriminate].
        destruct (Api.document_chunks w) as [rows | e]; simpl; [| discriminate].
        intros [= <-]. apply List.in_flat_map in Hp. destruct Hp as (c & _ & Hp).
        apply score_chunk_In in Hp. destruct Hp as (<- & v & Hv & Hs).
        exists qe, v. auto.
      * intros Hbelow. rewrite rag_search_is_ranked, Hranked.
        rewrite filter_below; [reflexivity |].
        specialize (Hbelow sims Hsims). rewrite List.Forall_forall in *.
        intros p Hp. apply Hbelow. apply slice_In in Hp. now apply sort_desc_In in Hp.
Qed.

Lemma similarity_search_threshold_sorted_limit_witness :
  List.map Models.chunk_id
    (OptimizedRAGService.optimized_similarity_search (OptimizedRAGService.init true)
       Spec.example_world "What are the skills?" None None 5) = [1%N; 3%N]
  /\ Spec.descending
       (OptimizedRAGService.ranked (OptimizedRAGService.init true) Spec.example_world
          "What are the skills?" None None 5)
  /\ Spec.descending
       (RAGService.ranked (RAGService.init true) Spec.example_world
          "What are the skills?" None None 5).
Proof.
  pose proof (similarity_search_threshold_sorted_limit (OptimizedRAGService.init true)
                (RAGService.init true) Spec.example_world "What are the skills?"
                None None 5 ltac:(lia)) as [(_ & _ & Ho & _) (_ & _ & Hr & _)].
  split; [vm_compute; reflexivity |]. split; [exact Ho | exact Hr].
Defined.



(** ** The confidence score *)

Section Confidence.

Import Vec Spec OptimizedRAGService.

Lemma lower_char_idem_eqb (a b : ascii) :
  Py.lower_char a = a ->
  Ascii.eqb a (Py.lower_char b) = Ascii.eqb (Py.lower_char a) (Py.lower_char b).
Proof. now intros ->. Qed.

Lemma startswith_lower (phrase s : string) :
  Py.lower phrase = phrase ->
  Py.startswith phrase (Py.lower s) = ci_startswith phrase s.
Proof.
  revert s. induction phrase as [| a phrase IH]; intros s Hlow; [now destruct s |].
  simpl in Hlow. injection Hlow as Ha Hphrase.
  destruct s as [| b s]; simpl; [reflexivity |].
  rewrite Ha, IH by assumption. reflexivity.
Qed.

(** Looking for a lower-case phrase in the lowered answer is looking for it
    in the answer without regard to case. *)
Lemma contains_lower (phrase s : string) :
  Py.lower phrase = phrase ->
  Py.contains phrase (Py.lower s) = ci_contains phrase s.
Proof.
  intros Hlow. induction s as [| b s IH].
  - simpl. destruct phrase; reflexivity.
  - cbn [Py.lower Py.contains ci_contains].
    change (String (Py.lower_char b) (Py.lower s)) with (Py.lower (String b s)).
    rewrite startswith_lower by assumption. now rewrite IH.
Qed.

Lemma uncertainty_lower (answer : string) :
  existsb (fun indicator => Py.contains indicator (Py.lower answer)) uncertainty_indicators
  = mentions_uncertainty answer.
Proof.
  unfold mentions_uncertainty, uncertainty_indicators, uncertainty_phrases.
  cbn [existsb]. now rewrite !contains_lower by reflexivity.
Qed.




Lemma calculate_confidence_formula (self : t) (answer : string) (tokens : Z)
    (chunks : list Models.DocumentChunk) :
  max_chunks self <> 0 ->
  _calculate_confidence_body self
    {| ar_answer := Some answer; ar_tokens_used := tokens; ar_model_used := model self |}
    chunks
  = Py.Returned (confidence_formula answer tokens (len chunks) (max_chunks self)).
Proof.
  intros Hmax. unfold _calculate_confidence_body, true_div.
  destruct (Z.eqb_spec (max_chunks self) 0); [contradiction |].
  cbn [Py.bind len_str lower_str ar_answer ar_tokens_used].
  rewrite uncertainty_lower. reflexivity.
Qed.

End Confidence.



(** ** The query pipeline *)

Section Pipeline.

Import Api Vec Spec OptimizedRAGService.

Lemma query_returns (self : t) (w : World) (question : string)
    (context_type source_id : option string) (max_chunks_arg : option Z) :
  exists response,
    query self w question context_type source_id max_chunks_arg = Py.Returned response.
Proof.
  unfold query.
  destruct (query_body self w question context_type source_id max_chunks_arg); simpl; eauto.
Qed.

Lemma rag_query_returns (self : RAGService.t) (w : World) (k : RAGService.Calls)
    (question : string) (context_type source_id : option string)
    (max_chunks_arg : option Z) :
  exists result,
    RAGService.query self w k question context_type source_id max_chunks_arg
    = Py.Returned result.
Proof.
  unfold RAGService.query.
  destruct (RAGService.query_body self w k question context_type source_id max_chunks_arg);
    simpl; eauto.
Qed.

Lemma search_embedding_failure (self : t) (w : World) (question : string)
    (context_type source_id : option string) (limit : Z) :
  Py.is_returned (create_embedding w question) = false ->
  optimized_similarity_search self w question context_type source_id limit = [].
Proof.
  unfold optimized_similarity_search, ranked_body.
  destruct (create_embedding w question); [discriminate | reflexivity].
Qed.

Lemma search_retrieval_failure (self : t) (w : World) (question : string)
    (context_type source_id : option string) (limit : Z) :
  Py.is_returned (document_chunks w) = false ->
  optimized_similarity_search self w question context_type source_id limit = [].
Proof.
  unfold optimized_similarity_search, ranked_body, candidates.
  destruct (create_embedding w question) as [qe | e]; simpl; [| reflexivity].
  destruct (is_nil qe); [reflexivity |].
  destruct (document_chunks w); [discriminate | reflexivity].
Qed.

(** After a cache miss with nothing retrieved the answer is the fallback
    for "nothing relevant". *)
Lemma query_nothing_relevant (self : t) (w : World) (question : string)
    (context_type source_id : option string) (max_chunks_arg : option Z) :
  client self = true ->
  get_rag_query_cache w (_get_query_cache_key w question context_type source_id) = None ->
  optimized_similarity_search self w question context_type source_id
    (or_max_chunks self max_chunks_arg) = [] ->
  query self w question context_type source_id max_chunks_arg
  = Py.Returned (_fallback_response "I couldn't find relevant information to answer your question.").
Proof.
  intros Hclient Hmiss Hnone. unfold query, query_body.
  rewrite Hclient, Hmiss, Hnone. reflexivity.
Qed.

(** After a cache miss with something retrieved, the answer depends on the
    cache write alone. *)
Lemma query_with_chunks (self : t) (w : World) (question : string)
    (context_type source_id : option string) (max_chunks_arg : option Z) :
  client self = true ->
  get_rag_query_cache w (_get_query_cache_key w question context_type source_id) = None ->
  let relevant_chunks :=
    optimized_similarity_search self w question context_type source_id
      (or_max_chunks self max_chunks_arg) in
  let answer_result :=
    _generate_answer self w question (_prepare_context self relevant_chunks question) in
  relevant_chunks <> [] ->
  query self w question context_type source_id max_chunks_arg
  = if Py.is_returned (cache_set w (_get_query_cache_key w question context_type source_id))
    then Py.Returned
           {| answer := ar_answer answer_result;
              confidence := _calculate_confidence self answer_result relevant_chunks;
              response_time := elapsed w;
              chunks_used := List.map Models.chunk_id relevant_chunks;
              chunks_retrieved := len relevant_chunks;
              context_type := context_type;
              source_id := source_id;
              tokens_used := ar_tokens_used answer_result;
              model_used := model self |}
    else Py.Returned (_fallback_response "I encountered an error while processing your question. Please try again.").
Proof.
  intros Hclient Hmiss relevant_chunks answer_result Hsome.
  unfold query, query_body. rewrite Hclient, Hmiss. cbn [negb].
  fold relevant_chunks.
  destruct relevant_chunks as [| c cs] eqn:Hrel; [congruence |].
  cbn [is_nil]. unfold set_rag_query_cache.
  destruct (cache_set w (_get_query_cache_key w question context_type source_id));
    reflexivity.
Qed.

Lemma generate_answer_failure (self : t) (w : World) (question context : string) :
  (forall system user, Py.is_returned (chat_completion w system user) = false) ->
  _generate_answer self w question context
  = {| ar_answer := Some apology; ar_tokens_used := 0; ar_model_used := model self |}.
Proof.
  intros Hdown. unfold _generate_answer.
  specialize (Hdown system_message
                (context ++ nl ++ nl ++ "Question: " ++ question)%string).
  destruct (chat_completion w system_message _); [discriminate | reflexivity].
Qed.

Lemma round2_lower (x : Q) : ((1 # 2) <= x)%Q -> ((1 # 2) <= round2 x)%Q.
Proof.
  intros Hx. unfold round2.
  assert (Hk : 50 <= round_half_even (x * 100)).
  { assert (Hf : 50 <= Qfloor (x * 100)).
    { change 50 with (Qfloor ((1 # 2) * 100)). apply Qfloor_resp_le.
      apply Qmult_le_compat_r; [exact Hx | discriminate]. }
    unfold round_half_even.
    destruct (qlt (x * 100 - inject_Z (Qfloor (x * 100))) (1 # 2)); [lia |].
    destruct (qlt (1 # 2) (x * 100 - inject_Z (Qfloor (x * 100)))); [lia |].
    destruct (Z.even (Qfloor (x * 100))); lia. }
  set (k := round_half_even (x * 100)) in *.
  unfold Qle, Qdiv, Qmult, Qinv, inject_Z; simpl. lia.
Qed.

Lemma qmin_one_nonneg (x : Q) : (0 <= x)%Q -> (0 <= qmin x 1)%Q.
Proof. intros Hx. unfold qmin. destruct (qlt 1 x); [discriminate | exact Hx]. Qed.

Lemma clamp01_lower (x : Q) : ((1 # 2) <= x)%Q -> ((1 # 2) <= clamp01 x)%Q.
Proof.
  intros Hx. unfold clamp01, qmax, qmin.
  destruct (qlt x 1) eqn:H1.
  - destruct (qlt 0 x) eqn:H0; [exact Hx |].
    exfalso. assert (H : (0 < x)%Q) by lra. apply qlt_spec in H. congruence.
  - change (qlt 0 1) with true. cbv iota. discriminate.
Qed.

(** The apology of a failed synthesis is scored like any answer: with a
    positive [max_chunks] its confidence is at least one half. *)
Lemma apology_confidence (self : t) (chunks : list Models.DocumentChunk) :
  0 < max_chunks self ->
  ((1 # 2) <= _calculate_confidence self
                {| ar_answer := Some apology; ar_tokens_used := 0;
                   ar_model_used := model self |} chunks)%Q.
Proof.
  intros Hmax. unfold _calculate_confidence.
  rewrite calculate_confidence_formula by lia.
  unfold confidence_formula. apply round2_lower, clamp01_lower.
  assert (Hratio : (0 <= qmin (inject_Z (len chunks) / inject_Z (max_chunks self)) 1)%Q).
  { apply qmin_one_nonneg. apply Qle_shift_div_l.
    - change 0%Q with (inject_Z 0). rewrite <- Zlt_Qlt. exact Hmax.
    - rewrite Qmult_0_l. change 0%Q with (inject_Z 0). rewrite <- Zle_Qle.
      unfold len. lia. }
  set (a := qmin (inject_Z (len chunks) / inject_Z (max_chunks self)) 1) in *.
  assert (Hb : (0 <= qmin (inject_Z (Z.of_nat (String.length apology)) / 200) 1 * (2 # 10))%Q)
    by (vm_compute; discriminate).
  set (b := (qmin (inject_Z (Z.of_nat (String.length apology)) / 200) 1 * (2 # 10))%Q) in *.
  assert (Hc : (qmin (inject_Z 0 / 300) 1 * (2 # 10) == 0)%Q) by reflexivity.
  assert (Hu : mentions_uncertainty apology = false) by (vm_compute; reflexivity).
  rewrite Hu, Hc. lra.
Qed.

End Pipeline.

(** C4 (as amended).  [query] always returns a response and never lets an
    exception out, in both services.  After a cache miss in the optimized
    service: when the embedding or the retrieval fails, or the cache write
    fails, the response is a fallback answer with confidence 0; when the
    synthesis fails (chunks were retrieved and the cache write succeeds)
    the response carries the synthesizer's apology with no tokens used and
    the confidence the scorer gives that apology, which is at least 0.5 for
    a positive [max_chunks]; and when the scoring fails the response
    carries confidence 0.5. *)
Theorem query_degrades_gracefully (self : OptimizedRAGService.t) (r : RAGService.t)
    (w : Api.World) (k : RAGService.Calls) (question : string)
    (context_type source_id : option string) (max_chunks_arg : option Z) :
  let key := OptimizedRAGService._get_query_cache_key w question context_type source_id in
  let relevant_chunks :=
    OptimizedRAGService.optimized_similarity_search self w question context_type source_id
      (OptimizedRAGService.or_max_chunks self max_chunks_arg) in
  let answer_result :=
    OptimizedRAGService._generate_answer self w question
      (OptimizedRAGService._prepare_context self relevant_chunks question) in
  let run := OptimizedRAGService.query self w question context_type source_id max_chunks_arg in
  (exists response, run = Py.Returned response)
  /\ (exists result,
        RAGService.query r w k question context_type source_id max_chunks_arg
        = Py.Returned result)
  /\ (OptimizedRAGService.client self = true ->
      OptimizedRAGService.get_rag_query_cache w key = None ->
      (Py.is_returned (Api.create_embedding w question) = false
       \/ Py.is_returned (Api.document_chunks w) = false
       \/ Py.is_returned (Api.cache_set w key) = false ->
       exists response,
         run = Py.Returned response
         /\ Api.confidence response = 0%Q
         /\ Api.model_used response = "fallback")
      /\ (relevant_chunks <> [] ->
          Py.is_returned (Api.cache_set w key) = true ->
          (forall system user, Py.is_returned (Api.chat_completion w system user) = false) ->
          exists response,
            run = Py.Returned response
            /\ Api.answer response = Some Spec.apology
            /\ Api.tokens_used response = 0
            /\ Api.confidence response
               = OptimizedRAGService._calculate_confidence self answer_result relevant_chunks
            /\ (0 < OptimizedRAGService.max_chunks self ->
                ((1 # 2) <= Api.confidence response)%Q))
      /\ (relevant_chunks <> [] ->
          Py.is_returned (Api.cache_set w key) = true ->
          Py.is_returned
            (OptimizedRAGService._calculate_confidence_body self answer_result relevant_chunks)
          = false ->
          exists response,
            run = Py.Returned response /\ Api.confidence response = (1 # 2)%Q)).
Proof.
  intros key relevant_chunks answer_result run.
  split; [apply query_returns |]. split; [apply rag_query_returns |].
  intros Hclient Hmiss.
  assert (Hnone : relevant_chunks = [] ->
            exists response,
              run = Py.Returned response /\ Api.confidence response = 0%Q
              /\ Api.model_used response = "fallback").
  { intros Hnil. eexists.
    split; [now apply query_nothing_relevant | split; reflexivity]. }
  split; [| split].
  - intros [Hemb | [Hdb | Hset]].
    + apply Hnone. now apply search_embedding_failure.
    + apply Hnone. now apply search_retrieval_failure.
    + destruct (OptimizedRAGService.is_nil relevant_chunks) eqn:Hn.
      * apply Hnone. destruct relevant_chunks; [reflexivity | discriminate].
      * assert (Hsome : relevant_chunks <> [])
          by (intros E; rewrite E in Hn; discriminate).
        exists (OptimizedRAGService._fallback_response
                  "I encountered an error while processing your question. Please try again.").
        split; [| split; reflexivity].
        subst run. rewrite query_with_chunks by assumption.
        fold key. rewrite Hset. reflexivity.
  - intros Hsome Hset Hdown.
    eexists. split.
    + subst run. rewrite query_with_chunks by assumption. fold key. rewrite Hset.
      reflexivity.
    + cbn [Api.answer Api.tokens_used Api.confidence].
      fold relevant_chunks. fold answer_result.
      assert (Hans : answer_result
                     = {| OptimizedRAGService.ar_answer := Some Spec.apology;
                          OptimizedRAGService.ar_tokens_used := 0;
                          OptimizedRAGService.ar_model_used := OptimizedRAGService.model self |})
        by (now apply generate_answer_failure).
      rewrite Hans. cbn. repeat split. intros Hmax. now apply apology_confidence.
  - intros Hsome Hset Hscore.
    eexists. split.
    + subst run. rewrite query_with_chunks by assumption. fold key. rewrite Hset.
      reflexivity.
    + cbn [Api.confidence]. fold relevant_chunks. fold answer_result.
      unfold OptimizedRAGService._calculate_confidence.
      destruct (OptimizedRAGService._calculate_confidence_body self answer_result
                  relevant_chunks); [discriminate | reflexivity].
Qed.

Lemma query_degrades_gracefully_witness :
  exists response,
    OptimizedRAGService.query (OptimizedRAGService.init true) Spec.world_empty_completion
      "What are the skills?" None None None = Py.Returned response
    /\ Api.confidence response = (1 # 2)%Q.
Proof.
  destruct (query_degrades_gracefully (OptimizedRAGService.init true) (RAGService.init true)
              Spec.world_empty_completion Spec.example_calls "What are the skills?"
              None None None) as (_ & _ & H).
  destruct (H eq_refl eq_refl) as (_ & _ & Hscore).
  apply Hscore.
  - vm_compute. discriminate.
  - reflexivity.
  - vm_compute. reflexivity.
Defined.

(** C4, as stated, fails: with two chunks retrieved and the completion
    endpoint down, the response carries the apology with confidence 0.70,
    not 0. *)
Lemma query_fallback_counterexample :
  (forall system user,
     Py.is_returned (Api.chat_completion Spec.world_synthesis_down system user) = false)
  /\ exists response,
       OptimizedRAGService.query (OptimizedRAGService.init true) Spec.world_synthesis_down
         "What are the skills?" None None None = Py.Returned response
       /\ Api.answer response = Some Spec.apology
       /\ (Api.confidence response == 7 # 10)%Q
       /\ ~ (Api.confidence response == 0)%Q.
Proof.
  split; [reflexivity |].
  eexists. split; [vm_compute; reflexivity |].
  split; [reflexivity |]. split; [reflexivity | discriminate].
Qed.

(** ** Cache keys *)

Section CacheKeys.

Import Spec.

Lemma is_space_lower_char (c : ascii) : Py.is_space (Py.lower_char c) = Py.is_space c.
Proof. destruct c as [[] [] [] [] [] [] [] []]; reflexivity. Qed.

Lemma lower_app (a b : string) : Py.lower (a ++ b) = Py.lower a ++ Py.lower b.
Proof. induction a as [| c a IH]; simpl; [reflexivity | now rewrite IH]. Qed.

Lemma all_space_lower (s : string) : all_space (Py.lower s) = all_space s.
Proof.
  induction s as [| c s IH]; simpl; [reflexivity |].
  now rewrite is_space_lower_char, IH.
Qed.

Lemma lstrip_all_space (s : string) : all_space s = true -> Py.lstrip s = "".
Proof.
  induction s as [| c s IH]; simpl; [reflexivity |].
  rewrite andb_true_iff. intros [-> Hs]. now apply IH.
Qed.

Lemma lstrip_app_space (pre s : string) :
  all_space pre = true -> Py.lstrip (pre ++ s) = Py.lstrip s.
Proof.
  induction pre as [| c pre IH]; simpl; [reflexivity |].
  rewrite andb_true_iff. intros [-> Hpre]. now apply IH.
Qed.

Lemma rstrip_all_space (s : string) : all_space s = true -> Py.rstrip s = "".
Proof.
  induction s as [| c s IH]; simpl; [reflexivity |].
  rewrite andb_true_iff. intros [Hc Hs]. now rewrite IH, Hc.
Qed.

Lemma rstrip_app_space (s post : string) :
  all_space post = true -> Py.rstrip (s ++ post) = Py.rstrip s.
Proof.
  intros Hpost. induction s as [| c s IH]; simpl.
  - now apply rstrip_all_space.
  - now rewrite IH.
Qed.

Lemma strip_app_space (s post : string) :
  all_space post = true -> Py.strip (s ++ post) = Py.strip s.
Proof.
  intros Hpost. unfold Py.strip. induction s as [| c s IH]; simpl.
  - now rewrite lstrip_all_space.
  - destruct (Py.is_space c); [exact IH |].
    change (String c (s ++ post)) with (String c s ++ post).
    now apply rstrip_app_space.
Qed.

(** White space around the question and the case of its letters do not
    reach the normalized question. *)
Lemma normalized_padding (pre core post : string) :
  all_space pre = true -> all_space post = true ->
  Py.strip (Py.lower (pre ++ core ++ post)) = Py.strip (Py.lower core).
Proof.
  intros Hpre Hpost. rewrite !lower_app. unfold Py.strip at 1.
  rewrite lstrip_app_space by now rewrite all_space_lower.
  fold (Py.strip (Py.lower core ++ Py.lower post)).
  apply strip_app_space. now rewrite all_space_lower.
Qed.

Lemma normalized_same (q1 q2 : string) :
  differ_only_in_case_or_padding q1 q2 ->
  Py.strip (Py.lower q1) = Py.strip (Py.lower q2).
Proof.
  intros (pre1 & core1 & post1 & pre2 & core2 & post2
          & -> & -> & Hpre1 & Hpost1 & Hpre2 & Hpost2 & Hcore).
  rewrite !normalized_padding by assumption. now rewrite Hcore.
Qed.

Lemma string_app_length (a b : string) :
  String.length (a ++ b) = (String.length a + String.length b)%nat.
Proof. induction a as [| c a IH]; simpl; [reflexivity | now rewrite IH]. Qed.

Lemma string_app_inv_tail (a b t : string) : a ++ t = b ++ t -> a = b.
Proof.
  revert b. induction a as [| c a IH]; intros [| d b] H; simpl in H.
  - reflexivity.
  - apply (f_equal String.length) in H. rewrite !string_app_length in H. simpl in H. lia.
  - apply (f_equal String.length) in H. rewrite !string_app_length in H. simpl in H. lia.
  - injection H as -> H. f_equal. now apply IH.
Qed.

Lemma string_app_inv_head (p a b : string) : p ++ a = p ++ b -> a = b.
Proof.
  induction p as [| c p IH]; cbn [String.append]; intros H; [exact H |].
  injection H as H. now apply IH.
Qed.

(** In [RAGService] the hashed string keeps the question as it was
    typed. *)
Lemma key_string_inj (q1 q2 : string) (context_type source_id : option string) :
  RAGService.key_string q1 context_type source_id
  = RAGService.key_string q2 context_type source_id ->
  q1 = q2.
Proof. unfold RAGService.key_string. simpl. apply string_app_inv_tail. Qed.

End CacheKeys.

(** C9 (as amended).  In [OptimizedRAGService] two questions that differ
    only in letter case or in leading and trailing white space, with the
    same filters, get the same cache key, and the key is a function of the
    normalized question and the filters (with a missing or empty filter
    read as "all").  In [RAGService] the key is the built-in hash of the
    question as typed joined with the filters: it is the same for the same
    question, filters and interpreter process, and two different
    questions get the same key only when the hash collides on them. *)
Theorem query_cache_key_normalized (w : Api.World) (q1 q2 : string)
    (context_type source_id context_type' source_id' : option string) :
  (Spec.differ_only_in_case_or_padding q1 q2 ->
   OptimizedRAGService._get_query_cache_key w q1 context_type source_id
   = OptimizedRAGService._get_query_cache_key w q2 context_type source_id)
  /\ (Py.strip (Py.lower q1) = Py.strip (Py.lower q2) ->
      Py.or_default context_type "all" = Py.or_default context_type' "all" ->
      Py.or_default source_id "all" = Py.or_default source_id' "all" ->
      OptimizedRAGService._get_query_cache_key w q1 context_type source_id
      = OptimizedRAGService._get_query_cache_key w q2 context_type' source_id')
  /\ (RAGService._get_query_cache_key w q1 context_type source_id
      = RAGService._get_query_cache_key w q2 context_type source_id ->
      q1 <> q2 ->
      RAGService.key_string q1 context_type source_id
      <> RAGService.key_string q2 context_type source_id
      /\ Api.py_hash w (RAGService.key_string q1 context_type source_id)
         = Api.py_hash w (RAGService.key_string q2 context_type source_id)).
Proof.
  split; [| split].
  - intros Hsame. unfold OptimizedRAGService._get_query_cache_key,
      OptimizedRAGService.cache_string.
    now rewrite (normalized_same q1 q2 Hsame).
  - intros Hq Hc Hs. unfold OptimizedRAGService._get_query_cache_key,
      OptimizedRAGService.cache_string.
    now rewrite Hq, Hc, Hs.
  - intros Hkey Hne. split.
    + intros H. apply Hne. eapply key_string_inj. exact H.
    + unfold RAGService._get_query_cache_key in Hkey.
      apply string_app_inv_head in Hkey.
      now apply (inj pretty) in Hkey.
Qed.

Lemma query_cache_key_normalized_witness :
  OptimizedRAGService._get_query_cache_key Spec.example_world "  What ARE the Skills? "
    (Some "skills") None
  = OptimizedRAGService._get_query_cache_key Spec.example_world "what are the skills?"
      (Some "skills") None.
Proof.
  destruct (query_cache_key_normalized Spec.example_world "  What ARE the Skills? "
              "what are the skills?" (Some "skills") None (Some "skills") None)
    as [Hsame _].
  apply Hsame.
  exists "  ", "What ARE the Skills?", " ", "", "what are the skills?", "".
  repeat split; reflexivity.
Defined.

(** C9, as stated, fails for [RAGService]: "Hello" and "hello" differ only
    in letter case, their hashed strings differ, and with a hash that tells
    them apart so do their keys. *)
Lemma query_cache_key_counterexample :
  Spec.differ_only_in_case_or_padding "Hello" "hello"
  /\ RAGService.key_string "Hello" None None = "Hello__"
  /\ RAGService.key_string "hello" None None = "hello__"
  /\ RAGService._get_query_cache_key Spec.example_world "Hello" None None
     <> RAGService._get_query_cache_key Spec.example_world "hello" None None
  /\ ~ (forall (w : Api.World) (q1 q2 : string) (context_type source_id : option string),
          Spec.differ_only_in_case_or_padding q1 q2 ->
          RAGService._get_query_cache_key w q1 context_type source_id
          = RAGService._get_query_cache_key w q2 context_type source_id).
Proof.
  assert (Hdiff : Spec.differ_only_in_case_or_padding "Hello" "hello").
  { exists "", "Hello", "", "", "hello", "". repeat split; reflexivity. }
  assert (Hne : RAGService._get_query_cache_key Spec.example_world "Hello" None None
                <> RAGService._get_query_cache_key Spec.example_world "hello" None None)
    by (vm_compute; discriminate).
  split; [exact Hdiff |]. split; [reflexivity |]. split; [reflexivity |].
  split; [exact Hne |].
  intros H. apply Hne. now apply H.
Qed.

(** ** The embedding cache *)

Section EmbeddingCacheLookup.

Import Models CacheService Spec.

Lemma cache_get_set (st : State) (now now' : Z) (key : string) (data : CacheData)
    (timeout : Z) :
  now' < now + timeout ->
  cache_get (cache_set st now key data timeout) now' key = Some data.
Proof.
  intros Hlive. unfold cache_get, cache_set. simpl.
  rewrite lookup_insert_eq.
  destruct (Z.ltb_spec now' (now + timeout)); [reflexivity | lia].
Qed.

Lemma first_with_hash_forget (h : string) (rows : list EmbeddingCache) :
  first_with_hash h (List.map forget_expiry rows)
  = option_map forget_expiry (first_with_hash h rows).
Proof.
  unfold first_with_hash. induction rows as [| row rows IH]; simpl; [reflexivity |].
  destruct (String.eqb (text_hash row) h); [reflexivity | exact IH].
Qed.

(** A lookup that misses the fast tier and finds a row returns the row's
    vector and writes it to the fast tier. *)
Lemma lookup_database_hit (self : t) (md5 : string -> string) (st : State) (now : Z)
    (text : string) (row : EmbeddingCache) (v : list Q) :
  cache_get st now (_get_embedding_cache_key md5 text) = None ->
  first_with_hash (_hash_text md5 text) (embedding_cache st) = Some row ->
  json_loads (cache_embedding_json row) = Py.Returned v ->
  get_cached_embedding self md5 st now text
  = (Some v,
     cache_set st now (_get_embedding_cache_key md5 text)
       {| cd_embedding := v; cd_text := text_content row; cd_model := model_name row;
          cd_cached_at := cache_created_at row |} (embedding_timeout self),
     RetrievedFromDatabase).
Proof.
  intros Hmiss Hrow Hjson. unfold get_cached_embedding.
  now rewrite Hmiss, Hrow, Hjson.
Qed.

Lemma lookup_redis_hit (self : t) (md5 : string -> string) (st : State) (now : Z)
    (text : string) (data : CacheData) :
  cache_get st now (_get_embedding_cache_key md5 text) = Some data ->
  get_cached_embedding self md5 st now text = (Some (cd_embedding data), st, RetrievedFromRedis).
Proof. intros Hhit. unfold get_cached_embedding. now rewrite Hhit. Qed.

End EmbeddingCacheLookup.

(** C8 (as amended).  An entry whose [expires_at] lies in the past has
    [is_expired()] true, but the lookup does not consult it: a lookup that
    misses the fast tier returns the vector of the entry stored for the
    text, lapsed or not, and returns and logs the same with every expiry
    erased from the table.  The lookup's answer is a vector or [None]. *)
Theorem embedding_lookup_ignores_expiry (self : CacheService.t) (md5 : string -> string)
    (st : CacheService.State) (now : Z) (text : string) :
  (forall row lapse, Models.expires_at row = Some lapse -> lapse < now ->
                     Models.is_expired row now = true)
  /\ (forall row v,
        CacheService.cache_get st now (CacheService._get_embedding_cache_key md5 text) = None ->
        CacheService.first_with_hash (CacheService._hash_text md5 text)
          (CacheService.embedding_cache st) = Some row ->
        Models.json_loads (Models.cache_embedding_json row) = Py.Returned v ->
        fst (fst (CacheService.get_cached_embedding self md5 st now text)) = Some v)
  /\ fst (fst (CacheService.get_cached_embedding self md5 (Spec.forget_expiries st) now text))
     = fst (fst (CacheService.get_cached_embedding self md5 st now text))
  /\ snd (CacheService.get_cached_embedding self md5 (Spec.forget_expiries st) now text)
     = snd (CacheService.get_cached_embedding self md5 st now text).
Proof.
  split; [| split].
  - intros row lapse Hrow Hpast. unfold Models.is_expired. rewrite Hrow.
    now apply Z.ltb_lt.
  - intros row v Hmiss Hrow Hjson.
    rewrite (lookup_database_hit self md5 st now text row v Hmiss Hrow Hjson).
    reflexivity.
  - unfold CacheService.get_cached_embedding, Spec.forget_expiries, CacheService.cache_get.
    simpl. rewrite first_with_hash_forget.
    destruct (CacheService.redis st !! CacheService._get_embedding_cache_key md5 text)
      as [[data lapses] |]; [destruct (now <? lapses); [split; reflexivity |] |];
      (destruct (CacheService.first_with_hash (CacheService._hash_text md5 text)
                   (CacheService.embedding_cache st)) as [row |]; simpl;
       [destruct (Models.json_loads (Models.cache_embedding_json row)) |];
       split; reflexivity).
Qed.

Lemma embedding_lookup_ignores_expiry_witness :
  Models.is_expired Spec.expired_row 100 = true
  /\ fst (fst (CacheService.get_cached_embedding CacheService.init Spec.toy_md5
                 Spec.expired_state 100 "hello")) = Some [1; 2]%Q.
Proof.
  destruct (embedding_lookup_ignores_expiry CacheService.init Spec.toy_md5
              Spec.expired_state 100 "hello") as (Hexp & Hhit & _).
  split.
  - apply (Hexp Spec.expired_row 10); [reflexivity | lia].
  - apply (Hhit Spec.expired_row); reflexivity.
Defined.

(** C8, as stated, fails: the row for "hello" lapsed at time 10, and at
    time 100 the lookup for "hello" returns its vector; there is no answer
    of the lookup that tells a lapsed entry from a missing one. *)
Lemma embedding_lookup_counterexample :
  Models.is_expired Spec.expired_row 100 = true
  /\ fst (fst (CacheService.get_cached_embedding CacheService.init Spec.toy_md5
                 Spec.expired_state 100 "hello")) = Some [1; 2]%Q
  /\ snd (CacheService.get_cached_embedding CacheService.init Spec.toy_md5
            Spec.expired_state 100 "hello") = CacheService.RetrievedFromDatabase
  /\ fst (fst (CacheService.get_cached_embedding CacheService.init Spec.toy_md5
                 Spec.expired_state 100 "other")) = None.
Proof. repeat split; reflexivity. Qed.

(** C10.  When a lookup misses the fast tier and finds the text's row in
    the table (with an embedding that parses), it returns the row's vector
    and leaves it in the fast tier with the embedding time-to-live, so that
    a lookup for the same text at any time before that time-to-live has
    passed is answered from the fast tier with the same vector and leaves
    the state as it is. *)
Theorem embedding_lookup_writes_back (self : CacheService.t) (md5 : string -> string)
    (st : CacheService.State) (now : Z) (text : string) (row : Models.EmbeddingCache)
    (v : list Q) :
  CacheService.cache_get st now (CacheService._get_embedding_cache_key md5 text) = None ->
  CacheService.first_with_hash (CacheService._hash_text md5 text)
    (CacheService.embedding_cache st) = Some row ->
  Models.json_loads (Models.cache_embedding_json row) = Py.Returned v ->
  exists st',
    CacheService.get_cached_embedding self md5 st now text
    = (Some v, st', CacheService.RetrievedFromDatabase)
    /\ CacheService.embedding_cache st' = CacheService.embedding_cache st
    /\ forall now',
         now <= now' < now + CacheService.embedding_timeout self ->
         CacheService.get_cached_embedding self md5 st' now' text
         = (Some v, st', CacheService.RetrievedFromRedis).
Proof.
  intros Hmiss Hrow Hjson. eexists. split; [| split].
  - exact (lookup_database_hit self md5 st now text row v Hmiss Hrow Hjson).
  - reflexivity.
  - intros now' [_ Hlive].
    rewrite (lookup_redis_hit self md5 _ now' text
               {| CacheService.cd_embedding := v;
                  CacheService.cd_text := Models.text_content row;
                  CacheService.cd_model := Models.model_name row;
                  CacheService.cd_cached_at := Models.cache_created_at row |});
      [reflexivity | now apply cache_get_set].
Qed.

Lemma embedding_lookup_writes_back_witness :
  exists st',
    CacheService.get_cached_embedding CacheService.init Spec.toy_md5 Spec.expired_state
      100 "hello" = (Some [1; 2]%Q, st', CacheService.RetrievedFromDatabase)
    /\ CacheService.get_cached_embedding CacheService.init Spec.toy_md5 st' 100 "hello"
       = (Some [1; 2]%Q, st', CacheService.RetrievedFromRedis).
Proof.
  destruct (embedding_lookup_writes_back CacheService.init Spec.toy_md5 Spec.expired_state
              100 "hello" Spec.expired_row [1; 2]%Q eq_refl eq_refl eq_refl)
    as (st' & Hfirst & _ & Hagain).
  exists st'. split; [exact Hfirst |]. apply Hagain. simpl. lia.
Defined.

(** ** Ingestion *)

Section Ingestion.

Import Models ContentProcessor Spec.

Lemma create_chunk_chunks (st : Store) (content : string) (embedding : list Q)
    (source_type source_id source_title : string) (token_count chunk_index : Z) :
  chunks (snd (create_chunk st content embedding source_type source_id source_title
                 token_count chunk_index))
  = (chunks st
     ++ [fst (create_chunk st content embedding source_type source_id source_title
                token_count chunk_index)])%list.
Proof. reflexivity. Qed.

Lemma process_chunk_appends (svc : Embedder) (st st' : Store) (chunk_data : pyvalue)
    (source_type source_id source_title : string) (c : DocumentChunk) :
  process_chunk svc st chunk_data source_type source_id source_title = Py.Returned (c, st') ->
  chunks st' = (chunks st ++ [c])%list.
Proof.
  unfold process_chunk.
  destruct (getitem chunk_data "content") as [content_v | e]; simpl; [| discriminate].
  destruct (create_embedding svc content_v) as [embedding | e]; simpl; [| discriminate].
  destruct (as_str content_v) as [content | e]; simpl; [| discriminate].
  destruct (getitem chunk_data "token_count") as [tv | e]; simpl; [| discriminate].
  destruct (getitem chunk_data "chunk_index") as [iv | e]; simpl; [| discriminate].
  destruct (as_int tv) as [token_count | e]; simpl; [| discriminate].
  destruct (as_int iv) as [chunk_index | e]; simpl; [| discriminate].
  intros [= <- <-]. reflexivity.
Qed.

Lemma process_chunks_appends (svc : Embedder) (chunks_data : list pyvalue)
    (source_type source_id source_title : string) (st st' : Store)
    (created : list DocumentChunk) :
  process_chunks svc st chunks_data source_type source_id source_title
  = Py.Returned (created, st') ->
  chunks st' = (chunks st ++ created)%list.
Proof.
  revert st st' created.
  induction chunks_data as [| chunk_data rest IH]; intros st st' created; simpl.
  - intros [= <- <-]. now rewrite app_nil_r.
  - destruct (process_chunk svc st chunk_data source_type source_id source_title)
      as [[c st1] | e] eqn:Hone; simpl; [| discriminate].
    destruct (process_chunks svc st1 rest source_type source_id source_title)
      as [[cs st2] | e] eqn:Hrest; simpl; [| discriminate].
    intros [= <- <-].
    rewrite (IH _ _ _ Hrest), (process_chunk_appends _ _ _ _ _ _ _ _ Hone).
    now rewrite <- app_assoc.
Qed.




(** The service the processor builds returns strings, and the loop indexes
    them as dictionaries: the first chunk of any text raises, and the
    store is left as it was. *)
Lemma process_text_content_as_written (enc : Tokenizer)
    (embed : string -> Py.result (list Q)) (st : Store) (content : string)
    (source_type source_id source_title : string) :
  snd (_process_text_content (embedding_service enc embed) st content
         source_type source_id source_title) = st
  /\ (chunk_text_strings enc content <> [] ->
      fst (_process_text_content (embedding_service enc embed) st content
             source_type source_id source_title)
      = Py.Raised (Py.TypeError "string indices must be integers")).
Proof.
  unfold _process_text_content. cbn [chunk_text embedding_service].
  destruct (chunk_text_strings enc content) as [| s rest]; simpl;
    [split; [reflexivity | congruence] | split; reflexivity].
Qed.

Lemma process_sections_as_written (enc : Tokenizer)
    (embed : string -> Py.result (list Q)) (sections : list Section_)
    (source_type source_id : string) (st : Store) (n : Z) :
  snd (process_sections (embedding_service enc embed) st sections source_type source_id n)
  = st.
Proof.
  revert st n. induction sections as [| sec rest IH]; intros st n; simpl; [reflexivity |].
  destruct (Py.truthy (sec_content sec)); [| apply IH].
  destruct (process_text_content_as_written enc embed st (sec_content sec) source_type
              source_id (sec_title sec)) as [Hst _].
  destruct (_process_text_content (embedding_service enc embed) st (sec_content sec)
              source_type source_id (sec_title sec)) as [[created | e] st1];
    simpl in *; subst st1; [apply IH | reflexivity].
Qed.

Lemma process_source_as_written (enc : Tokenizer) (embed : string -> Py.result (list Q))
    (st : Store) (source_type source_id source_title job_text : string)
    (sections : list Section_) :
  chunks (snd (process_source (embedding_service enc embed) st source_type source_id
                 source_title job_text sections))
  = chunks st.
Proof.
  unfold process_source.
  match goal with
  | |- context [process_sections ?svc ?s sections source_type source_id 0] =>
      pose proof (process_sections_as_written enc embed sections source_type source_id s 0)
        as Hst;
      destruct (process_sections svc s sections source_type source_id 0) as [[n | e] st']
  end; simpl in *; subst st'; reflexivity.
Qed.

(** With the sizes of the constructor the chunker returns at least one
    chunk for a text that is not empty. *)
Lemma chunk_text_strings_nonempty (enc : Tokenizer) (text : string) :
  text <> "" -> chunk_text_strings enc text <> [].
Proof.
  intros Htext. unfold chunk_text_strings.
  set (self := EmbeddingService.init enc).
  destruct (Z.leb_spec
              (EmbeddingService.len (encode enc (EmbeddingService._clean_text self text)))
              (EmbeddingService.chunk_size self)) as [Hshort | Hlong].
  - unfold EmbeddingService.chunk_text. destruct text as [| c text]; [congruence |].
    cbn [Py.truthy negb]. fold self. cbn [EmbeddingService.encoding self EmbeddingService.init].
    destruct (Z.leb_spec
                (EmbeddingService.len
                   (encode enc (EmbeddingService._clean_text self (String c text))))
                (EmbeddingService.chunk_size self)); [discriminate | lia].
  - assert (Hov : 0 <= EmbeddingService.chunk_overlap self < EmbeddingService.chunk_size self)
      by (simpl; lia).
    destruct (chunk_text_windows self text Hov Htext Hlong) as (spans & Hspans & Hchunks).
    rewrite Hchunks.
    destruct (chunk_spans_shape _ _ Hov _ _ 0 spans ltac:(lia) Hspans) as (_ & _ & Hhead).
    destruct spans as [| sp spans]; [| discriminate].
    simpl in Hlong, Hhead. lia.
Qed.

End Ingestion.

Section IngestionAsWritten.

Import Models ContentProcessor Spec.

(** As the code stands, ingesting a profile stores no chunk, and fails as
    soon as the bio is not empty. *)
Lemma ingest_as_written_stores_nothing (enc : Tokenizer)
    (embed : string -> Py.result (list Q)) (st : Store) (profile : Profile) :
  chunks (snd (process_profile_content (embedding_service enc embed) st profile)) = chunks st
  /\ (bio profile <> "" ->
      fst (process_profile_content (embedding_service enc embed) st profile)
      = Failure "string indices must be integers").
Proof.
  split; [apply process_source_as_written |].
  intros Hbio. unfold process_profile_content, process_source.
  cbn [process_sections sec_content sec_title].
  destruct (bio profile) as [| c b] eqn:Hb; [congruence |]. cbn [Py.truthy].
  match goal with
  | |- context [_process_text_content ?svc ?s ?text ?t ?i ?title] =>
      destruct (process_text_content_as_written enc embed s text t i title) as [Hst Hfail];
      specialize (Hfail (chunk_text_strings_nonempty enc text ltac:(discriminate)));
      destruct (_process_text_content svc s text t i title) as [res st1]
  end.
  simpl in Hst, Hfail. subst res st1. reflexivity.
Qed.

(** With a chunker that yields the dictionaries the loop reads, a second
    run stores the chunks of the source a second time. *)
Lemma ingest_dict_chunker_duplicates :
  List.map content
    (chunks_of
       (snd (process_profile_content dict_embedder
               (snd (process_profile_content dict_embedder empty_store profile_p1))
               profile_p1))
       "profile" "p1")
  = ["new bio"; "new bio"].
Proof. vm_compute. reflexivity. Qed.

End IngestionAsWritten.



(** ** Cleaning *)

Section CleanText.

Import Shape.

Lemma rstrip_fixed_tail (c : ascii) (s : string) :
  Py.rstrip (String c s) = String c s ->
  Py.rstrip s = s /\ (s = "" -> Py.is_space c = false).
Proof.
  simpl. destruct (Py.rstrip s) as [| d r] eqn:Hr.
  - destruct (Py.is_space c); [discriminate |]. intros [= <-]. auto.
  - intros [= <-]. split; [reflexivity | discriminate].
Qed.

Lemma rstrip_idem (s : string) : Py.rstrip (Py.rstrip s) = Py.rstrip s.
Proof.
  induction s as [| c s IH]; simpl; [reflexivity |].
  destruct (Py.rstrip s) as [| d r] eqn:Hr.
  - destruct (Py.is_space c) eqn:Hc; simpl; [reflexivity | now rewrite Hc].
  - simpl in *. now rewrite IH.
Qed.

Lemma collapse_run_spaced (s : string) (in_run : bool) :
  Py.rstrip s = s -> (s = "" -> in_run = false) ->
  single_spaced in_run (Py.collapse_run in_run s) = true.
Proof.
  revert in_run. induction s as [| c s IH]; intros in_run Hr Hend.
  - simpl. now rewrite Hend.
  - apply rstrip_fixed_tail in Hr. destruct Hr as [Hr Hlast].
    simpl. destruct (Py.is_space c) eqn:Hc.
    + assert (Hs : s = "" -> true = false) by (intros E; specialize (Hlast E); congruence).
      destruct in_run.
      * now apply IH.
      * simpl. apply IH; assumption.
    + simpl. rewrite Hc. apply IH; [assumption | reflexivity].
Qed.

Lemma lstrip_head (s : string) :
  match Py.lstrip s with
  | EmptyString => True
  | String c _ => Py.is_space c = false
  end.
Proof.
  induction s as [| c s IH]; simpl; [exact I |].
  destruct (Py.is_space c) eqn:Hc; [exact IH | exact Hc].
Qed.

Lemma rstrip_head (c : ascii) (s : string) :
  Py.is_space c = false -> exists r, Py.rstrip (String c s) = String c r.
Proof.
  intros Hc. simpl. destruct (Py.rstrip s); [rewrite Hc |]; eauto.
Qed.

(** The stripped text with its white space collapsed is in normal form. *)
Lemma collapse_strip_normal (s : string) :
  normal (Py.collapse_spaces (Py.strip s)) = true.
Proof.
  unfold Py.strip, Py.collapse_spaces.
  pose proof (lstrip_head s) as Hhead.
  destruct (Py.lstrip s) as [| c t] eqn:Hl; [reflexivity |].
  destruct (rstrip_head c t Hhead) as [r Hr]. rewrite Hr.
  assert (Hfix : Py.rstrip (String c r) = String c r) by (rewrite <- Hr; apply rstrip_idem).
  pose proof (collapse_run_spaced (String c r) false Hfix ltac:(discriminate)) as Hsp.
  cbn [Py.collapse_run] in Hsp |- *. rewrite Hhead in Hsp |- *.
  cbn [single_spaced] in Hsp. rewrite Hhead in Hsp.
  unfold normal. cbn [single_spaced]. rewrite Hhead. exact Hsp.
Qed.

Lemma spaced_collapse (s : string) (p in_run : bool) :
  single_spaced p s = true -> (in_run = true -> p = true) ->
  Py.collapse_run in_run s = s.
Proof.
  revert p in_run. induction s as [| c s IH]; intros p in_run Hsp Hrun; [reflexivity |].
  simpl in *. destruct (Py.is_space c).
  - apply andb_true_iff in Hsp. destruct Hsp as [Hsp Hrest].
    apply andb_true_iff in Hsp. destruct Hsp as [Hc Hp].
    apply Ascii.eqb_eq in Hc. subst c.
    destruct p; [discriminate |].
    destruct in_run; [now specialize (Hrun eq_refl) |].
    f_equal. now apply (IH true true).
  - f_equal. apply (IH false false); [assumption | discriminate].
Qed.

Lemma spaced_rstrip (s : string) (p : bool) :
  single_spaced p s = true -> Py.rstrip s = s.
Proof.
  revert p. induction s as [| c s IH]; intros p Hsp; [reflexivity |].
  simpl in *. destruct (Py.is_space c) eqn:Hc.
  - apply andb_true_iff in Hsp. destruct Hsp as [_ Hrest].
    rewrite (IH true Hrest). destruct s; [discriminate | reflexivity].
  - rewrite (IH false Hsp). destruct s; reflexivity.
Qed.

(** A text in normal form is left as it is by stripping and collapsing. *)
Lemma normal_fixed (s : string) :
  normal s = true -> Py.collapse_spaces (Py.strip s) = s.
Proof.
  destruct s as [| c s]; [reflexivity |]. unfold normal. intros Hsp.
  assert (Hc : Py.is_space c = false).
  { simpl in Hsp. destruct (Py.is_space c); [| reflexivity].
    rewrite andb_false_r in Hsp. discriminate. }
  unfold Py.strip. replace (Py.lstrip (String c s)) with (String c s)
    by (simpl; now rewrite Hc).
  rewrite (spaced_rstrip _ _ Hsp).
  unfold Py.collapse_spaces. apply (spaced_collapse _ true false Hsp). discriminate.
Qed.

End CleanText.

(** X1.  When the cleaned text fits the token window, [_clean_text] returns
    a text with no white space at either end and none inside but single
    spaces, and cleaning that text again changes nothing. *)
Theorem clean_text_normal_form (self : EmbeddingService.t) (text : string) :
  EmbeddingService.len
    (encode (EmbeddingService.encoding self) (Py.collapse_spaces (Py.strip text)))
  <= EmbeddingService.max_tokens self ->
  Shape.normal (EmbeddingService._clean_text self text) = true
  /\ EmbeddingService._clean_text self (EmbeddingService._clean_text self text)
     = EmbeddingService._clean_text self text.
Proof.
  intros Hfits.
  assert (Hclean : EmbeddingService._clean_text self text
                   = Py.collapse_spaces (Py.strip text)).
  { unfold EmbeddingService._clean_text. destruct text as [| c text]; [reflexivity |].
    cbn [Py.truthy negb].
    destruct (Z.ltb_spec (EmbeddingService.max_tokens self)
                (EmbeddingService.len
                   (encode (EmbeddingService.encoding self)
                      (Py.collapse_spaces (Py.strip (String c text)))))); [lia | reflexivity]. }
  rewrite Hclean. split; [apply collapse_strip_normal |].
  pose proof (normal_fixed _ (collapse_strip_normal text)) as Hfix.
  unfold EmbeddingService._clean_text.
  destruct (Py.collapse_spaces (Py.strip text)) as [| c t] eqn:Ht; [reflexivity |].
  cbn [Py.truthy negb]. rewrite Hfix.
  destruct (Z.ltb_spec (EmbeddingService.max_tokens self)
              (EmbeddingService.len (encode (EmbeddingService.encoding self) (String c t))));
    [lia | reflexivity].
Qed.

Lemma clean_text_normal_form_witness :
  EmbeddingService._clean_text (EmbeddingService.init char_tokenizer)
    (EmbeddingService._clean_text (EmbeddingService.init char_tokenizer) "  built  with
 Django ")
  = EmbeddingService._clean_text (EmbeddingService.init char_tokenizer) "  built  with
 Django ".
Proof.
  apply (clean_text_normal_form (EmbeddingService.init char_tokenizer) "  built  with
 Django ").
  vm_compute. discriminate.
Defined.

(** ** The number and the size of the chunks *)

Section ChunkCount.

Import EmbeddingService.

Variables size overlap : Z.
Hypothesis overlap_ok : 0 <= overlap < size.

Lemma chunk_spans_count (fuel : nat) (n start : Z) (spans : list (Z * Z)) :
  0 <= start ->
  chunk_spans fuel size overlap n start = Some spans ->
  Z.of_nat (List.length spans)
  = if start <? n then (n - start + (size - overlap) - 1) / (size - overlap) else 0.
Proof.
  revert start spans. induction fuel as [| fuel IH]; intros start spans Hs; simpl;
    [discriminate |].
  destruct (Z.ltb_spec start n) as [Hlt | Hge]; [| now intros [= <-]].
  destruct (Z.leb_spec n (start + size - overlap)) as [Hdone | Hmore].
  - intros [= <-]. change (Z.of_nat (List.length [(start, start + size)])) with 1.
    apply Z.div_unique with (r := n - start - 1); lia.
  - destruct (chunk_spans fuel size overlap n (start + size - overlap)) as [rest |] eqn:Hrest;
      [| discriminate].
    intros [= <-]. cbn [List.length]. rewrite Nat2Z.inj_succ.
    rewrite (IH (start + size - overlap) rest ltac:(lia) Hrest).
    destruct (Z.ltb_spec (start + size - overlap) n); [| lia].
    replace (n - start + (size - overlap) - 1)
      with (n - (start + size - overlap) + (size - overlap) - 1 + 1 * (size - overlap)) by lia.
    rewrite Z.div_add by lia. lia.
Qed.

Lemma slice_length_window {A : Type} (l : list A) (s : Z) :
  0 <= s < len l ->
  1 <= len (Py.slice l s (s + size)) <= size.
Proof.
  intros Hs. unfold len in *. rewrite slice_Z by lia.
  rewrite length_firstn, length_skipn. lia.
Qed.

End ChunkCount.

(** X2.  For a text whose normalized token count [n] exceeds the chunk size
    (with an overlap below the chunk size) the chunker returns
    [ceil (n / (chunk_size - overlap))] chunks, each the decoding of at
    least one and at most [chunk_size] tokens. *)
Theorem chunk_count_and_sizes (self : EmbeddingService.t) (text : string) :
  0 <= EmbeddingService.chunk_overlap self < EmbeddingService.chunk_size self ->
  text <> "" ->
  let tokens := encode (EmbeddingService.encoding self)
                  (EmbeddingService._clean_text self text) in
  let step := EmbeddingService.chunk_size self - EmbeddingService.chunk_overlap self in
  EmbeddingService.chunk_size self < EmbeddingService.len tokens ->
  exists windows,
    EmbeddingService.chunk_text self text
    = Some (List.map (decode (EmbeddingService.encoding self)) windows)
    /\ Z.of_nat (List.length windows) = (EmbeddingService.len tokens + step - 1) / step
    /\ Forall (fun w => 1 <= EmbeddingService.len w <= EmbeddingService.chunk_size self)
         windows.
Proof.
  intros Hov Htext tokens step Hlong.
  destruct (chunk_text_windows self text Hov Htext Hlong) as (spans & Hspans & Hchunks).
  eexists. split; [exact Hchunks |]. split.
  - rewrite length_map.
    rewrite (chunk_spans_count _ _ Hov _ _ 0 spans ltac:(lia) Hspans).
    fold tokens. destruct (Z.ltb_spec 0 (EmbeddingService.len tokens)); [| lia].
    subst step. f_equal. lia.
  - destruct (chunk_spans_shape _ _ Hov _ _ 0 spans ltac:(lia) Hspans) as (_ & Hall & _).
    rewrite List.Forall_map. eapply List.Forall_impl; [| exact Hall].
    intros [s e] [He Hs]. simpl in *. subst e.
    now apply (slice_length_window _ _ Hov).
Qed.

Lemma chunk_count_and_sizes_witness :
  exists windows,
    EmbeddingService.chunk_text (EmbeddingService.init char_tokenizer) Spec.text920
    = Some (List.map (decode char_tokenizer) windows)
    /\ Z.of_nat (List.length windows) = 3.
Proof.
  destruct (chunk_count_and_sizes (EmbeddingService.init char_tokenizer) Spec.text920
              ltac:(simpl; lia) ltac:(discriminate) ltac:(vm_compute; reflexivity))
    as (windows & Hchunks & Hcount & _).
  exists windows. split; [exact Hchunks |].
  rewrite Hcount. vm_compute. reflexivity.
Defined.

(** X3.  With the sizes the constructor fixes (500 and 50) the chunking
    loop ends for every tokenizer and every text, and it returns no chunk
    exactly for the empty text. *)
Theorem chunk_text_terminates (enc : Tokenizer) (text : string) :
  exists chunks,
    EmbeddingService.chunk_text (EmbeddingService.init enc) text = Some chunks
    /\ (chunks = [] <-> text = "").
Proof.
  destruct text as [| c text].
  - exists []. split; [reflexivity | tauto].
  - pose proof (chunk_text_strings_nonempty enc (String c text) ltac:(discriminate)) as Hne.
    unfold ContentProcessor.chunk_text_strings in Hne.
    destruct (EmbeddingService.chunk_text (EmbeddingService.init enc) (String c text))
      as [chunks |]; [| congruence].
    exists chunks. split; [reflexivity |]. split; [congruence | discriminate].
Qed.

(** ** Embedding calls and their cache *)

Section EmbeddingCallsFacts.

Import Models EmbeddingCalls.

Lemma cached_after_write (st : State) (now now' : Z) (cache_key : string) (v : list Q) :
  now' < now + 3600 * 24 * 7 ->
  _get_cached_embedding (_cache_embedding st now cache_key v) now' cache_key = Some v.
Proof.
  intros Hlive. unfold _get_cached_embedding, cache_get, _cache_embedding. simpl.
  rewrite lookup_insert_eq.
  destruct (Z.ltb_spec now' (now + 3600 * 24 * 7)); [reflexivity | lia].
Qed.

End EmbeddingCallsFacts.

(** X4.  With the key configured, a text that is not blank once cleaned
    and no usable entry in the cache, [create_embedding] sends one request
    and returns what the endpoint answers; when that vector is not empty,
    every call for the same text during the next seven days returns the
    same vector without a request, whatever the endpoint would answer
    then. *)
Theorem create_embedding_cached_round_trip (self : EmbeddingService.t)
    (md5 : string -> string) (post post' : string -> Py.result (list Q))
    (st : EmbeddingCalls.State) (now now' : Z) (text : string) (v : list Q) :
  EmbeddingCalls._get_cached_embedding st now (EmbeddingCalls._get_cache_key md5 text) = None ->
  Py.strip (EmbeddingService._clean_text self text) <> "" ->
  post (EmbeddingService._clean_text self text) = Py.Returned v ->
  v <> [] ->
  now <= now' < now + 3600 * 24 * 7 ->
  let first := EmbeddingCalls.create_embedding self true md5 post st now text in
  fst first = Py.Returned v
  /\ EmbeddingCalls.requests (snd first)
     = (EmbeddingCalls.requests st ++ [EmbeddingService._clean_text self text])%list
  /\ EmbeddingCalls.create_embedding self true md5 post' (snd first) now' text
     = (Py.Returned v, snd first).
Proof.
  intros Hmiss Hclean Hpost Hv Hnow first. subst first.
  assert (Hfirst : EmbeddingCalls.create_embedding self true md5 post st now text
                   = (Py.Returned v,
                      EmbeddingCalls._cache_embedding
                        {| EmbeddingCalls.cache := EmbeddingCalls.cache st;
                           EmbeddingCalls.requests :=
                             EmbeddingCalls.requests st
                             ++ [EmbeddingService._clean_text self text] |}
                        now (EmbeddingCalls._get_cache_key md5 text) v)).
  { unfold EmbeddingCalls.create_embedding. cbn [negb]. rewrite Hmiss.
    destruct (Py.strip (EmbeddingService._clean_text self text)); [congruence |].
    cbn [Py.truthy negb]. now rewrite Hpost. }
  rewrite Hfirst. cbn [fst snd].
  split; [reflexivity |]. split; [reflexivity |].
  unfold EmbeddingCalls.create_embedding. cbn [negb].
  rewrite cached_after_write by lia.
  destruct v; [congruence | reflexivity].
Qed.

Lemma create_embedding_cached_round_trip_witness :
  let st := {| EmbeddingCalls.cache := ∅; EmbeddingCalls.requests := [] |} in
  let first :=
    EmbeddingCalls.create_embedding (EmbeddingService.init char_tokenizer) true Spec.toy_md5
      (fun _ => Py.Returned [1; 0]%Q) st 100 " Python  and Django " in
  EmbeddingCalls.requests (snd first) = ["Python and Django"]
  /\ EmbeddingCalls.create_embedding (EmbeddingService.init char_tokenizer) true Spec.toy_md5
       (fun _ => Py.Raised (Py.UpstreamError "OpenAI API error: 500")) (snd first) 200
       " Python  and Django "
     = (Py.Returned [1; 0]%Q, snd first).
Proof.
  intros st first.
  destruct (create_embedding_cached_round_trip (EmbeddingService.init char_tokenizer)
              Spec.toy_md5 (fun _ => Py.Returned [1; 0]%Q)
              (fun _ => Py.Raised (Py.UpstreamError "OpenAI API error: 500"))
              st 100 200 " Python  and Django " [1; 0]%Q)
    as (_ & Hreq & Hagain).
  - reflexivity.
  - vm_compute. discriminate.
  - reflexivity.
  - discriminate.
  - lia.
  - split; [exact Hreq | exact Hagain].
Defined.

(** X5.  [create_embedding] raises without a request and without touching
    the cache when the key is not configured, or when nothing usable is
    cached and the cleaned text is blank; and when the endpoint fails the
    exception is raised again, the request is on record and the cache is
    as it was. *)
Theorem create_embedding_failures (self : EmbeddingService.t) (md5 : string -> string)
    (post : string -> Py.result (list Q)) (st : EmbeddingCalls.State) (now : Z)
    (text : string) :
  EmbeddingCalls.create_embedding self false md5 post st now text
  = (Py.Raised (Py.ValueError "OpenAI API key not initialized. Please configure OPENAI_API_KEY."),
     st)
  /\ (EmbeddingCalls._get_cached_embedding st now (EmbeddingCalls._get_cache_key md5 text)
      = None ->
      (Py.strip (EmbeddingService._clean_text self text) = "" ->
       EmbeddingCalls.create_embedding self true md5 post st now text
       = (Py.Raised (Py.ValueError "Empty text provided for embedding"), st))
      /\ (forall e,
            Py.strip (EmbeddingService._clean_text self text) <> "" ->
            post (EmbeddingService._clean_text self text) = Py.Raised e ->
            let r := EmbeddingCalls.create_embedding self true md5 post st now text in
            fst r = Py.Raised e
            /\ EmbeddingCalls.cache (snd r) = EmbeddingCalls.cache st
            /\ EmbeddingCalls.requests (snd r)
               = (EmbeddingCalls.requests st ++ [EmbeddingService._clean_text self text])%list)).
Proof.
  split; [reflexivity |]. intros Hmiss. split.
  - intros Hblank. unfold EmbeddingCalls.create_embedding. cbn [negb].
    now rewrite Hmiss, Hblank.
  - intros e Hclean Hpost r. subst r. unfold EmbeddingCalls.create_embedding. cbn [negb].
    rewrite Hmiss.
    destruct (Py.strip (EmbeddingService._clean_text self text)); [congruence |].
    cbn [Py.truthy negb]. rewrite Hpost. repeat split.
Qed.

Lemma create_embedding_failures_witness :
  EmbeddingCalls.create_embedding (EmbeddingService.init char_tokenizer) true Spec.toy_md5
    (fun _ => Py.Returned [1; 0]%Q)
    {| EmbeddingCalls.cache := ∅; EmbeddingCalls.requests := [] |} 100 "   "
  = (Py.Raised (Py.ValueError "Empty text provided for embedding"),
     {| EmbeddingCalls.cache := ∅; EmbeddingCalls.requests := [] |}).
Proof.
  destruct (create_embedding_failures (EmbeddingService.init char_tokenizer) Spec.toy_md5
              (fun _ => Py.Returned [1; 0]%Q)
              {| EmbeddingCalls.cache := ∅; EmbeddingCalls.requests := [] |} 100 "   ")
    as (_ & H).
  destruct (H eq_refl) as [Hblank _]. apply Hblank. reflexivity.
Defined.

(** X6.  An empty vector is written to the cache but never served from
    it: when the endpoint answers the empty vector for a text, every call
    for that text sends a request again. *)
Theorem create_embedding_empty_vector_refetched (self : EmbeddingService.t)
    (md5 : string -> string) (post : string -> Py.result (list Q))
    (st : EmbeddingCalls.State) (now now' : Z) (text : string) :
  EmbeddingCalls._get_cached_embedding st now (EmbeddingCalls._get_cache_key md5 text) = None ->
  Py.strip (EmbeddingService._clean_text self text) <> "" ->
  post (EmbeddingService._clean_text self text) = Py.Returned [] ->
  let first := EmbeddingCalls.create_embedding self true md5 post st now text in
  let second := EmbeddingCalls.create_embedding self true md5 post (snd first) now' text in
  fst first = Py.Returned []
  /\ fst second = Py.Returned []
  /\ EmbeddingCalls.requests (snd second)
     = (EmbeddingCalls.requests st
        ++ [EmbeddingService._clean_text self text; EmbeddingService._clean_text self text])%list.
Proof.
  intros Hmiss Hclean Hpost first second. subst second first.
  assert (Hfirst : EmbeddingCalls.create_embedding self true md5 post st now text
                   = (Py.Returned [],
                      EmbeddingCalls._cache_embedding
                        {| EmbeddingCalls.cache := EmbeddingCalls.cache st;
                           EmbeddingCalls.requests :=
                             EmbeddingCalls.requests st
                             ++ [EmbeddingService._clean_text self text] |}
                        now (EmbeddingCalls._get_cache_key md5 text) [])).
  { unfold EmbeddingCalls.create_embedding. cbn [negb]. rewrite Hmiss.
    destruct (Py.strip (EmbeddingService._clean_text self text)); [congruence |].
    cbn [Py.truthy negb]. now rewrite Hpost. }
  rewrite Hfirst. cbn [fst snd]. split; [reflexivity |].
  unfold EmbeddingCalls.create_embedding. cbn [negb].
  assert (Hcached : match EmbeddingCalls._get_cached_embedding
                            (EmbeddingCalls._cache_embedding
                               {| EmbeddingCalls.cache := EmbeddingCalls.cache st;
                                  EmbeddingCalls.requests :=
                                    EmbeddingCalls.requests st
                                    ++ [EmbeddingService._clean_text self text] |}
                               now (EmbeddingCalls._get_cache_key md5 text) [])
                            now' (EmbeddingCalls._get_cache_key md5 text) with
                    | Some (x :: v) => False
                    | _ => True
                    end).
  { unfold EmbeddingCalls._get_cached_embedding, EmbeddingCalls.cache_get,
      EmbeddingCalls._cache_embedding. simpl. rewrite lookup_insert_eq.
    destruct (now' <? now + 3600 * 24 * 7); exact I. }
  destruct (EmbeddingCalls._get_cached_embedding _ now' _) as [[| x v] |];
    try contradiction;
    (destruct (Py.strip (EmbeddingService._clean_text self text)); [congruence |];
     cbn [Py.truthy negb]; rewrite Hpost; cbn [fst snd EmbeddingCalls._cache_embedding
       EmbeddingCalls.requests];
     split; [reflexivity | now rewrite <- app_assoc]).
Qed.

Lemma create_embedding_empty_vector_refetched_witness :
  EmbeddingCalls.requests
    (snd (EmbeddingCalls.create_embedding (EmbeddingService.init char_tokenizer) true
            Spec.toy_md5 (fun _ => Py.Returned [])
            (snd (EmbeddingCalls.create_embedding (EmbeddingService.init char_tokenizer) true
                    Spec.toy_md5 (fun _ => Py.Returned [])
                    {| EmbeddingCalls.cache := ∅; EmbeddingCalls.requests := [] |}
                    100 "Django"))
            101 "Django"))
  = ["Django"; "Django"].
Proof.
  apply (create_embedding_empty_vector_refetched (EmbeddingService.init char_tokenizer)
           Spec.toy_md5 (fun _ => Py.Returned [])
           {| EmbeddingCalls.cache := ∅; EmbeddingCalls.requests := [] |} 100 101 "Django").
  - reflexivity.
  - vm_compute. discriminate.
  - reflexivity.
Defined.



(** ** Writing to and clearing the embedding cache *)

Section EmbeddingCacheWrite.

Import Models CacheService.

Lemma first_with_hash_update (h : string) (fresh : EmbeddingCache)
    (rows : list EmbeddingCache) :
  text_hash fresh = h ->
  exists row,
    first_with_hash h (update_or_create h fresh rows) = Some row
    /\ cache_embedding_json row = cache_embedding_json fresh.
Proof.
  intros Hfresh. unfold first_with_hash.
  induction rows as [| r rows IH]; simpl.
  - rewrite Hfresh, String.eqb_refl. eauto.
  - destruct (String.eqb (text_hash r) h) eqn:Hr; simpl.
    + rewrite String.eqb_refl. eauto.
    + rewrite Hr. exact IH.
Qed.

Lemma first_with_hash_update_other (h h' : string) (fresh : EmbeddingCache)
    (rows : list EmbeddingCache) :
  text_hash fresh = h -> h' <> h ->
  first_with_hash h' (update_or_create h fresh rows) = first_with_hash h' rows.
Proof.
  intros Hfresh Hne. unfold first_with_hash.
  induction rows as [| r rows IH]; simpl.
  - rewrite Hfresh. destruct (String.eqb_spec h h'); [congruence | reflexivity].
  - destruct (String.eqb_spec (text_hash r) h) as [Hr | Hr]; simpl.
    + destruct (String.eqb_spec h h'); [congruence |].
      destruct (String.eqb_spec (text_hash r) h'); [congruence | reflexivity].
    + destruct (String.eqb (text_hash r) h'); [reflexivity | exact IH].
Qed.

Lemma NoDup_snoc {A : Type} (l : list A) (x : A) :
  List.NoDup l -> ~ In x l -> List.NoDup (l ++ [x]).
Proof.
  induction 1 as [| y l Hy Hl IH]; intros Hx; simpl.
  - apply List.NoDup_cons; [intros [] | apply List.NoDup_nil].
  - apply List.NoDup_cons.
    + rewrite List.in_app_iff. intros [H | [<- | []]]; [contradiction |].
      apply Hx. now left.
    + apply IH. intros H. apply Hx. now right.
Qed.

Lemma update_or_create_hashes (h : string) (fresh : EmbeddingCache)
    (rows : list EmbeddingCache) :
  text_hash fresh = h ->
  List.map text_hash (update_or_create h fresh rows)
  = if existsb (fun r => String.eqb (text_hash r) h) rows
    then List.map text_hash rows
    else (List.map text_hash rows ++ [h])%list.
Proof.
  intros Hfresh. induction rows as [| r rows IH]; simpl; [now rewrite Hfresh |].
  destruct (String.eqb_spec (text_hash r) h) as [Hr | Hr]; simpl.
  - now rewrite Hr.
  - rewrite IH. now destruct (existsb _ rows).
Qed.

End EmbeddingCacheWrite.

(** X8.  After [cache_embedding] has stored a vector for a text, a lookup
    for that text returns the vector: from the fast tier until the
    embedding time-to-live has passed, and from the table after that. *)
Theorem cache_embedding_round_trip (self : CacheService.t) (md5 : string -> string)
    (st : CacheService.State) (now now' : Z) (text model : string) (v : list Q) :
  let st1 := snd (CacheService.cache_embedding self md5 st now text v model) in
  let hit := CacheService.get_cached_embedding self md5 st1 now' text in
  fst (fst hit) = Some v
  /\ snd hit = (if now' <? now + CacheService.embedding_timeout self
                then CacheService.RetrievedFromRedis
                else CacheService.RetrievedFromDatabase).
Proof.
  intros st1 hit. subst hit st1.
  unfold CacheService.cache_embedding. cbn [snd].
  unfold CacheService.get_cached_embedding, CacheService.cache_get.
  cbn [CacheService.redis CacheService.cache_set CacheService.embedding_cache].
  rewrite lookup_insert_eq.
  destruct (now' <? now + CacheService.embedding_timeout self); [split; reflexivity |].
  match goal with
  | |- context [CacheService.first_with_hash ?h (CacheService.update_or_create ?h ?fresh ?rows)] =>
      destruct (first_with_hash_update h fresh rows eq_refl) as (row & Hrow & Hjson);
      rewrite Hrow
  end.
  rewrite Hjson. split; reflexivity.
Qed.

(** X9.  [cache_embedding] keeps one row per text hash: when the hashes of
    the table are pairwise distinct before the call they are after it, the
    table grows by one row at most, and the row found for any other hash
    is the one found before. *)
Theorem cache_embedding_keeps_hashes_unique (self : CacheService.t)
    (md5 : string -> string) (st : CacheService.State) (now : Z) (text model : string)
    (v : list Q) :
  List.NoDup (List.map Models.text_hash (CacheService.embedding_cache st)) ->
  let st1 := snd (CacheService.cache_embedding self md5 st now text v model) in
  List.NoDup (List.map Models.text_hash (CacheService.embedding_cache st1))
  /\ (List.length (CacheService.embedding_cache st1)
      <= S (List.length (CacheService.embedding_cache st)))%nat
  /\ forall h, h <> CacheService._hash_text md5 text ->
       CacheService.first_with_hash h (CacheService.embedding_cache st1)
       = CacheService.first_with_hash h (CacheService.embedding_cache st).
Proof.
  intros Hnodup st1. subst st1. unfold CacheService.cache_embedding.
  cbn [snd CacheService.embedding_cache CacheService.cache_set].
  split; [| split].
  - rewrite update_or_create_hashes by reflexivity.
    destruct (existsb _ (CacheService.embedding_cache st)) eqn:Hex; [exact Hnodup |].
    apply NoDup_snoc; [exact Hnodup |]. intros Hin.
    apply List.in_map_iff in Hin. destruct Hin as (r & Hr & Hin).
    assert (Hfalse : existsb (fun r => String.eqb (Models.text_hash r)
                                         (CacheService._hash_text md5 text))
                       (CacheService.embedding_cache st) = true).
    { apply List.existsb_exists. exists r. split; [exact Hin |]. now apply String.eqb_eq. }
    congruence.
  - pose proof (f_equal (@List.length string)
                  (update_or_create_hashes (CacheService._hash_text md5 text)
                     {| Models.text_hash := CacheService._hash_text md5 text;
                        Models.text_content := String.substring 0 1000 text;
                        Models.cache_embedding_json := Models.JsonVector v;
                        Models.model_name := model;
                        Models.cache_token_count := OptimizedRAGService.word_count false text;
                        Models.cache_created_at := now;
                        Models.expires_at := None |}
                     (CacheService.embedding_cache st) eq_refl)) as Hlen.
    rewrite length_map in Hlen. rewrite Hlen.
    destruct (existsb _ (CacheService.embedding_cache st));
      [rewrite length_map | rewrite length_app, length_map; simpl]; lia.
  - intros h Hne. now apply first_with_hash_update_other.
Qed.

Lemma cache_embedding_keeps_hashes_unique_witness :
  List.NoDup (List.map Models.text_hash
           (CacheService.embedding_cache
              (snd (CacheService.cache_embedding CacheService.init Spec.toy_md5
                      Spec.expired_state 100 "hello" [3; 4]%Q "text-embedding-ada-002")))).
Proof.
  apply (cache_embedding_keeps_hashes_unique CacheService.init Spec.toy_md5
           Spec.expired_state 100 "hello" "text-embedding-ada-002" [3; 4]%Q).
  simpl. apply List.NoDup_cons; [intros [] | apply List.NoDup_nil].
Defined.

(** X10.  [cleanup_old_cache] deletes exactly the rows created before the
    cutoff and returns their number: the rows left are the others, in
    their order, none of them older than the cutoff; the count and the
    rows left add up to the rows there were; the fast tier is untouched;
    and a second cleanup at the same time deletes nothing. *)
Theorem cleanup_old_cache_removes_old_rows (st : CacheService.State) (now days_old : Z) :
  let cutoff := now - days_old * 86400 in
  let run := CacheClearing.cleanup_old_cache st now days_old in
  Forall (fun row => cutoff <= Models.cache_created_at row)
    (CacheService.embedding_cache (snd run))
  /\ (forall row, In row (CacheService.embedding_cache (snd run))
                  <-> In row (CacheService.embedding_cache st)
                      /\ cutoff <= Models.cache_created_at row)
  /\ fst run + Z.of_nat (List.length (CacheService.embedding_cache (snd run)))
     = Z.of_nat (List.length (CacheService.embedding_cache st))
  /\ CacheService.redis (snd run) = CacheService.redis st
  /\ CacheClearing.cleanup_old_cache (snd run) now days_old = (0, snd run).
Proof.
  intros cutoff run. subst run. unfold CacheClearing.cleanup_old_cache.
  cbn [fst snd CacheService.embedding_cache CacheService.redis]. fold cutoff.
  assert (Hkeep : forall row,
            negb (CacheClearing.older_than cutoff row) = true
            <-> cutoff <= Models.cache_created_at row).
  { intros row. unfold CacheClearing.older_than. rewrite negb_true_iff, Z.ltb_ge. tauto. }
  split; [| split; [| split; [| split]]].
  - rewrite List.Forall_forall. intros row Hrow.
    apply List.filter_In in Hrow. now apply Hkeep.
  - intros row. rewrite List.filter_In, Hkeep. tauto.
  - induction (CacheService.embedding_cache st) as [| row rows IH]; [reflexivity |].
    cbn [List.filter List.length]. destruct (CacheClearing.older_than cutoff row);
      cbn [negb List.length]; lia.
  - reflexivity.
  - f_equal.
    + induction (CacheService.embedding_cache st) as [| row rows IH]; [reflexivity |].
      cbn [List.filter]. destruct (CacheClearing.older_than cutoff row) eqn:Hold;
        cbn [negb List.filter]; [exact IH | now rewrite Hold].
    + f_equal.
      induction (CacheService.embedding_cache st) as [| row rows IH]; [reflexivity |].
      cbn [List.filter]. destruct (CacheClearing.older_than cutoff row) eqn:Hold;
        cbn [negb List.filter]; [exact IH |].
      rewrite Hold. cbn [negb]. now rewrite IH.
Qed.

(** X11.  [clear_cache] returns a count other than 0 for the scope
    ['embeddings'] alone, where it is the cleanup of the rows older than 30
    days; the scope ['rag'] changes nothing; every other scope, ['all']
    included, empties the fast tier, returns 0 and leaves the table as it
    is. *)
Theorem clear_cache_scopes (st : CacheService.State) (now : Z) (cache_type : option string) :
  (cache_type = Some "embeddings" ->
   CacheClearing.clear_cache st now cache_type = CacheClearing.cleanup_old_cache st now 30)
  /\ (cache_type = Some "rag" -> CacheClearing.clear_cache st now cache_type = (0, st))
  /\ (cache_type <> Some "embeddings" -> cache_type <> Some "rag" ->
      fst (CacheClearing.clear_cache st now cache_type) = 0
      /\ CacheService.embedding_cache (snd (CacheClearing.clear_cache st now cache_type))
         = CacheService.embedding_cache st
      /\ forall now' key,
           CacheService.cache_get (snd (CacheClearing.clear_cache st now cache_type)) now' key
           = None).
Proof.
  split; [intros ->; reflexivity |]. split; [intros ->; reflexivity |].
  intros Hemb Hrag. unfold CacheClearing.clear_cache.
  destruct cache_type as [scope |].
  - destruct (String.eqb_spec scope "embeddings"); [congruence |].
    destruct (String.eqb_spec scope "rag"); [congruence |].
    destruct (String.eqb scope "all"); repeat split.
  - repeat split.
Qed.

Lemma clear_cache_scopes_witness :
  fst (CacheClearing.clear_cache Spec.expired_state 100 (Some "all")) = 0
  /\ CacheService.embedding_cache
       (snd (CacheClearing.clear_cache Spec.expired_state 100 (Some "all")))
     = CacheService.embedding_cache Spec.expired_state.
Proof.
  destruct (clear_cache_scopes Spec.expired_state 100 (Some "all")) as (_ & _ & Hall).
  destruct (Hall ltac:(discriminate) ltac:(discriminate)) as (Hcount & Hrows & _).
  split; [exact Hcount | exact Hrows].
Defined.

(** ** The context window *)

Section ContextWindow.

Import Models Vec Ranking OptimizedRAGService.

Lemma context_parts_prefix (self : t) (chunks : list DocumentChunk) (total : Q) :
  exists k,
    (k <= List.length chunks)%nat
    /\ context_parts self chunks total = List.map chunk_context (firstn k chunks)
    /\ (k = 0%nat
        \/ (running_total total (firstn k chunks) <= max_context_tokens self)%Q)
    /\ ((k < List.length chunks)%nat ->
        (max_context_tokens self < running_total total (firstn (S k) chunks))%Q).
Proof.
  revert total. induction chunks as [| chunk rest IH]; intros total.
  - exists 0%nat. simpl. repeat split; [lia | now left | lia].
  - cbn [context_parts]. fold (chunk_tokens chunk).
    destruct (qlt (max_context_tokens self) (total + chunk_tokens chunk)) eqn:Hover.
    + exists 0%nat. simpl. repeat split; [lia | now left |].
      intros _. now apply qlt_spec.
    + destruct (IH (total + chunk_tokens chunk)%Q) as (k & Hk & Hparts & Hfit & Hnext).
      exists (S k). cbn [firstn List.map List.length running_total].
      split; [lia |]. split; [now rewrite Hparts |]. split.
      * right. destruct Hfit as [-> | Hfit]; [| exact Hfit].
        simpl. apply Qnot_lt_le. intros Hlt. apply qlt_spec in Hlt. congruence.
      * intros Hlt. apply Hnext. lia.
Qed.

End ContextWindow.

(** X12.  [_prepare_context] puts a prefix of the ranked chunks into the
    context, each as its source line and content, in ranked order, between
    the fixed opening and closing instructions: the estimated tokens of the
    chunks taken do not pass [max_context_tokens], and the first chunk left
    out, when there is one, is the one that would pass it; no later chunk
    is taken in its place. *)
Theorem prepare_context_takes_prefix (self : OptimizedRAGService.t)
    (chunks : list Models.DocumentChunk) (question : string) :
  exists k,
    (k <= List.length chunks)%nat
    /\ OptimizedRAGService._prepare_context self chunks question
       = "Based on the following information about the developer's portfolio:"
         ++ OptimizedRAGService.nl ++ OptimizedRAGService.nl
         ++ OptimizedRAGService.join OptimizedRAGService.nl
              (List.map Ranking.chunk_context (firstn k chunks))
         ++ OptimizedRAGService.nl ++ OptimizedRAGService.nl
         ++ "Please answer the following question using only the information provided above. If the information doesn't contain enough detail to answer the question, please say so."
    /\ (k = 0%nat
        \/ (Ranking.running_total 0 (firstn k chunks)
            <= OptimizedRAGService.max_context_tokens self)%Q)
    /\ ((k < List.length chunks)%nat ->
        (OptimizedRAGService.max_context_tokens self
         < Ranking.running_total 0 (firstn (S k) chunks))%Q).
Proof.
  destruct (context_parts_prefix self chunks 0%Q) as (k & Hk & Hparts & Hfit & Hnext).
  exists k. split; [exact Hk |]. split; [| split; assumption].
  unfold OptimizedRAGService._prepare_context. now rewrite Hparts.
Qed.

(** ** Where the ranked chunks come from, and their order *)

Section Provenance.

Import Models Api Vec Ranking.

Lemma str_filter_In (field : DocumentChunk -> string) (value : option string)
    (queryset : list DocumentChunk) (c : DocumentChunk) :
  In c (OptimizedRAGService.str_filter field value queryset) ->
  In c queryset /\ filter_matches value (field c).
Proof.
  unfold OptimizedRAGService.str_filter, filter_matches.
  destruct value as [v |].
  - destruct v as [| a v]; cbn [Py.truthy].
    + intros Hin. split; [exact Hin |]. intros v' [= <-] Hne. congruence.
    + intros Hin. apply List.filter_In in Hin. destruct Hin as [Hin Heq].
      split; [exact Hin |]. intros v' [= <-] _. now apply String.eqb_eq.
  - intros Hin. split; [exact Hin | discriminate].
Qed.

Lemma candidates_In (w : World) (context_type source_id : option string) (limit : Z)
    (chunks : list DocumentChunk) (c : DocumentChunk) :
  OptimizedRAGService.candidates w context_type source_id limit = Py.Returned chunks ->
  In c chunks ->
  exists rows,
    document_chunks w = Py.Returned rows /\ In c rows
    /\ is_active c = true /\ json_truthy (embedding c) = true
    /\ filter_matches context_type (source_type c)
    /\ filter_matches source_id (Models.source_id c).
Proof.
  unfold OptimizedRAGService.candidates, OptimizedRAGService.queryset_limit.
  destruct (document_chunks w) as [rows | e]; simpl; [| discriminate].
  destruct (limit * 3 <? 0); [discriminate |].
  intros [= <-] Hin. apply firstn_In in Hin. apply sort_desc_In in Hin.
  apply str_filter_In in Hin. destruct Hin as [Hin Hsid].
  apply str_filter_In in Hin. destruct Hin as [Hin Hct].
  apply List.filter_In in Hin. destruct Hin as [Hin Hact].
  apply andb_true_iff in Hact. destruct Hact as [Hact Hemb].
  exists rows. auto 10.
Qed.

End Provenance.

(** X13.  Every chunk the optimized search returns is a row of the chunk
    table that is active, has an embedding of the length of the query
    vector, and carries the source type and the source id asked for (a
    filter that is missing or empty asks for nothing).  [RAGService] returns
    rows of the table that carry the filters' values, active or not. *)
Theorem search_results_match_filters (o : OptimizedRAGService.t) (r : RAGService.t)
    (w : Api.World) (query : string) (context_type source_id : option string)
    (limit : Z) (c : Models.DocumentChunk) :
  (In c (OptimizedRAGService.optimized_similarity_search o w query context_type source_id
           limit) ->
   exists rows qe,
     Api.document_chunks w = Py.Returned rows /\ In c rows
     /\ Api.create_embedding w query = Py.Returned qe
     /\ Models.is_active c = true
     /\ Models.get_embedding_vector c <> []
     /\ List.length (Models.get_embedding_vector c) = List.length qe
     /\ Ranking.filter_matches context_type (Models.source_type c)
     /\ Ranking.filter_matches source_id (Models.source_id c))
  /\ (In c (RAGService._get_relevant_chunks r w query context_type source_id limit) ->
      exists rows,
        Api.document_chunks w = Py.Returned rows /\ In c rows
        /\ Ranking.filter_matches context_type (Models.source_type c)
        /\ Ranking.filter_matches source_id (Models.source_id c)).
Proof.
  split.
  - rewrite optimized_search_is_ranked. intros Hin.
    apply List.in_map_iff in Hin. destruct Hin as (p & <- & Hp).
    destruct (optimized_ranked_cases o w query context_type source_id limit)
      as [[Hnil _] | (qe & chunks & sims & Hqe & Hc & Hb & Hranked)].
    + rewrite Hnil in Hp. destruct Hp.
    + rewrite Hranked in Hp. apply slice_In in Hp. apply sort_desc_In in Hp.
      apply List.filter_In in Hp. destruct Hp as [Hp _].
      destruct (batch_calculate_similarities_In o (Api.np w) qe chunks sims p Hb Hp)
        as (Hin & Hvalid & _).
      destruct (candidates_In w context_type source_id limit chunks (fst p) Hc Hin)
        as (rows & Hrows & Hrow & Hact & _ & Hct & Hsid).
      exists rows, qe. repeat split; try assumption.
      * unfold OptimizedRAGService.valid_chunk in Hvalid.
        apply andb_true_iff in Hvalid. destruct Hvalid as [Hne _].
        intros E. rewrite E in Hne. discriminate.
      * now apply valid_chunk_length.
  - rewrite rag_search_is_ranked. intros Hin.
    apply List.in_map_iff in Hin. destruct Hin as (p & <- & Hp).
    destruct (rag_ranked_cases r w query context_type source_id limit)
      as [[Hnil _] | (sims & Hsims & Hranked)].
    + rewrite Hnil in Hp. destruct Hp.
    + rewrite Hranked in Hp. apply List.filter_In in Hp. destruct Hp as [Hp _].
      apply slice_In in Hp. apply sort_desc_In in Hp.
      revert Hsims. unfold RAGService.scored.
      destruct (Api.create_embedding w query) as [qe | e]; simpl; [| discriminate].
      destruct (Api.document_chunks w) as [rows | e]; simpl; [| discriminate].
      intros [= <-]. apply List.in_flat_map in Hp. destruct Hp as (c' & Hc' & Hp).
      apply score_chunk_In in Hp. destruct Hp as (<- & _).
      apply firstn_In in Hc'.
      apply str_filter_In in Hc'. destruct Hc' as [Hc' Hsid].
      apply str_filter_In in Hc'. destruct Hc' as [Hc' Hct].
      exists rows. auto.
Qed.

Lemma search_results_match_filters_witness :
  Models.is_active (Spec.mk_chunk 1 (Models.JsonVector [1; 0]%Q) 10) = true
  /\ Ranking.filter_matches (Some "skills")
       (Models.source_type (Spec.mk_chunk 1 (Models.JsonVector [1; 0]%Q) 10)).
Proof.
  destruct (search_results_match_filters (OptimizedRAGService.init true)
              (RAGService.init true) Spec.example_world "What are the skills?"
              (Some "skills") None 5 (Spec.mk_chunk 1 (Models.JsonVector [1; 0]%Q) 10))
    as [Hfound _].
  destruct Hfound as (rows & qe & _ & _ & _ & Hactive & _ & _ & Htype & _);
    [vm_compute; left; reflexivity |].
  split; [exact Hactive | exact Htype].
Defined.

(** X15.  With a limit that is not positive the optimized search returns
    no chunk (Django refuses a negative bound, and the handler answers the
    empty list), and [query], after a cache miss, answers a negative
    [max_chunks] with the fallback for "nothing relevant". *)
Theorem non_positive_limit_returns_nothing (self : OptimizedRAGService.t) (w : Api.World)
    (question : string) (context_type source_id : option string) (limit : Z) :
  limit <= 0 ->
  OptimizedRAGService.optimized_similarity_search self w question context_type source_id limit
  = []
  /\ (limit < 0 ->
      OptimizedRAGService.client self = true ->
      OptimizedRAGService.get_rag_query_cache w
        (OptimizedRAGService._get_query_cache_key w question context_type source_id) = None ->
      OptimizedRAGService.query self w question context_type source_id (Some limit)
      = Py.Returned
          (OptimizedRAGService._fallback_response
             "I couldn't find relevant information to answer your question.")).
Proof.
  intros Hlimit.
  assert (Hnone : forall l, l <= 0 ->
            OptimizedRAGService.optimized_similarity_search self w question context_type
              source_id l = []).
  { intros l Hl.
    unfold OptimizedRAGService.optimized_similarity_search, OptimizedRAGService.ranked_body.
    destruct (Api.create_embedding w question) as [qe | e]; simpl; [| reflexivity].
    destruct (OptimizedRAGService.is_nil qe); [reflexivity |].
    unfold OptimizedRAGService.candidates, OptimizedRAGService.queryset_limit.
    destruct (Api.document_chunks w) as [rows | e]; simpl; [| reflexivity].
    destruct (Z.ltb_spec (l * 3) 0); simpl; [reflexivity |].
    replace (Z.to_nat (l * 3)) with 0%nat by lia. reflexivity. }
  split; [now apply Hnone |].
  intros Hneg Hclient Hmiss. apply query_nothing_relevant; [assumption | assumption |].
  apply Hnone. unfold OptimizedRAGService.or_max_chunks.
  destruct (Z.eqb_spec limit 0); lia.
Qed.

Lemma non_positive_limit_returns_nothing_witness :
  OptimizedRAGService.optimized_similarity_search (OptimizedRAGService.init true)
    Spec.example_world "What are the skills?" None None (-2) = [].
Proof.
  apply (non_positive_limit_returns_nothing (OptimizedRAGService.init true)
           Spec.example_world "What are the skills?" None None (-2)). lia.
Defined.

(** ** Ties in the ranking *)

Section StableSort.

Context {A : Type} (leb : A -> A -> bool) (before : A -> A -> Prop).
Hypothesis leb_total : forall a b, leb a b = true \/ leb b a = true.
Hypothesis leb_trans : forall a b c, leb a b = true -> leb b c = true -> leb a c = true.

Lemma insert_desc_stable (x : A) (s : list A) :
  StronglySorted (Ranking.stable_rel leb before) s -> Forall (before x) s ->
  StronglySorted (Ranking.stable_rel leb before) (Vec.insert_desc leb x s).
Proof.
  induction s as [| y s IH]; intros Hs Hx; simpl.
  - constructor; constructor.
  - inversion Hs as [| ? ? Hs' Hy]; subst.
    inversion Hx as [| ? ? Hxy Hxs]; subst.
    destruct (leb y x) eqn:Hyx.
    + constructor; [assumption |].
      constructor; [split; [exact Hyx | intros _; exact Hxy] |].
      rewrite List.Forall_forall in *. intros z Hz. split.
      * destruct (Hy z Hz) as [Hzy _]. eauto.
      * intros _. now apply Hxs.
    + constructor; [now apply IH |].
      rewrite List.Forall_forall in *. intros z Hz.
      apply (Permutation_in _ (Permutation_sym (insert_desc_perm leb x s))) in Hz.
      destruct Hz as [<- | Hz]; [| now apply Hy].
      split; [| congruence]. destruct (leb_total x y); congruence.
Qed.

(** The sort is stable: elements with equal keys keep the order they had. *)
Lemma sort_desc_stable (l : list A) :
  StronglySorted before l -> StronglySorted (Ranking.stable_rel leb before) (Vec.sort_desc leb l).
Proof.
  induction 1 as [| x l Hl IH Hx]; simpl; [constructor |].
  apply insert_desc_stable; [exact IH |].
  rewrite List.Forall_forall in Hx. rewrite List.Forall_forall.
  intros z Hz. apply Hx. apply (sort_desc_In leb). exact Hz.
Qed.

End StableSort.

Section Recency.

Import Models Api Vec Ranking.

Lemma StronglySorted_map_fst {B : Type} (R : DocumentChunk -> DocumentChunk -> Prop)
    (f : DocumentChunk -> B) (l : list DocumentChunk) :
  StronglySorted R l ->
  StronglySorted (fun a b => R (fst a) (fst b)) (List.map (fun c => (c, f c)) l).
Proof.
  induction 1 as [| x l Hl IH Hx]; simpl; constructor; [assumption |].
  rewrite List.Forall_map. exact Hx.
Qed.

Lemma candidates_newest_first (w : World) (context_type source_id : option string)
    (limit : Z) (chunks : list DocumentChunk) :
  OptimizedRAGService.candidates w context_type source_id limit = Py.Returned chunks ->
  StronglySorted newer_first chunks.
Proof.
  unfold OptimizedRAGService.candidates, OptimizedRAGService.queryset_limit.
  destruct (document_chunks w) as [rows | e]; simpl; [| discriminate].
  destruct (limit * 3 <? 0); [discriminate |].
  intros [= <-]. apply StronglySorted_firstn.
  apply (StronglySorted_weaken (geb_rel OptimizedRAGService.by_created_at)).
  - intros a b H. unfold geb_rel, OptimizedRAGService.by_created_at in H.
    unfold newer_first. now apply Z.leb_le.
  - apply sort_desc_sorted.
    + intros a b. unfold OptimizedRAGService.by_created_at.
      destruct (Z.leb_spec (created_at a) (created_at b)); [now left |].
      right. apply Z.leb_le. lia.
    + intros a b c. unfold OptimizedRAGService.by_created_at.
      rewrite !Z.leb_le. lia.
Qed.

Lemma similarities_newest_first (self : OptimizedRAGService.t) (np : Numpy) (q : list Q)
    (chunks : list DocumentChunk) (sims : list (DocumentChunk * Q)) :
  StronglySorted newer_first chunks ->
  OptimizedRAGService._batch_calculate_similarities self np q chunks = Py.Returned sims ->
  StronglySorted (fun a b => newer_first (fst a) (fst b)) sims.
Proof.
  intros Hsorted. unfold OptimizedRAGService._batch_calculate_similarities.
  destruct (Z.eqb_spec (OptimizedRAGService.batch_size self) 0); [discriminate |].
  destruct (Z.ltb_spec (OptimizedRAGService.batch_size self) 0).
  - intros [= <-]. constructor.
  - intros [= <-]. rewrite batch_loop_flat by lia.
    unfold OptimizedRAGService.process_batch.
    apply StronglySorted_map_fst. now apply StronglySorted_filter.
Qed.

End Recency.

(** X14.  In the ranked list of the optimized search no score is below a
    later one, and chunks with equal scores stand with the one created
    later first. *)
Theorem ranking_breaks_ties_by_recency (self : OptimizedRAGService.t) (w : Api.World)
    (query : string) (context_type source_id : option string) (limit : Z) :
  StronglySorted Ranking.by_score_then_recency
    (OptimizedRAGService.ranked self w query context_type source_id limit).
Proof.
  destruct (optimized_ranked_cases self w query context_type source_id limit)
    as [[Hnil _] | (qe & chunks & sims & Hqe & Hc & Hb & Hranked)].
  - rewrite Hnil. constructor.
  - rewrite Hranked. apply StronglySorted_slice.
    apply (StronglySorted_weaken
             (Ranking.stable_rel OptimizedRAGService.by_score
                (fun a b => Ranking.newer_first (fst a) (fst b)))).
    + intros a b [Hba Hab]. unfold OptimizedRAGService.by_score, Vec.qle in *.
      split; [now apply Qle_bool_iff |].
      intros Hle. apply Hab. now apply Qle_bool_iff.
    + apply sort_desc_stable.
      * intros a b. apply qle_total.
      * intros a b c. apply qle_trans.
      * apply StronglySorted_filter.
        eapply similarities_newest_first; [| exact Hb].
        eapply candidates_newest_first. exact Hc.
Qed.

(** ** A cached answer is served again *)

(** X16.  After a query that missed the cache and retrieved chunks, the
    response it returned is served from the cache for an hour: a query
    whose question differs from the first only in letter case or in
    leading and trailing white space, with the same filters, returns that
    very response and leaves the cache as it is, whatever the embedding
    service, the chunk table and the completion endpoint would answer
    then. *)
Theorem cached_answer_is_served_again (self : OptimizedRAGService.t) (w w2 : Api.World)
    (entries : gmap string (Api.Response * Z)) (now now' : Z) (q1 q2 : string)
    (context_type source_id : option string) (max_chunks_arg max_chunks_arg2 : option Z) :
  OptimizedRAGService.client self = true ->
  QueryCache.get entries now
    (OptimizedRAGService._get_query_cache_key w q1 context_type source_id) = None ->
  OptimizedRAGService.optimized_similarity_search self (QueryCache.with_entries w entries now)
    q1 context_type source_id (OptimizedRAGService.or_max_chunks self max_chunks_arg) <> [] ->
  Spec.differ_only_in_case_or_padding q1 q2 ->
  Api.md5 w2 = Api.md5 w ->
  now <= now' < now + 3600 ->
  let first := QueryCache.query self w entries now q1 context_type source_id max_chunks_arg in
  exists response,
    fst first = Py.Returned response
    /\ QueryCache.query self w2 (snd first) now' q2 context_type source_id max_chunks_arg2
       = (Py.Returned response, snd first).
Proof.
  intros Hclient Hmiss Hsome Hsame Hmd5 Hnow first. subst first.
  set (w' := QueryCache.with_entries w entries now) in *.
  remember (OptimizedRAGService._get_query_cache_key w q1 context_type source_id) as key
    eqn:Hkeydef.
  destruct (query_returns self w' q1 context_type source_id max_chunks_arg)
    as [response Hresponse].
  exists response.
  assert (Hfirst : QueryCache.query self w entries now q1 context_type source_id
                     max_chunks_arg
                   = (Py.Returned response, <[key := (response, now + 3600)]> entries)).
  { unfold QueryCache.query. fold w'. rewrite Hresponse.
    change (OptimizedRAGService._get_query_cache_key w' q1 context_type source_id)
      with (OptimizedRAGService._get_query_cache_key w q1 context_type source_id).
    rewrite <- Hkeydef.
    rewrite Hclient, Hmiss.
    destruct (OptimizedRAGService.optimized_similarity_search self w' q1 context_type
                source_id (OptimizedRAGService.or_max_chunks self max_chunks_arg));
      [congruence | reflexivity]. }
  rewrite Hfirst. cbn [fst snd]. split; [reflexivity |].
  assert (Hkey : OptimizedRAGService._get_query_cache_key
                   (QueryCache.with_entries w2 (<[key := (response, now + 3600)]> entries) now')
                   q2 context_type source_id = key).
  { rewrite Hkeydef.
    unfold OptimizedRAGService._get_query_cache_key, OptimizedRAGService.cache_string.
    cbn [Api.md5 QueryCache.with_entries]. rewrite Hmd5.
    now rewrite (normalized_same q1 q2 Hsame). }
  assert (Hhit : QueryCache.get (<[key := (response, now + 3600)]> entries) now' key
                 = Some response).
  { unfold QueryCache.get. rewrite lookup_insert_eq.
    destruct (Z.ltb_spec now' (now + 3600)); [reflexivity | lia]. }
  assert (Hrun : OptimizedRAGService.query self
                   (QueryCache.with_entries w2 (<[key := (response, now + 3600)]> entries) now')
                   q2 context_type source_id max_chunks_arg2 = Py.Returned response).
  { unfold OptimizedRAGService.query, OptimizedRAGService.query_body.
    rewrite Hclient, Hkey. unfold OptimizedRAGService.get_rag_query_cache.
    cbn [Api.cache_get QueryCache.with_entries]. now rewrite Hhit. }
  unfold QueryCache.query. rewrite Hrun, Hkey, Hhit. cbn [QueryCache.hit negb].
  now rewrite andb_false_r.
Qed.

Lemma cached_answer_is_served_again_witness :
  exists response,
    fst (QueryCache.query (OptimizedRAGService.init true) Spec.example_world ∅ 100
           "What are the skills?" None None None) = Py.Returned response
    /\ QueryCache.query (OptimizedRAGService.init true) Spec.world_synthesis_down
         (snd (QueryCache.query (OptimizedRAGService.init true) Spec.example_world ∅ 100
                 "What are the skills?" None None None))
         200 "  what ARE the skills? " None None None
       = (Py.Returned response,
          snd (QueryCache.query (OptimizedRAGService.init true) Spec.example_world ∅ 100
                 "What are the skills?" None None None)).
Proof.
  apply (cached_answer_is_served_again (OptimizedRAGService.init true) Spec.example_world
           Spec.world_synthesis_down ∅ 100 200 "What are the skills?"
           "  what ARE the skills? " None None None None).
  - reflexivity.
  - reflexivity.
  - vm_compute. discriminate.
  - exists "", "What are the skills?", "", "  ", "what ARE the skills?", " ".
    repeat split; reflexivity.
  - reflexivity.
  - lia.
Defined.

(** ** Sources of an answer *)

Section Sources.

Import Models RAGService.

Lemma substring_length_le (m : nat) (s : string) :
  (String.length (String.substring 0 m s) <= m)%nat.
Proof.
  revert s. induction m as [| m IH]; intros s; simpl; [destruct s; simpl; lia |].
  destruct s as [| c s]; simpl; [lia |]. specialize (IH s). lia.
Qed.

Lemma prepare_sources_from_shape (i : Z) (chunks : list DocumentChunk) :
  Forall2
    (fun chunk src =>
       src_id src = chunk_id chunk
       /\ src_context_type src = source_type chunk
       /\ src_source_id src = Models.source_id chunk
       /\ src_title src <> ""
       /\ (String.length (src_content src) <= 203)%nat
       /\ ((String.length (content chunk) <= 200)%nat -> src_content src = content chunk))
    chunks (_prepare_sources_from i chunks).
Proof.
  revert i. induction chunks as [| chunk rest IH]; intros i; simpl; constructor;
    [| apply IH].
  cbn [src_id src_title src_content src_context_type src_source_id].
  split; [reflexivity |]. split; [reflexivity |]. split; [reflexivity |]. split.
  - destruct (source_title chunk) eqn:Ht; cbn [Py.truthy]; discriminate.
  - destruct (Z.ltb_spec 200 (Z.of_nat (String.length (content chunk)))) as [Hlong | Hshort].
    + split; [| lia]. rewrite string_app_length.
      pose proof (substring_length_le 200 (content chunk)). simpl. lia.
    + split; [lia | reflexivity].
Qed.

End Sources.

(** X17.  [_prepare_sources] returns one source per chunk, in order, with
    the chunk's id, source type and source id, a title that is never empty
    ("Source i" when the chunk has none), and the chunk's content whole
    when it has 200 characters at most, and never more than 203 characters
    of it (200 and the ellipsis). *)
Theorem prepare_sources_shape (chunks : list Models.DocumentChunk) :
  List.length (RAGService._prepare_sources chunks) = List.length chunks
  /\ Forall2
       (fun chunk src =>
          RAGService.src_id src = Models.chunk_id chunk
          /\ RAGService.src_context_type src = Models.source_type chunk
          /\ RAGService.src_source_id src = Models.source_id chunk
          /\ RAGService.src_title src <> ""
          /\ (String.length (RAGService.src_content src) <= 203)%nat
          /\ ((String.length (Models.content chunk) <= 200)%nat ->
              RAGService.src_content src = Models.content chunk))
       chunks (RAGService._prepare_sources chunks).
Proof.
  pose proof (prepare_sources_from_shape 1 chunks) as Hshape.
  split; [| exact Hshape].
  unfold RAGService._prepare_sources.
  symmetry. eapply Forall2_length. exact Hshape.
Qed.

(** ** The job an ingestion run records *)

Section Jobs.

Import Models ContentProcessor.

Lemma process_chunks_jobs (svc : Embedder) (chunks_data : list pyvalue)
    (source_type source_id source_title : string) (st st' : Store)
    (created : list DocumentChunk) :
  process_chunks svc st chunks_data source_type source_id source_title
  = Py.Returned (created, st') ->
  jobs st' = jobs st.
Proof.
  revert st st' created.
  induction chunks_data as [| chunk_data rest IH]; intros st st' created; simpl.
  - now intros [= <- <-].
  - destruct (process_chunk svc st chunk_data source_type source_id source_title)
      as [[c st1] | e] eqn:Hone; simpl; [| discriminate].
    destruct (process_chunks svc st1 rest source_type source_id source_title)
      as [[cs st2] | e] eqn:Hrest; simpl; [| discriminate].
    intros [= <- <-]. rewrite (IH _ _ _ Hrest).
    revert Hone. unfold process_chunk.
    destruct (getitem chunk_data "content") as [content_v | e]; simpl; [| discriminate].
    destruct (create_embedding svc content_v) as [embedding | e]; simpl; [| discriminate].
    destruct (as_str content_v) as [content | e]; simpl; [| discriminate].
    destruct (getitem chunk_data "token_count") as [tv | e]; simpl; [| discriminate].
    destruct (getitem chunk_data "chunk_index") as [iv | e]; simpl; [| discriminate].
    destruct (as_int tv) as [token_count | e]; simpl; [| discriminate].
    destruct (as_int iv) as [chunk_index | e]; simpl; [| discriminate].
    now intros [= <- <-].
Qed.

(** A run of sections leaves the jobs alone, and when it succeeds the
    count it returns has grown by the number of chunks stored. *)
Lemma process_sections_accounting (svc : Embedder) (sections : list Section_)
    (source_type source_id : string) (st : Store) (n0 : Z) :
  let r := process_sections svc st sections source_type source_id n0 in
  jobs (snd r) = jobs st
  /\ (List.length (chunks st) <= List.length (chunks (snd r)))%nat
  /\ forall n, fst r = Py.Returned n ->
       n - n0 = Z.of_nat (List.length (chunks (snd r))) - Z.of_nat (List.length (chunks st)).
Proof.
  cbv zeta. revert st n0. induction sections as [| sec rest IH]; intros st n0; simpl.
  - split; [reflexivity |]. split; [lia |]. intros n [= <-]. lia.
  - destruct (Py.truthy (sec_content sec)); [| apply IH].
    unfold _process_text_content.
    destruct (chunk_text svc (sec_content sec)) as [chunks_data | e]; simpl.
    2:{ split; [reflexivity |]. split; [lia | discriminate]. }
    destruct (process_chunks svc st chunks_data source_type source_id (sec_title sec))
      as [[created st1] | e] eqn:Hloop; simpl.
    2:{ split; [reflexivity |]. split; [lia | discriminate]. }
    pose proof (process_chunks_appends _ _ _ _ _ _ _ _ Hloop) as Happ.
    pose proof (process_chunks_jobs _ _ _ _ _ _ _ _ Hloop) as Hjobs.
    destruct (IH st1 (n0 + Z.of_nat (List.length created))) as (Hj & Hle & Hcount).
    rewrite Happ, length_app in *.
    split; [congruence |]. split; [lia |].
    intros n Hn. specialize (Hcount n Hn). lia.
Qed.

Lemma set_job_last (st : Store) (job : ContentProcessingJob) (others : list ContentProcessingJob)
    (s : Status) (n : Z) (err : string) :
  jobs st = (others ++ [job])%list ->
  Forall (fun j => job_id j <> job_id job) others ->
  jobs (set_job st (job_id job) s n err)
  = (others
     ++ [{| job_id := job_id job; job_source_type := job_source_type job;
            job_source_id := job_source_id job; job_source_title := job_source_title job;
            job_content := job_content job; status := s; chunks_created := n;
            error_message := err |}])%list.
Proof.
  intros Hjobs Hothers. unfold set_job. cbn [jobs]. rewrite Hjobs, List.map_app.
  cbn [List.map]. rewrite N.eqb_refl. f_equal. clear Hjobs.
  induction Hothers as [| j others Hj Hrest IH]; [reflexivity |].
  cbn [List.map]. destruct (N.eqb_spec (job_id j) (job_id job)); [contradiction |].
  now rewrite IH.
Qed.

Lemma process_source_accounting (svc : Embedder) (st : Store)
    (source_type source_id source_title job_text : string) (sections : list Section_) :
  Forall (fun j => job_id j <> next_id st) (jobs st) ->
  let run := process_source svc st source_type source_id source_title job_text sections in
  exists job,
    jobs (snd run) = (jobs st ++ [job])%list
    /\ job_id job = next_id st
    /\ job_source_type job = source_type /\ job_source_id job = source_id
    /\ match fst run with
       | Success n id =>
           id = next_id st /\ status job = completed /\ chunks_created job = n
           /\ Z.of_nat (List.length (chunks (snd run)))
              = Z.of_nat (List.length (chunks st)) + n
       | Failure err =>
           status job = failed /\ error_message job = err
           /\ (List.length (chunks st) <= List.length (chunks (snd run)))%nat
       end.
Proof.
  intros Hfresh run. subst run. unfold process_source.
  match goal with
  | |- context [process_sections svc ?s sections source_type source_id 0] =>
      destruct (process_sections_accounting svc sections source_type source_id s 0)
        as (Hjobs & Hle & Hcount);
      destruct (process_sections svc s sections source_type source_id 0)
        as [[n | e] st'] eqn:Hrun
  end; cbn [fst snd jobs chunks] in *.
  - pose proof (set_job_last st' _ _ completed n "" Hjobs Hfresh) as Hset.
    cbn [job_id job_source_type job_source_id job_source_title job_content] in Hset.
    eexists. split; [exact Hset |].
    cbn. repeat split. specialize (Hcount n eq_refl). lia.
  - pose proof (set_job_last st' _ _ failed 0 (Py.exn_str e) Hjobs Hfresh) as Hset.
    cbn [job_id job_source_type job_source_id job_source_title job_content] in Hset.
    eexists. split; [exact Hset |].
    cbn. repeat split. exact Hle.
Qed.

End Jobs.

(** X18.  Each run of [process_profile_content] or
    [process_project_content] records exactly one new job for the source
    (job ids being distinct): completed, with [chunks_created] the number
    of chunks the run added to the table and returned to the caller, or
    failed, with the error message returned to the caller. *)
Theorem ingest_records_one_job (svc : ContentProcessor.Embedder)
    (st : ContentProcessor.Store) (profile : ContentProcessor.Profile)
    (project : ContentProcessor.Project) :
  Forall (fun j => ContentProcessor.job_id j <> ContentProcessor.next_id st)
    (ContentProcessor.jobs st) ->
  let accounted (source_type source_id : string)
        (run : ContentProcessor.Outcome * ContentProcessor.Store) :=
    exists job,
      ContentProcessor.jobs (snd run) = (ContentProcessor.jobs st ++ [job])%list
      /\ ContentProcessor.job_id job = ContentProcessor.next_id st
      /\ ContentProcessor.job_source_type job = source_type
      /\ ContentProcessor.job_source_id job = source_id
      /\ match fst run with
         | ContentProcessor.Success n id =>
             id = ContentProcessor.next_id st
             /\ ContentProcessor.status job = ContentProcessor.completed
             /\ ContentProcessor.chunks_created job = n
             /\ Z.of_nat (List.length (ContentProcessor.chunks (snd run)))
                = Z.of_nat (List.length (ContentProcessor.chunks st)) + n
         | ContentProcessor.Failure err =>
             ContentProcessor.status job = ContentProcessor.failed
             /\ ContentProcessor.error_message job = err
             /\ (List.length (ContentProcessor.chunks st)
                 <= List.length (ContentProcessor.chunks (snd run)))%nat
         end in
  accounted "profile" (ContentProcessor.profile_id profile)
    (ContentProcessor.process_profile_content svc st profile)
  /\ accounted "project" (ContentProcessor.project_id project)
       (ContentProcessor.process_project_content svc st project).
Proof.
  intros Hfresh accounted. subst accounted. cbv beta. split.
  - unfold ContentProcessor.process_profile_content.
    now apply process_source_accounting.
  - unfold ContentProcessor.process_project_content.
    now apply process_source_accounting.
Qed.

Lemma ingest_records_one_job_witness :
  exists job,
    ContentProcessor.jobs
      (snd (ContentProcessor.process_profile_content Spec.dict_embedder Spec.stale_store
              Spec.profile_p1)) = [job]
    /\ ContentProcessor.status job = ContentProcessor.completed
    /\ ContentProcessor.chunks_created job = 1.
Proof.
  destruct (ingest_records_one_job Spec.dict_embedder Spec.stale_store Spec.profile_p1
              {| ContentProcessor.project_id := "x"; ContentProcessor.title := "";
                 ContentProcessor.description := "";
                 ContentProcessor.detailed_description := "";
                 ContentProcessor.tech_stack_text := "";
                 ContentProcessor.achievements_text := "";
                 ContentProcessor.challenges_text := "";
                 ContentProcessor.learnings := "" |} ltac:(constructor))
    as [(job & Hjobs & _ & _ & _ & Hrun) _].
  exists job. split; [exact Hjobs |].
  change (fst (ContentProcessor.process_profile_content Spec.dict_embedder Spec.stale_store
                 Spec.profile_p1))
    with (ContentProcessor.Success 1 8) in Hrun.
  cbv iota in Hrun. destruct Hrun as (_ & Hstatus & Hcreated & _).
  split; assumption.
Defined.

(** ** Reprocessing everything *)

Section Reprocessing.

Import Models ContentProcessor Reprocess.

Lemma set_job_chunks (st : Store) (id : N) (s : Status) (n : Z) (err : string) :
  chunks (set_job st id s n err) = chunks st.
Proof. reflexivity. Qed.

(** A run that succeeds reports the number of chunks it stored; a run that
    fails removes none. *)
Lemma process_source_chunk_count (svc : Embedder) (st : Store)
    (source_type source_id source_title job_text : string) (sections : list Section_) :
  let run := process_source svc st source_type source_id source_title job_text sections in
  (List.length (chunks st) <= List.length (chunks (snd run)))%nat
  /\ forall n id, fst run = Success n id ->
       Z.of_nat (List.length (chunks (snd run))) = Z.of_nat (List.length (chunks st)) + n.
Proof.
  cbv zeta. unfold process_source.
  match goal with
  | |- context [process_sections svc ?s sections source_type source_id 0] =>
      destruct (process_sections_accounting svc sections source_type source_id s 0)
        as (_ & Hle & Hcount);
      destruct (process_sections svc s sections source_type source_id 0)
        as [[n | e] st'] eqn:Hrun
  end; cbn [fst snd chunks set_job] in *.
  - split; [exact Hle |]. intros n' id [= <- _]. specialize (Hcount n eq_refl). lia.
  - split; [exact Hle | discriminate].
Qed.

Lemma process_profiles_counted (svc : Embedder) (profiles : list Profile) (st : Store)
    (totals : Totals) :
  let r := process_profiles svc st profiles totals in
  counted (totals, st) r (List.length profiles)
    (processed_profiles totals) (processed_profiles (fst r))
  /\ processed_projects (fst r) = processed_projects totals.
Proof.
  cbv zeta. revert st totals.
  induction profiles as [| profile rest IH]; intros st totals.
  - unfold counted; simpl. repeat split; lia.
  - cbn [process_profiles].
    unfold process_profile_content.
    match goal with
    | |- context [process_source svc st ?t ?i ?ti ?tx ?ss] =>
        destruct (process_source_chunk_count svc st t i ti tx ss) as [Hle Hcount];
        destruct (process_source svc st t i ti tx ss) as [[n id | err] st1] eqn:Hrun
    end; cbn [fst snd] in *.
    + specialize (Hcount n id eq_refl).
      match goal with
      | |- context [process_profiles svc st1 rest ?t] =>
          destruct (IH st1 t) as [Hrest Hproj];
          destruct (process_profiles svc st1 rest t) as [t' st'] eqn:Hloop
      end.
      unfold counted in *. cbn [fst snd total_chunks processed_profiles processed_projects
                                length] in *.
      split; [| exact Hproj]. lia.
    + destruct (IH st1 totals) as [Hrest Hproj].
      destruct (process_profiles svc st1 rest totals) as [t' st'] eqn:Hloop.
      unfold counted in *. cbn [fst snd length] in *.
      split; [| exact Hproj]. lia.
Qed.

Lemma process_projects_counted (svc : Embedder) (projects : list Project) (st : Store)
    (totals : Totals) :
  let r := process_projects svc st projects totals in
  counted (totals, st) r (List.length projects)
    (processed_projects totals) (processed_projects (fst r))
  /\ processed_profiles (fst r) = processed_profiles totals.
Proof.
  cbv zeta. revert st totals.
  induction projects as [| project rest IH]; intros st totals.
  - unfold counted; simpl. repeat split; lia.
  - cbn [process_projects].
    unfold process_project_content.
    match goal with
    | |- context [process_source svc st ?t ?i ?ti ?tx ?ss] =>
        destruct (process_source_chunk_count svc st t i ti tx ss) as [Hle Hcount];
        destruct (process_source svc st t i ti tx ss) as [[n id | err] st1] eqn:Hrun
    end; cbn [fst snd] in *.
    + specialize (Hcount n id eq_refl).
      match goal with
      | |- context [process_projects svc st1 rest ?t] =>
          destruct (IH st1 t) as [Hrest Hprof];
          destruct (process_projects svc st1 rest t) as [t' st'] eqn:Hloop
      end.
      unfold counted in *. cbn [fst snd total_chunks processed_profiles processed_projects
                                length] in *.
      split; [| exact Hprof]. lia.
    + destruct (IH st1 totals) as [Hrest Hprof].
      destruct (process_projects svc st1 rest totals) as [t' st'] eqn:Hloop.
      unfold counted in *. cbn [fst snd length] in *.
      split; [| exact Hprof]. lia.
Qed.

(** As the code stands a run over sections stores nothing, so a run that
    succeeds has met no text at all and counts no chunk. *)
Lemma process_sections_as_written_count (enc : Tokenizer)
    (embed : string -> Py.result (list Q)) (sections : list Section_)
    (source_type source_id : string) (st : Store) (n n' : Z) :
  fst (process_sections (embedding_service enc embed) st sections source_type source_id n)
  = Py.Returned n' ->
  n' = n.
Proof.
  intros Hrun.
  destruct (process_sections_accounting (embedding_service enc embed) sections source_type
              source_id st n) as (_ & _ & Hcount).
  specialize (Hcount n' Hrun).
  rewrite process_sections_as_written in Hcount. lia.
Qed.

Lemma process_source_as_written_count (enc : Tokenizer)
    (embed : string -> Py.result (list Q)) (st : Store)
    (source_type source_id source_title job_text : string) (sections : list Section_)
    (n : Z) (id : N) :
  fst (process_source (embedding_service enc embed) st source_type source_id source_title
         job_text sections) = Success n id ->
  n = 0.
Proof.
  intros Hrun.
  destruct (process_source_chunk_count (embedding_service enc embed) st source_type
              source_id source_title job_text sections) as [_ Hcount].
  specialize (Hcount n id Hrun). rewrite process_source_as_written in Hcount. lia.
Qed.

Lemma process_profiles_as_written (enc : Tokenizer) (embed : string -> Py.result (list Q))
    (profiles : list Profile) (st : Store) (totals : Totals) :
  let r := process_profiles (embedding_service enc embed) st profiles totals in
  chunks (snd r) = chunks st
  /\ total_chunks (fst r) = total_chunks totals
  /\ (Forall (fun p => bio p <> "") profiles ->
      processed_profiles (fst r) = processed_profiles totals).
Proof.
  cbv zeta. revert st totals.
  induction profiles as [| profile rest IH]; intros st totals; [now repeat split |].
  cbn [process_profiles].
  destruct (ingest_as_written_stores_nothing enc embed st profile) as [Hst Hfail].
  pose proof (process_source_as_written_count enc embed st "profile" (profile_id profile)
                "Profile Content" (bio profile)) as Hzero.
  unfold process_profile_content in *.
  match goal with
  | |- context [process_source ?svc st ?t ?i ?ti ?tx ?ss] =>
      specialize (Hzero ss);
      destruct (process_source svc st t i ti tx ss) as [[n id | err] st1] eqn:Hrun
  end; cbn [fst snd] in *.
  - specialize (Hzero n id eq_refl). subst n.
    match goal with
    | |- context [process_profiles ?svc st1 rest ?t] => destruct (IH st1 t) as (Hc & Ht & Hp)
    end.
    cbn [total_chunks processed_profiles] in *.
    split; [congruence |]. split; [lia |].
    intros Hall. inversion Hall as [| p ps Hbio Hrest]; subst.
    specialize (Hfail Hbio). discriminate.
  - destruct (IH st1 totals) as (Hc & Ht & Hp).
    split; [congruence |]. split; [exact Ht |].
    intros Hall. inversion Hall; subst. auto.
Qed.

Lemma process_projects_as_written (enc : Tokenizer) (embed : string -> Py.result (list Q))
    (projects : list Project) (st : Store) (totals : Totals) :
  let r := process_projects (embedding_service enc embed) st projects totals in
  chunks (snd r) = chunks st /\ total_chunks (fst r) = total_chunks totals.
Proof.
  cbv zeta. revert st totals.
  induction projects as [| project rest IH]; intros st totals; [now split |].
  cbn [process_projects].
  pose proof (process_source_as_written enc embed st "project" (project_id project)
                (title project) (description project)) as Hst.
  pose proof (process_source_as_written_count enc embed st "project" (project_id project)
                (title project) (description project)) as Hzero.
  unfold process_project_content.
  match goal with
  | |- context [process_source ?svc st ?t ?i ?ti ?tx ?ss] =>
      specialize (Hzero ss); specialize (Hst ss);
      destruct (process_source svc st t i ti tx ss) as [[n id | err] st1] eqn:Hrun
  end; cbn [fst snd] in *.
  - specialize (Hzero n id eq_refl). subst n.
    match goal with
    | |- context [process_projects ?svc st1 rest ?t] => destruct (IH st1 t) as (Hc & Ht)
    end.
    cbn [total_chunks] in *. split; [congruence | lia].
  - destruct (IH st1 totals) as (Hc & Ht). split; [congruence | exact Ht].
Qed.

End Reprocessing.

(** X19.  The counters of [reprocess_all_content], for any chunker and
    embedder: [total_chunks] is never negative and never more than the
    number of chunks in the table afterwards (the chunks of the sections a
    failed source completed are stored but not counted), each processed
    counter is at most the number of sources of its kind, and when every
    profile and every project succeeded [total_chunks] is exactly the
    number of chunks in the table. *)
Theorem reprocess_all_content_counts (svc : ContentProcessor.Embedder)
    (st : ContentProcessor.Store) (profiles : list ContentProcessor.Profile)
    (projects : list ContentProcessor.Project) :
  let r := Reprocess.reprocess_all_content svc st profiles projects in
  let stored := Z.of_nat (List.length (ContentProcessor.chunks (snd r))) in
  0 <= Reprocess.total_chunks (fst r) <= stored
  /\ 0 <= Reprocess.processed_profiles (fst r) <= Z.of_nat (List.length profiles)
  /\ 0 <= Reprocess.processed_projects (fst r) <= Z.of_nat (List.length projects)
  /\ (Reprocess.processed_profiles (fst r) = Z.of_nat (List.length profiles) ->
      Reprocess.processed_projects (fst r) = Z.of_nat (List.length projects) ->
      Reprocess.total_chunks (fst r) = stored).
Proof.
  cbv zeta. unfold Reprocess.reprocess_all_content.
  match goal with
  | |- context [Reprocess.process_profiles svc ?s profiles ?t] =>
      destruct (process_profiles_counted svc profiles s t) as [Hprof Hpj];
      destruct (Reprocess.process_profiles svc s profiles t) as [t1 st1] eqn:Hone
  end.
  cbn [fst snd].
  destruct (process_projects_counted svc projects st1 t1) as [Hproj Hpp].
  destruct (Reprocess.process_projects svc st1 projects t1) as [t2 st2] eqn:Htwo.
  unfold Reprocess.counted in *.
  cbn [fst snd Reprocess.total_chunks Reprocess.processed_profiles
       Reprocess.processed_projects ContentProcessor.chunks length] in *.
  lia.
Qed.

Lemma reprocess_all_content_counts_witness :
  Reprocess.total_chunks
    (fst (Reprocess.reprocess_all_content Spec.dict_embedder Spec.stale_store
            [Spec.profile_p1] []))
  = Z.of_nat
      (List.length
         (ContentProcessor.chunks
            (snd (Reprocess.reprocess_all_content Spec.dict_embedder Spec.stale_store
                    [Spec.profile_p1] [])))).
Proof.
  destruct (reprocess_all_content_counts Spec.dict_embedder Spec.stale_store
              [Spec.profile_p1] []) as (_ & _ & _ & Hall).
  apply Hall; reflexivity.
Defined.

(** X20.  As the code stands ([chunk_text] returns strings, which the
    loop of [_process_text_content] indexes by key),
    [reprocess_all_content] leaves the chunk table empty and reports
    [total_chunks = 0], whatever was stored before and whatever the
    profiles and projects hold; a profile with a bio is not counted as
    processed. *)
Theorem reprocess_all_content_as_written (enc : Tokenizer)
    (embed : string -> Py.result (list Q)) (st : ContentProcessor.Store)
    (profiles : list ContentProcessor.Profile) (projects : list ContentProcessor.Project) :
  let r := Reprocess.reprocess_all_content (ContentProcessor.embedding_service enc embed)
             st profiles projects in
  ContentProcessor.chunks (snd r) = []
  /\ Reprocess.total_chunks (fst r) = 0
  /\ (Forall (fun p => ContentProcessor.bio p <> "") profiles ->
      Reprocess.processed_profiles (fst r) = 0).
Proof.
  cbv zeta. unfold Reprocess.reprocess_all_content.
  match goal with
  | |- context [Reprocess.process_profiles ?svc ?s profiles ?t] =>
      destruct (process_profiles_as_written enc embed profiles s t) as (Hc1 & Ht1 & Hp1);
      destruct (process_projects_counted svc projects
                  (snd (Reprocess.process_profiles svc s profiles t))
                  (fst (Reprocess.process_profiles svc s profiles t))) as [_ Hkeep];
      destruct (process_projects_as_written enc embed projects
                  (snd (Reprocess.process_profiles svc s profiles t))
                  (fst (Reprocess.process_profiles svc s profiles t))) as (Hc2 & Ht2)
  end.
  cbn [ContentProcessor.chunks Reprocess.total_chunks Reprocess.processed_profiles] in *.
  split; [congruence |]. split; [congruence |].
  intros Hall. rewrite Hkeep. now apply Hp1.
Qed.

Lemma reprocess_all_content_as_written_witness :
  Reprocess.processed_profiles
    (fst (Reprocess.reprocess_all_content
            (ContentProcessor.embedding_service char_tokenizer (fun _ => Py.Returned []))
            Spec.stale_store [Spec.profile_p1] [])) = 0.
Proof.
  destruct (reprocess_all_content_as_written char_tokenizer (fun _ => Py.Returned [])
              Spec.stale_store [Spec.profile_p1] []) as (_ & _ & Hnone).
  apply Hnone. repeat constructor. discriminate.
Defined.
